(** * agent-stack: identity resolution, payment gate and session routing

    A shallow embedding of the TypeScript sources
    - identity/verify      ([parseAgentId], [formatAgentId],
                            [fetchRegistrationFile], [verifyAgent],
                            [getMcpEndpoint], [getA2aEndpoint]),
    - identity/registry    ([AgentIdentity]: the constructor,
                            [buildRegistrationUri], [getAgentURI],
                            [getPaymentWallet], [getOwner]),
    - payments/server      ([PaymentServer], its [middleware]),
    - payments/client      ([PaymentClient]: [getPaidFetch],
                            [decodeReceipt], [checkPaymentRequirements]),
    - data/server          ([AgentMcpServerInstance]: the constructor,
                            the built-in [ping], [tool], [listen]),
    - data/client          ([createAgentMcpClient]),
    - cli                  ([parseGlobalId]),
    followed by the properties of the specification and by further
    properties of the code.

    Conventions of the embedding.
    - A JavaScript string is a [string]; [toLowerCase] acts on the ASCII
      letters, which is exact for every character the global-id pattern
      admits.  UTF-8 encoding and decoding of a [Buffer] are the identity on
      this representation.
    - The JavaScript numbers of this program are chain ids, agent ids and a
      timeout: [number] holds the non-negative integral doubles and
      [Infinity], the values that [Number] yields on a run of digits.
    - A function that may throw returns a [Result]; the thrown [Error] is
      kept by its message.
    - [JSON], [Buffer] (base64) and [decodeURIComponent] belong to the
      runtime: they are the fields of a [Platform].  The ledger
      ([readContract]) and the network ([fetch]) are the fields of a
      [World].
    - The protocol engine ([McpServer], its transports) and the packages
      [@x402/fetch] and [@x402/evm] are external: the engine's calls
      return, and the packages are a parameter of the payment client. *)

From stdpp Require Import base option gmap strings pretty.
From Stdlib Require Import String Ascii NArith ZArith Lia List Bool.
From Stdlib Require Import DecimalString DecimalN.
Import ListNotations.
Open Scope string_scope.
Set Warnings "-register-all".

(** ** Strings *)

Module JS.

Definition dquote : string := String "034"%char EmptyString.
Definition newline : string := String "010"%char EmptyString.

(** [s.startsWith(p)] *)
Fixpoint startsWith (s p : string) : bool :=
  match p, s with
  | EmptyString, _ => true
  | String a p', String b s' => Ascii.eqb a b && startsWith s' p'
  | String _ _, EmptyString => false
  end.

(** [s.slice(n)] for [0 <= n] *)
Fixpoint slice (s : string) (n : nat) : string :=
  match n, s with
  | O, _ => s
  | S n', String _ s' => slice s' n'
  | S _, EmptyString => EmptyString
  end.

(** [s.includes(p)] *)
Fixpoint includes (s p : string) : bool :=
  startsWith s p ||
  match s with
  | EmptyString => false
  | String _ s' => includes s' p
  end.

(** [s.replace(a, b)] for one-character strings [a] and [b]: only the first
    occurrence is replaced. *)
Fixpoint replaceFirst (s : string) (a b : ascii) : string :=
  match s with
  | EmptyString => EmptyString
  | String c s' =>
      if Ascii.eqb c a then String b s' else String c (replaceFirst s' a b)
  end.

Definition lowerAscii (c : ascii) : ascii :=
  let n := nat_of_ascii c in
  if (65 <=? n)%nat && (n <=? 90)%nat then ascii_of_nat (n + 32) else c.

(** [s.toLowerCase()] *)
Fixpoint toLowerCase (s : string) : string :=
  match s with
  | EmptyString => EmptyString
  | String c s' => String (lowerAscii c) (toLowerCase s')
  end.

(** ** Numbers *)

Inductive number : Type :=
  | Finite (n : N)
  | Infinity.

(** [a === b] on two numbers *)
Definition number_eqb (a b : number) : bool :=
  match a, b with
  | Finite x, Finite y => N.eqb x y
  | Infinity, Infinity => true
  | _, _ => false
  end.

(** The double nearest to the integer [v], ties to even; [Infinity] from
    [2^1024 - 2^970] on. *)
Definition roundToDouble (v : N) : number :=
  if (v <? 2 ^ 53)%N then Finite v
  else
    let e := (N.log2 v - 52)%N in
    let q := N.shiftr v e in
    let r := (v - N.shiftl q e)%N in
    let half := (2 ^ (e - 1))%N in
    let q' := if (half <? r)%N || ((r =? half)%N && N.odd q)
              then (q + 1)%N else q in
    let x := N.shiftl q' e in
    if (2 ^ 1024 <=? x)%N then Infinity else Finite x.

(** The mathematical value of a run of decimal digits. *)
Definition decimalValue (digits : string) : N :=
  match NilEmpty.uint_of_string digits with
  | Some d => N.of_uint d
  | None => 0%N
  end.

(** [Number(digits)] on a run of decimal digits *)
Definition Number_ofDigits (digits : string) : number :=
  roundToDouble (decimalValue digits).

(** The decimal numeral of [n], without leading zeros. *)
Definition decimal (n : N) : string :=
  NilEmpty.string_of_uint (N.to_uint n).

Definition roundsTo (c x : N) : bool :=
  match roundToDouble c with
  | Finite y => N.eqb y x
  | Infinity => false
  end.

(** Number::toString looks for the shortest digit string [s] with
    [s * 10^(n-k)] rounding to [x]; [candidate x n k] is that value for [k]
    significant digits, the closest to [x] when two qualify. *)
Definition candidate (x : N) (n k : nat) : option N :=
  let p := (10 ^ N.of_nat (n - k))%N in
  let lo := (x / p * p)%N in
  let hi := (lo + p)%N in
  match roundsTo lo x, roundsTo hi x with
  | true, false => Some lo
  | false, true => Some hi
  | true, true =>
      if (x - lo <? hi - x)%N then Some lo
      else if (hi - x <? x - lo)%N then Some hi
      else if N.even (x / p) then Some lo else Some hi
  | false, false => None
  end.

Fixpoint shortestFrom (x : N) (n k fuel : nat) : N :=
  match fuel with
  | O => x
  | S fuel' =>
      match candidate x n k with
      | Some c => c
      | None => shortestFrom x n (S k) fuel'
      end
  end.

Definition shortestDecimal (x : N) : N :=
  let n := String.length (decimal x) in
  shortestFrom x n 1 n.

Fixpoint dropZeros (s : string) : string :=
  match s with
  | String "0"%char s' => dropZeros s'
  | _ => s
  end.

Fixpoint rev_string (s acc : string) : string :=
  match s with
  | EmptyString => acc
  | String c s' => rev_string s' (String c acc)
  end.

Definition stripTrailingZeros (s : string) : string :=
  rev_string (dropZeros (rev_string s EmptyString)) EmptyString.

(** [String(x)], also what a template literal makes of a number *)
Definition Number_toString (x : number) : string :=
  match x with
  | Infinity => "Infinity"
  | Finite v =>
      let c := shortestDecimal v in
      let ds := decimal c in
      let n := String.length ds in
      if (c <? 10 ^ 21)%N then ds
      else
        match stripTrailingZeros ds with
        | String d rest =>
            String d (match rest with
                      | EmptyString => EmptyString
                      | _ => "." ++ rest
                      end)
            ++ "e+" ++ decimal (N.of_nat (n - 1))
        | EmptyString => ds
        end
  end.

(** ** Values, errors, runtime and environment *)

(** The outcome of code that may throw. *)
Inductive Result (A : Type) : Type :=
  | Ok (a : A)
  | Throw (message : string).
Arguments Ok {A} a.
Arguments Throw {A} message.

(** What [JSON.parse] can return. *)
Inductive JValue : Type :=
  | JNull
  | JBool (b : bool)
  | JNum (n : number)
  | JStr (s : string)
  | JArr (items : list JValue)
  | JObj (fields : list (string * JValue)).

Fixpoint lookupField (fields : list (string * JValue)) (k : string)
  : option JValue :=
  match fields with
  | [] => None
  | (k', v) :: rest => if String.eqb k' k then Some v else lookupField rest k
  end.

(** [v.k], where [None] stands for [undefined].  Reading a property of
    [undefined] or [null] throws a TypeError; a primitive or an array has
    none of the property names this program reads. *)
Definition getProp (v : option JValue) (k : string) : Result (option JValue) :=
  match v with
  | None =>
      Throw ("Cannot read properties of undefined (reading '" ++ k ++ "')")
  | Some JNull =>
      Throw ("Cannot read properties of null (reading '" ++ k ++ "')")
  | Some (JObj fields) => Ok (lookupField fields k)
  | Some _ => Ok None
  end.

(** [v?.k] *)
Definition getPropOpt (v : option JValue) (k : string) : option JValue :=
  match v with
  | Some (JObj fields) => lookupField fields k
  | _ => None
  end.

(** [!!v] *)
Definition truthy (v : option JValue) : bool :=
  match v with
  | None | Some JNull => false
  | Some (JBool b) => b
  | Some (JNum (Finite n)) => negb (N.eqb n 0)
  | Some (JNum Infinity) => true
  | Some (JStr s) => negb (String.eqb s "")
  | Some (JArr _) | Some (JObj _) => true
  end.

(** [a ?? b] *)
Definition nullish (a b : option JValue) : option JValue :=
  match a with
  | None | Some JNull => b
  | _ => a
  end.

(** [BigInt(n)]: a RangeError when [n] is not an integer. *)
Definition BigInt (n : number) : Result N :=
  match n with
  | Finite v => Ok v
  | Infinity =>
      Throw "The number Infinity cannot be converted to a BigInt because it is not an integer"
  end.

(** The runtime library. *)
Record Platform : Type := {
  (** [JSON.stringify(v)] *)
  JSON_stringify : JValue -> string;
  (** [JSON.parse(s)], a SyntaxError on malformed text *)
  JSON_parse : string -> Result JValue;
  (** [Buffer.from(s).toString("base64")] *)
  base64_encode : string -> string;
  (** [Buffer.from(s, "base64").toString("utf8")], which never throws *)
  base64_decode : string -> string;
  (** [decodeURIComponent(s)], a URIError on a malformed escape *)
  decodeURIComponent : string -> Result string
}.

Record HttpResponse : Type := {
  ok : bool;
  status : N;
  text : Result string
}.

(** The ledger and the network. *)
Record World : Type := {
  (** [createPublicClient({transport: http(rpcUrl)}).readContract(
        {address, functionName, args: [id]})] *)
  readContract : string -> string -> string -> N -> Result string;
  (** [fetch(url, {headers: {Accept}})] *)
  fetch : string -> option string -> Result HttpResponse
}.

End JS.

Import JS.

(** ** identity: constants *)

Module Identity.

Definition IDENTITY_REGISTRY_ADDRESS : string :=
  "0x8004A169FB4a3325136EB29fA0ceB6D2e539a432".

Definition ZERO_ADDRESS : string :=
  "0x0000000000000000000000000000000000000000".

Definition REGISTRATION_TYPE : string :=
  "https://eips.ethereum.org/EIPS/eip-8004#registration-v1".

Record ChainDefaults : Type := {
  chain_name : string;
  chain_rpc : string
}.

(** [SUPPORTED_CHAINS], keyed as an object is: by the string of the chain
    id. *)
Definition SUPPORTED_CHAINS : list (string * ChainDefaults) :=
  [ ("1", {| chain_name := "Ethereum"; chain_rpc := "https://eth.llamarpc.com" |});
    ("8453", {| chain_name := "Base"; chain_rpc := "https://mainnet.base.org" |});
    ("10", {| chain_name := "Optimism"; chain_rpc := "https://mainnet.optimism.io" |});
    ("42161", {| chain_name := "Arbitrum"; chain_rpc := "https://arb1.arbitrum.io/rpc" |});
    ("137", {| chain_name := "Polygon"; chain_rpc := "https://polygon-rpc.com" |});
    ("56", {| chain_name := "BNB Chain"; chain_rpc := "https://bsc-dataseed.binance.org" |});
    ("100", {| chain_name := "Gnosis"; chain_rpc := "https://rpc.gnosischain.com" |});
    ("42220", {| chain_name := "Celo"; chain_rpc := "https://forno.celo.org" |});
    ("59144", {| chain_name := "Linea"; chain_rpc := "https://rpc.linea.build" |});
    ("534352", {| chain_name := "Scroll"; chain_rpc := "https://rpc.scroll.io" |});
    ("167000", {| chain_name := "Taiko"; chain_rpc := "https://rpc.mainnet.taiko.xyz" |});
    ("43114", {| chain_name := "Avalanche"; chain_rpc := "https://api.avax.network/ext/bc/C/rpc" |});
    ("5000", {| chain_name := "Mantle"; chain_rpc := "https://rpc.mantle.xyz" |});
    ("1088", {| chain_name := "Metis"; chain_rpc := "https://andromeda.metis.io/?owner=1088" |});
    ("2741", {| chain_name := "Abstract"; chain_rpc := "https://api.mainnet.abs.xyz" |});
    ("143", {| chain_name := "Monad"; chain_rpc := "https://rpc.monad.xyz" |}) ].

Fixpoint assoc {A : Type} (l : list (string * A)) (k : string) : option A :=
  match l with
  | [] => None
  | (k', v) :: rest => if String.eqb k' k then Some v else assoc rest k
  end.

(** [SUPPORTED_CHAINS[chainId]] *)
Definition supportedChain (chainId : number) : option ChainDefaults :=
  assoc SUPPORTED_CHAINS (Number_toString chainId).

(** ** identity: types *)

Record AgentRef : Type := {
  namespace : string;
  chainId : number;
  registry : string;
  agentId : number
}.

Record VerificationResult : Type := {
  valid : bool;
  vr_agentId : number;
  owner : option string;
  paymentWallet : option string;
  registration : option JValue;
  globalId : string;
  error : option string
}.

Record AgentRegistrationRef : Type := {
  ref_agentId : number;
  agentRegistry : string
}.

Record AgentService : Type := {
  svc_name : string;
  svc_endpoint : string;
  svc_version : option string;
  svc_skills : option (list string);
  svc_domains : option (list string)
}.

Record RegisterOptions : Type := {
  opt_name : string;
  opt_description : string;
  opt_image : option string;
  opt_services : option (list AgentService);
  opt_x402Support : option bool;
  opt_active : option bool;
  opt_supportedTrust : option (list string);
  opt_existingRegistrations : option (list AgentRegistrationRef)
}.

(** ** identity: parseAgentId and formatAgentId *)

Definition isDigit (c : ascii) : bool :=
  let n := nat_of_ascii c in (48 <=? n)%nat && (n <=? 57)%nat.

Definition isHexDigit (c : ascii) : bool :=
  let n := nat_of_ascii c in
  isDigit c || ((65 <=? n)%nat && (n <=? 70)%nat)
            || ((97 <=? n)%nat && (n <=? 102)%nat).

(** The longest prefix of [s] in the class [p], and what follows it. *)
Fixpoint span (p : ascii -> bool) (s : string) : string * string :=
  match s with
  | EmptyString => (EmptyString, EmptyString)
  | String c s' =>
      if p c then let '(a, b) := span p s' in (String c a, b)
      else (EmptyString, s)
  end.

Definition stripPrefix (p s : string) : option string :=
  if startsWith s p then Some (slice s (String.length p)) else None.

(** [s.match(/^(eip155):(\d+):(0x[0-9a-fA-F]+)#(\d+)$/)]: the four groups.
    Each repetition is followed by a character outside its class, so the
    longest run is the only one that can match. *)
Definition matchGlobalId (s : string)
  : option (string * string * string * string) :=
  match stripPrefix "eip155:" s with
  | None => None
  | Some s1 =>
      let '(chain, s2) := span isDigit s1 in
      if String.eqb chain "" then None
      else
        match stripPrefix ":0x" s2 with
        | None => None
        | Some s3 =>
            let '(hex, s4) := span isHexDigit s3 in
            if String.eqb hex "" then None
            else
              match stripPrefix "#" s4 with
              | None => None
              | Some s5 =>
                  let '(id, s6) := span isDigit s5 in
                  if String.eqb id "" then None
                  else if String.eqb s6 "" then
                    Some ("eip155", chain, "0x" ++ hex, id)
                  else None
              end
        end
  end.

Definition parseAgentId (globalId : string) : Result AgentRef :=
  let normalized := replaceFirst globalId "/" "#" in
  match matchGlobalId normalized with
  | None =>
      Throw ("Invalid agent global ID format: " ++ dquote ++ globalId ++ dquote
             ++ newline
             ++ "Expected: " ++ dquote ++ "eip155:{chainId}:{registry}#{agentId}"
             ++ dquote ++ " (e.g. " ++ dquote ++ "eip155:8453:0x8004...#2376"
             ++ dquote ++ ")")
  | Some (ns, chain, reg, id) =>
      Ok {| namespace := ns;
            chainId := Number_ofDigits chain;
            registry := reg;
            agentId := Number_ofDigits id |}
  end.

Definition formatAgentId (ref : AgentRef) : string :=
  namespace ref ++ ":" ++ Number_toString (chainId ref) ++ ":"
  ++ registry ref ++ "#" ++ Number_toString (agentId ref).

(** ** identity: fetchRegistrationFile and verifyAgent *)

Section Resolver.

Context (P : Platform) (W : World).

Definition DEFAULT_IPFS_GATEWAY : string := "https://ipfs.io/ipfs/".

(** [await fetch(url, ...)] followed by the [response.ok] test and
    [await response.text()] *)
Definition fetchText (url : string) (accept : option string)
    (failure : N -> string) : Result string :=
  match fetch W url accept with
  | Throw m => Throw m
  | Ok response =>
      if ok response then text response
      else Throw (failure (status response))
  end.

(** [fetchRegistrationFile(agentUri, ipfsGateway)]: the URLs it requested
    from the network, and its outcome. *)
Definition fetchRegistrationFile (agentUri ipfsGateway : string)
  : list string * Result JValue :=
  let '(requested, json) :=
    if startsWith agentUri "data:application/json;base64," then
      let b64 := slice agentUri (String.length "data:application/json;base64,") in
      ([], Ok (base64_decode P b64))
    else if startsWith agentUri "data:application/json," then
      ([], decodeURIComponent P
             (slice agentUri (String.length "data:application/json,")))
    else if startsWith agentUri "ipfs://" then
      let cid := slice agentUri (String.length "ipfs://") in
      let url := ipfsGateway ++ cid in
      ([url],
       fetchText url None (fun st =>
         "Failed to fetch IPFS URI: " ++ agentUri ++ " ("
         ++ Number_toString (Finite st) ++ ")"))
    else if startsWith agentUri "https://" || startsWith agentUri "http://" then
      ([agentUri],
       fetchText agentUri (Some "application/json") (fun st =>
         "Failed to fetch agent URI: " ++ agentUri ++ " ("
         ++ Number_toString (Finite st) ++ ")"))
    else
      ([], Throw ("Unsupported URI scheme: " ++ dquote ++ agentUri ++ dquote
                  ++ ". " ++ "Supported: data:, ipfs://, https://, http://"))
  in
  (requested,
   match json with
   | Throw m => Throw m
   | Ok j => JSON_parse P j
   end).

(** The argument of [verifyAgent] when it is not a string. *)
Record AgentRefInput : Type := {
  in_chainId : number;
  in_agentId : number;
  in_registry : option string;
  in_rpc : option string
}.

Inductive VerifyInput : Type :=
  | ByGlobalId (globalId : string)
  | ByRef (r : AgentRefInput).

(** The callback of [registrations.some]:
    [r.agentId === ref.agentId &&
     r.agentRegistry.toLowerCase() === registryPrefix] *)
Definition isBackref (ref : AgentRef) (registryPrefix : string) (r : JValue)
  : Result bool :=
  match getProp (Some r) "agentId" with
  | Throw m => Throw m
  | Ok (Some (JNum n)) =>
      if number_eqb n (agentId ref) then
        match getProp (Some r) "agentRegistry" with
        | Throw m => Throw m
        | Ok (Some (JStr s)) => Ok (String.eqb (toLowerCase s) registryPrefix)
        | Ok None =>
            Throw "Cannot read properties of undefined (reading 'toLowerCase')"
        | Ok (Some JNull) =>
            Throw "Cannot read properties of null (reading 'toLowerCase')"
        | Ok (Some _) => Throw "r.agentRegistry.toLowerCase is not a function"
        end
      else Ok false
  | Ok _ => Ok false
  end.

(** [items.some(cb)] for a callback that may throw *)
Fixpoint arraySome (cb : JValue -> Result bool) (items : list JValue)
  : Result bool :=
  match items with
  | [] => Ok false
  | r :: rest =>
      match cb r with
      | Throw m => Throw m
      | Ok true => Ok true
      | Ok false => arraySome cb rest
      end
  end.

(** [registration.registrations?.some(...)]; [None] is [undefined]. *)
Definition hasBackref (registration : JValue) (ref : AgentRef)
    (registryPrefix : string) : Result (option bool) :=
  match getProp (Some registration) "registrations" with
  | Throw m => Throw m
  | Ok None | Ok (Some JNull) => Ok None
  | Ok (Some (JArr items)) =>
      match arraySome (isBackref ref registryPrefix) items with
      | Throw m => Throw m
      | Ok b => Ok (Some b)
      end
  | Ok (Some _) => Throw "registration.registrations?.some is not a function"
  end.

Definition failed (ref : AgentRef) (globalId : string)
    (owner paymentWallet : option string) (registration : option JValue)
    (message : string) : VerificationResult :=
  {| valid := false;
     vr_agentId := agentId ref;
     owner := owner;
     paymentWallet := paymentWallet;
     registration := registration;
     globalId := globalId;
     error := Some message |}.

(** The handler of the outer [catch]. *)
Definition caught (ref : AgentRef) (globalId : string) (message : string)
  : VerificationResult :=
  failed ref globalId None None None
    (if includes message "revert" || includes message "ERC721"
     then "Agent #" ++ Number_toString (agentId ref)
          ++ " does not exist on chain " ++ Number_toString (chainId ref)
     else message).

Definition backrefMissing (ref : AgentRef) (registryPrefix : string) : string :=
  "Registration file does not contain a back-reference to this chain's registry. "
  ++ "Expected registrations entry: { agentId: "
  ++ Number_toString (agentId ref) ++ ", agentRegistry: " ++ dquote
  ++ registryPrefix ++ dquote ++ " }".

(** [registryPrefix] *)
Definition registryPrefix (ref : AgentRef) : string :=
  "eip155:" ++ Number_toString (chainId ref) ++ ":"
  ++ toLowerCase (registry ref).

(** One ledger read: [BigInt(ref.agentId)] is evaluated first. *)
Definition readField (rpcUrl : string) (ref : AgentRef) (fn : string)
  : Result string :=
  match BigInt (agentId ref) with
  | Throw m => Throw m
  | Ok id => readContract W rpcUrl (registry ref) fn id
  end.

(** The first statement of [verifyAgent]: [parseAgentId] for a string, the
    given fields otherwise. *)
Definition resolveRef (input : VerifyInput) : Result AgentRef :=
  match input with
  | ByGlobalId s => parseAgentId s
  | ByRef r =>
      Ok {| namespace := "eip155";
            chainId := in_chainId r;
            registry := match in_registry r with
                        | Some a => a
                        | None => IDENTITY_REGISTRY_ADDRESS
                        end;
            agentId := in_agentId r |}
  end.

(** [rpcUrl]: the [rpc] option of an object argument, else the default of
    the chain. *)
Definition rpcUrlFor (input : VerifyInput) (ref : AgentRef) : option string :=
  match (match input with ByRef r => in_rpc r | ByGlobalId _ => None end) with
  | Some u => Some u
  | None => option_map chain_rpc (supportedChain (chainId ref))
  end.

Definition verified (ref : AgentRef) (globalId owner : string)
    (paymentWallet : option string) (registration : JValue)
  : VerificationResult :=
  {| valid := true;
     vr_agentId := agentId ref;
     owner := Some owner;
     paymentWallet := paymentWallet;
     registration := Some registration;
     globalId := globalId;
     error := None |}.

(** [verifyAgent] from the point where [ref] is known: the part that
    returns a result on every path. *)
Definition verifyRef (input : VerifyInput) (ref : AgentRef)
  : VerificationResult :=
  let globalId := formatAgentId ref in
  match rpcUrlFor input ref with
  | None | Some EmptyString =>
      failed ref globalId None None None
        ("No RPC URL available for chain " ++ Number_toString (chainId ref)
         ++ ". Add to SUPPORTED_CHAINS or pass rpc option.")
  | Some rpcUrl =>
      match readField rpcUrl ref "ownerOf" with
      | Throw m => caught ref globalId m
      | Ok owner =>
      match readField rpcUrl ref "getAgentWallet" with
      | Throw m => caught ref globalId m
      | Ok paymentWalletRaw =>
      let paymentWallet :=
        if String.eqb paymentWalletRaw ZERO_ADDRESS then None
        else Some paymentWalletRaw in
      match readField rpcUrl ref "tokenURI" with
      | Throw m => caught ref globalId m
      | Ok agentUri =>
      match snd (fetchRegistrationFile agentUri DEFAULT_IPFS_GATEWAY) with
      | Throw m =>
          failed ref globalId (Some owner) paymentWallet None
            ("Failed to fetch registration file: " ++ m)
      | Ok registration =>
          match hasBackref registration ref (registryPrefix ref) with
          | Throw m => caught ref globalId m
          | Ok (Some true) =>
              verified ref globalId owner paymentWallet registration
          | Ok _ =>
              failed ref globalId (Some owner) paymentWallet
                (Some registration)
                (backrefMissing ref (registryPrefix ref))
          end
      end end end end
  end.

(** [verifyAgent(globalIdOrRef)]: [parseAgentId] is called outside the
    [try], so its error leaves the function. *)
Definition verifyAgent (input : VerifyInput) : Result VerificationResult :=
  match resolveRef input with
  | Throw m => Throw m
  | Ok ref => Ok (verifyRef input ref)
  end.

End Resolver.

(** ** identity: AgentIdentity.buildRegistrationUri *)

Record IdentityConfig : Type := {
  cfg_chainId : number;
  (** [config.chain.rpcUrls?.default?.http?.[0]] *)
  cfg_chainRpc : option string;
  cfg_rpc : option string;
  cfg_registry : option string
}.

Record AgentIdentity : Type := {
  config : IdentityConfig;
  self_registry : string;
  self_rpcUrl : string
}.

(** [new AgentIdentity(config)] *)
Definition newAgentIdentity (config : IdentityConfig) : Result AgentIdentity :=
  let registry := match cfg_registry config with
                  | Some a => a
                  | None => IDENTITY_REGISTRY_ADDRESS
                  end in
  let chainDefaults := supportedChain (cfg_chainId config) in
  let rpcUrl :=
    match cfg_rpc config with
    | Some u => u
    | None =>
        match cfg_chainRpc config with
        | Some u => u
        | None =>
            match chainDefaults with
            | Some d => chain_rpc d
            | None => ""
            end
        end
    end in
  if String.eqb rpcUrl "" then
    Throw ("No RPC URL provided for chain "
           ++ Number_toString (cfg_chainId config)
           ++ ". Pass rpc option or use a supported chain.")
  else Ok {| config := config; self_registry := registry; self_rpcUrl := rpcUrl |}.

Definition optField {A : Type} (k : string) (f : A -> JValue) (o : option A)
  : list (string * JValue) :=
  match o with
  | Some a => [(k, f a)]
  | None => []
  end.

Definition stringsJ (l : list string) : JValue := JArr (map JStr l).

Definition serviceJ (s : AgentService) : JValue :=
  JObj ([("name", JStr (svc_name s)); ("endpoint", JStr (svc_endpoint s))]
        ++ optField "version" JStr (svc_version s)
        ++ optField "skills" stringsJ (svc_skills s)
        ++ optField "domains" stringsJ (svc_domains s)).

Definition registrationRefJ (r : AgentRegistrationRef) : JValue :=
  JObj [("agentId", JNum (ref_agentId r));
        ("agentRegistry", JStr (agentRegistry r))].

(** The object [file] of [buildRegistrationUri]. *)
Definition registrationFile (self : AgentIdentity) (options : RegisterOptions)
    (agentId : option number) : JValue :=
  let chainId := cfg_chainId (config self) in
  let registrations :=
    match opt_existingRegistrations options with
    | Some l => l
    | None => []
    end in
  let registrations :=
    match agentId with
    | Some agentId =>
        {| ref_agentId := agentId;
           agentRegistry := "eip155:" ++ Number_toString chainId ++ ":"
                            ++ self_registry self |} :: registrations
    | None => registrations
    end in
  JObj ([("type", JStr REGISTRATION_TYPE);
         ("name", JStr (opt_name options));
         ("description", JStr (opt_description options))]
        ++ match opt_image options with
           | Some i => if String.eqb i "" then [] else [("image", JStr i)]
           | None => []
           end
        ++ [("services",
             JArr (map serviceJ match opt_services options with
                                | Some l => l
                                | None => []
                                end));
            ("x402Support",
             JBool match opt_x402Support options with
                   | Some b => b
                   | None => false
                   end);
            ("active",
             JBool match opt_active options with
                   | Some b => b
                   | None => true
                   end);
            ("registrations", JArr (map registrationRefJ registrations))]
        ++ optField "supportedTrust" stringsJ (opt_supportedTrust options)).

Definition buildRegistrationUri (P : Platform) (self : AgentIdentity)
    (options : RegisterOptions) (agentId : option number) : string :=
  let json := JSON_stringify P (registrationFile self options agentId) in
  "data:application/json;base64," ++ base64_encode P json.

End Identity.

Import Identity.

(** ** payments: constants and PaymentServer *)

Module Payments.

Definition USDC_BASE : string := "0x833589fCD6eDb6E08f4c7C32D4f71b54bdA02913".
Definition USDC_ETH : string := "0xA0b86991c6218b36c1d19D4a2e9Eb0cE3606eB48".
Definition USDC_POLYGON : string := "0x3c499c542cEF5E3811e1192ce70d8cC03d5c3359".
Definition USDC_ARBITRUM : string := "0xaf88d065e77c8cC2239327C5EDb3A432268e5831".
Definition USDC_OPTIMISM : string := "0x0b2C639c533813f4Aa9D7837CAf62653d097Ff85".

Definition NETWORK_USDC : list (string * string) :=
  [ ("eip155:1", USDC_ETH);
    ("eip155:8453", USDC_BASE);
    ("eip155:137", USDC_POLYGON);
    ("eip155:42161", USDC_ARBITRUM);
    ("eip155:10", USDC_OPTIMISM) ].

Definition DEFAULT_NETWORK : string := "eip155:8453".
Definition DEFAULT_MAX_AMOUNT : string := "10000000".
Definition DEFAULT_TIMEOUT_SECONDS : number := Finite 300.
Definition BASE_RPC : string := "https://mainnet.base.org".

Definition orElse {A : Type} (o : option A) (d : A) : A :=
  match o with
  | Some a => a
  | None => d
  end.

Record PaymentServerConfig : Type := {
  payTo : string;
  amount : string;
  asset : option string;
  network : option string;
  description : option string;
  maxTimeoutSeconds : option number
}.

(** [Partial<PaymentServerConfig>] *)
Record Overrides : Type := {
  ov_payTo : option string;
  ov_amount : option string;
  ov_asset : option string;
  ov_network : option string;
  ov_description : option string
}.

(** [Required<PaymentServerConfig>], the state of a [PaymentServer] *)
Record PaymentServer : Type := {
  ps_payTo : string;
  ps_amount : string;
  ps_asset : string;
  ps_network : string;
  ps_description : string;
  ps_maxTimeoutSeconds : number
}.

(** [new PaymentServer(config)] *)
Definition newPaymentServer (config : PaymentServerConfig) : PaymentServer :=
  let network := orElse (network config) DEFAULT_NETWORK in
  {| ps_payTo := payTo config;
     ps_amount := amount config;
     ps_asset :=
       match asset config with
       | Some a => a
       | None =>
           match assoc NETWORK_USDC network with
           | Some a => a
           | None => orElse (assoc NETWORK_USDC "eip155:8453") USDC_BASE
           end
       end;
     ps_network := network;
     ps_description := orElse (description config) "AI agent service payment";
     ps_maxTimeoutSeconds :=
       orElse (maxTimeoutSeconds config) DEFAULT_TIMEOUT_SECONDS |}.

Record PaymentRequirements : Type := {
  scheme : string;
  req_network : string;
  maxAmountRequired : string;
  resource : string;
  req_description : string;
  req_payTo : string;
  req_maxTimeoutSeconds : number;
  req_asset : string
}.

Definition buildRequirements (self : PaymentServer) (resource : string)
    (overrides : option Overrides) : PaymentRequirements :=
  let ov {A} (f : Overrides -> option A) : option A :=
    match overrides with
    | Some o => f o
    | None => None
    end in
  {| scheme := "exact";
     req_network := orElse (ov ov_network) (ps_network self);
     maxAmountRequired := orElse (ov ov_amount) (ps_amount self);
     resource := resource;
     req_description := orElse (ov ov_description) (ps_description self);
     req_payTo := orElse (ov ov_payTo) (ps_payTo self);
     req_maxTimeoutSeconds := ps_maxTimeoutSeconds self;
     req_asset := orElse (ov ov_asset) (ps_asset self) |}.

(** The object literal of [buildRequirements], as [JSON.stringify] sees it. *)
Definition requirementsJ (r : PaymentRequirements) : JValue :=
  JObj [("scheme", JStr (scheme r));
        ("network", JStr (req_network r));
        ("maxAmountRequired", JStr (maxAmountRequired r));
        ("resource", JStr (resource r));
        ("description", JStr (req_description r));
        ("payTo", JStr (req_payTo r));
        ("maxTimeoutSeconds", JNum (req_maxTimeoutSeconds r));
        ("asset", JStr (req_asset r))].

(** [{ version: 2, accepts: [requirements] }] *)
Definition requirementsPayload (r : PaymentRequirements) : JValue :=
  JObj [("version", JNum (Finite 2)); ("accepts", JArr [requirementsJ r])].

Section Server.

Context (P : Platform).

Definition buildRequirementsHeader (self : PaymentServer) (resource : string)
    (overrides : option Overrides) : string :=
  let requirements := buildRequirements self resource overrides in
  base64_encode P (JSON_stringify P (requirementsPayload requirements)).

Record ParsedHeader : Type := {
  ph_payload : JValue;
  ph_network : JValue
}.

(** [parsePaymentHeader(header)]; [None] is [null]. *)
Definition parsePaymentHeader (self : PaymentServer) (header : option string)
  : option ParsedHeader :=
  match header with
  | None | Some EmptyString => None
  | Some header =>
      match JSON_parse P (base64_decode P header) with
      | Throw _ => None
      | Ok decoded =>
          match getProp (Some decoded) "payload",
                getProp (Some decoded) "network",
                getProp (Some decoded) "x402Version" with
          | Ok payload, Ok net, Ok version =>
              match nullish payload (Some decoded),
                    nullish (nullish net (getPropOpt version "network"))
                            (Some (JStr (ps_network self))) with
              | Some pl, Some nw =>
                  Some {| ph_payload := pl; ph_network := nw |}
              | _, _ => None
              end
          | _, _, _ => None
          end
      end
  end.

(** [PaymentDetails]; a field read from the payload holds whatever was
    there, [None] for [undefined]. *)
Record PaymentDetails : Type := {
  pd_from : option JValue;
  pd_to : option JValue;
  pd_amount : option JValue;
  pd_asset : option JValue;
  pd_network : JValue;
  pd_timestamp : number
}.

Record PaymentVerifyResult : Type := {
  pv_valid : bool;
  pv_payment : option PaymentDetails;
  pv_error : option string
}.

Definition invalid (message : string) : PaymentVerifyResult :=
  {| pv_valid := false; pv_payment := None; pv_error := Some message |}.

(** [typeof v === "object"] *)
Definition isObjectType (v : option JValue) : bool :=
  match v with
  | Some JNull | Some (JArr _) | Some (JObj _) => true
  | _ => false
  end.

(** The body of the [try] in [verify]. *)
Definition verifyPayload (self : PaymentServer) (parsed : ParsedHeader)
    (now : number) : Result PaymentVerifyResult :=
  let payload := Some (ph_payload parsed) in
  match getProp payload "authorization" with
  | Throw m => Throw m
  | Ok authorization =>
  if truthy authorization && isObjectType authorization then
    let auth := authorization in
    match getProp auth "from", getProp auth "to",
          getProp auth "value", getProp auth "nonce" with
    | Ok from, Ok to, Ok value, Ok nonce =>
        if negb (truthy from) || negb (truthy to)
           || negb (truthy value) || negb (truthy nonce)
        then Ok (invalid "Invalid EIP-3009 authorization structure")
        else
          Ok {| pv_valid := true;
                pv_payment :=
                  Some {| pd_from := from;
                          pd_to := to;
                          pd_amount := value;
                          pd_asset := Some (JStr (ps_asset self));
                          pd_network := ph_network parsed;
                          pd_timestamp := now |};
                pv_error := None |}
    | Throw m, _, _, _ | _, Throw m, _, _
    | _, _, Throw m, _ | _, _, _, Throw m => Throw m
    end
  else
  match getProp payload "permit2Authorization" with
  | Throw m => Throw m
  | Ok permit2Authorization =>
  if truthy permit2Authorization then
    let p2 := permit2Authorization in
    match getProp p2 "from", getProp p2 "witness", getProp p2 "permitted" with
    | Ok from, Ok witness, Ok permitted =>
        Ok {| pv_valid := true;
              pv_payment :=
                Some {| pd_from := from;
                        pd_to := getPropOpt witness "to";
                        pd_amount := getPropOpt permitted "amount";
                        pd_asset := getPropOpt permitted "token";
                        pd_network := ph_network parsed;
                        pd_timestamp := now |};
              pv_error := None |}
    | Throw m, _, _ | _, Throw m, _ | _, _, Throw m => Throw m
    end
  else Ok (invalid "Unrecognized payment payload format")
  end end.

(** [verify(request)] for an [IncomingMessage] whose [x-payment] header is
    [paymentHeader]; [now] is the reading of [Date.now()]. *)
Definition verify (self : PaymentServer) (paymentHeader : option string)
    (now : number) : PaymentVerifyResult :=
  match paymentHeader with
  | None | Some EmptyString =>
      invalid "Missing X-PAYMENT header. This endpoint requires x402 payment."
  | Some _ =>
      match parsePaymentHeader self paymentHeader with
      | None => invalid "Invalid X-PAYMENT header format"
      | Some parsed =>
          match verifyPayload self parsed now with
          | Ok r => r
          | Throw m => invalid ("Payment verification error: " ++ m)
          end
      end
  end.

End Server.

(** ** payments: PaymentClient *)

Record PaymentClientConfig (Account : Type) : Type := {
  account : Account;
  chains : option (list string);
  maxAmountPerRequest : option string
}.
Arguments account {Account} _.
Arguments chains {Account} _.
Arguments maxAmountPerRequest {Account} _.

(** What the client imports from the packages [@x402/fetch] and
    [@x402/evm]. *)
Record X402Library (Account Fetch : Type) : Type := {
  Signer : Type;
  Scheme : Type;
  (** [toClientEvmSigner({address, signTypedData, readContract})], the
      last over a public client on the given RPC URL *)
  toClientEvmSigner : Account -> string -> Signer;
  (** [new ExactEvmScheme(signer)] *)
  ExactEvmScheme : Signer -> Scheme;
  (** [wrapFetchWithPaymentFromConfig(fetch, { schemes })] *)
  wrapFetchWithPaymentFromConfig : Fetch -> list (string * Scheme) -> Fetch
}.
Arguments Signer {Account Fetch} _.
Arguments Scheme {Account Fetch} _.
Arguments toClientEvmSigner {Account Fetch} _ _ _.
Arguments ExactEvmScheme {Account Fetch} _ _.
Arguments wrapFetchWithPaymentFromConfig {Account Fetch} _ _ _.

Section Client.

Context {Account Fetch : Type} (X : X402Library Account Fetch).

Record PaymentClient : Type := {
  pc_config : PaymentClientConfig Account;
  _paidFetch : option Fetch
}.

(** [new PaymentClient(config)] *)
Definition newPaymentClient (config : PaymentClientConfig Account)
  : PaymentClient :=
  {| pc_config :=
       {| account := account config;
          chains := Some (orElse (chains config) ["eip155:*"]);
          maxAmountPerRequest :=
            Some (orElse (maxAmountPerRequest config) DEFAULT_MAX_AMOUNT) |};
     _paidFetch := None |}.

(** [getPaidFetch()], over the global [fetch]: the wrapped fetch and the
    client with its cache filled. *)
Definition getPaidFetch (fetch : Fetch) (self : PaymentClient)
  : Fetch * PaymentClient :=
  match _paidFetch self with
  | Some f => (f, self)
  | None =>
      let account := account (pc_config self) in
      let chains := orElse (chains (pc_config self)) [] in
      let rpcUrl := BASE_RPC in
      let signer := toClientEvmSigner X account rpcUrl in
      let schemes :=
        map (fun network => (network, ExactEvmScheme X signer)) chains in
      let paid := wrapFetchWithPaymentFromConfig X fetch schemes in
      (paid, {| pc_config := pc_config self; _paidFetch := Some paid |})
  end.

End Client.

End Payments.

Import Payments.

(** ** data: AgentMcpServerInstance *)

Module DataServer.

Record PaymentOptions : Type := {
  pay : PaymentServerConfig;
  freeTools : option (list string)
}.

Record AgentMcpServerConfig : Type := {
  name : string;
  version : string;
  identity : option Identity.AgentRefInput;
  payment : option PaymentOptions;
  port : option number;
  cors : option bool
}.

Record InternalRegisteredTool : Type := {
  requiresPayment : bool
}.

(** The fields of an [AgentMcpServerInstance]; [mcpTools] are the names
    registered with the engine. *)
Record AgentMcpServerInstance : Type := {
  cfg_name : string;
  cfg_version : string;
  cfg_port : number;
  cfg_cors : bool;
  cfg_identity : option Identity.AgentRefInput;
  cfg_payment : option PaymentOptions;
  paymentServer : option PaymentServer;
  tools : gmap string InternalRegisteredTool;
  mcpTools : list string
}.

(** [new AgentMcpServerInstance(config)]: the built-in [ping] goes to the
    engine directly. *)
Definition newAgentMcpServer (config : AgentMcpServerConfig)
  : AgentMcpServerInstance :=
  {| cfg_name := name config;
     cfg_version := version config;
     cfg_port := orElse (port config) (Finite 3000);
     cfg_cors := orElse (cors config) true;
     cfg_identity := identity config;
     cfg_payment := payment config;
     paymentServer :=
       match payment config with
       | None => None
       | Some p =>
           Some (newPaymentServer
                   {| payTo := payTo (pay p);
                      amount := amount (pay p);
                      asset := Some (orElse (asset (pay p)) USDC_BASE);
                      network :=
                        Some (orElse (network (pay p)) DEFAULT_NETWORK);
                      description :=
                        Some (orElse (description (pay p))
                                     (name config ++ " MCP service"));
                      maxTimeoutSeconds := maxTimeoutSeconds (pay p) |})
       end;
     tools := ∅;
     mcpTools := ["ping"] |}.

(** [freeTools.includes(name)] *)
Definition includesName (l : list string) (name : string) : bool :=
  existsb (String.eqb name) l.

(** [tool(name, description, paramsSchema, handler)] *)
Definition tool (self : AgentMcpServerInstance) (name : string)
  : AgentMcpServerInstance :=
  let freeTools :=
    match cfg_payment self with
    | Some p => orElse (freeTools p) ["ping"]
    | None => ["ping"]
    end in
  {| cfg_name := cfg_name self;
     cfg_version := cfg_version self;
     cfg_port := cfg_port self;
     cfg_cors := cfg_cors self;
     cfg_identity := cfg_identity self;
     cfg_payment := cfg_payment self;
     paymentServer := paymentServer self;
     tools :=
       <[name := {| requiresPayment :=
                      match cfg_payment self with
                      | Some _ => negb (includesName freeTools name)
                      | None => false
                      end |}]> (tools self);
     mcpTools := mcpTools self ++ [name] |}.

(** An [IncomingMessage], by the parts the handler reads. *)
Record Request : Type := {
  method : string;
  url : option string;
  host : option string;
  x_payment : option string;
  mcp_session_id : option string;
  body : string
}.

(** A [StreamableHTTPServerTransport]: [tid] tells the objects apart,
    [sessionIdGenerator] is the id its generator returns, if it has one. *)
Record Transport : Type := {
  tid : nat;
  sessionIdGenerator : option string
}.

(** What the handler does with a request: it writes a response, or hands
    the request to [transport.handleRequest]; [headers] are those set on
    the response by then. *)
Inductive Outcome : Type :=
  | Respond (status : N) (headers : list (string * string))
            (body : option string)
  | Forward (transport : Transport) (headers : list (string * string)).

(** The state of one [listen] call: the [transports] map and, to speak
    about connections, the transports given to [mcp.connect] (latest
    first), the number of transports constructed and of [randomUUID] calls
    so far, and the transports that signalled their closure. *)
Record ListenState : Type := {
  transports : gmap string Transport;
  connected : list Transport;
  constructed : nat;
  minted : nat;
  closed : list Transport
}.

Definition initialState : ListenState :=
  {| transports := ∅; connected := []; constructed := 0; minted := 0;
     closed := [] |}.

Definition corsHeaders : list (string * string) :=
  [ ("Access-Control-Allow-Origin", "*");
    ("Access-Control-Allow-Methods", "GET, POST, DELETE, OPTIONS");
    ("Access-Control-Allow-Headers",
     "Content-Type, MCP-Session-Id, X-PAYMENT, X-PAYMENT-REQUIRED") ].

Definition jsonType : list (string * string) :=
  [("Content-Type", "application/json")].

Definition notFoundBody : JValue :=
  JObj [("error", JStr "Not found"); ("hint", JStr "MCP endpoint is at /mcp")].

Definition badRequestBody : JValue :=
  JObj [("error", JStr "Bad Request");
        ("message", JStr "Missing MCP-Session-Id")].

Section Listen.

(** [randomUUID] by the number of earlier calls, and the runtime. *)
Context (P : Platform) (randomUUID : nat -> string).

Definition respondJSON (status : N) (headers : list (string * string))
    (body : JValue) : Outcome :=
  Respond status headers (Some (JSON_stringify P body)).

(** The resource named in a challenge:
    [`https://${req.headers.host ?? "localhost"}${req.url ?? "/mcp"}`] *)
Definition resourceUrl (req : Request) : string :=
  "https://" ++ orElse (host req) "localhost" ++ orElse (url req) "/mcp".

(** The body of the challenge to a request without payment header;
    [this.config.payment] is set whenever the payment server is. *)
Definition paymentRequiredBody (self : AgentMcpServerInstance) : JValue :=
  JObj [("error", JStr "Payment Required");
        ("message",
         JStr ("This MCP server requires x402 payment. "
               ++ "Use a payment-capable client or pay "
               ++ match cfg_payment self with
                  | Some p =>
                      amount (pay p) ++ " USDC on "
                      ++ orElse (network (pay p)) DEFAULT_NETWORK
                  | None => ""
                  end
               ++ "."))].

(** The body of the answer to a payment header that [verify] rejects;
    [JSON.stringify] leaves an [undefined] message out. *)
Definition invalidPaymentBody (payResult : PaymentVerifyResult) : JValue :=
  JObj ([("error", JStr "Invalid Payment")]
        ++ match pv_error payResult with
           | Some m => [("message", JStr m)]
           | None => []
           end).

(** The payment check of the handler; [None] when the request goes on. *)
Definition paymentGate (self : AgentMcpServerInstance) (now : number)
    (set : list (string * string)) (req : Request) : option Outcome :=
  match paymentServer self with
  | Some ps =>
      if String.eqb (method req) "POST" then
        match x_payment req with
        | None | Some EmptyString =>
            let requirementsHeader :=
              buildRequirementsHeader P ps (resourceUrl req) None in
            Some (respondJSON 402
                    (set ++ jsonType
                     ++ [("X-PAYMENT-REQUIRED", requirementsHeader)])
                    (paymentRequiredBody self))
        | Some _ =>
            let payResult := verify P ps (x_payment req) now in
            if pv_valid payResult then None
            else
              Some (respondJSON 402 (set ++ jsonType)
                      (invalidPaymentBody payResult))
        end
      else None
  | None => None
  end.

(** The branch for a new session: a transport whose generator returns a
    fresh [randomUUID()], registered under that id and given to
    [mcp.connect]. *)
Definition openSession (st : ListenState) : ListenState * Transport :=
  let newSessionId := randomUUID (minted st) in
  let transport :=
    {| tid := constructed st; sessionIdGenerator := Some newSessionId |} in
  ({| transports := <[newSessionId := transport]> (transports st);
      connected := transport :: connected st;
      constructed := S (constructed st);
      minted := S (minted st);
      closed := closed st |},
   transport).

(** The branch for a [GET] without a known session: a transport without
    generator, given to [mcp.connect] and not registered. *)
Definition openStandalone (st : ListenState) : ListenState * Transport :=
  let transport :=
    {| tid := constructed st; sessionIdGenerator := None |} in
  ({| transports := transports st;
      connected := transport :: connected st;
      constructed := S (constructed st);
      minted := minted st;
      closed := closed st |},
   transport).

(** [req.headers["mcp-session-id"]], when truthy *)
Definition presentedSession (req : Request) : option string :=
  match mcp_session_id req with
  | Some EmptyString | None => None
  | Some id => Some id
  end.

(** The session part of the handler. *)
Definition route (st : ListenState) (set : list (string * string))
    (req : Request) : ListenState * Outcome :=
  let sessionId := presentedSession req in
  match sessionId, (match sessionId with
                    | Some id => transports st !! id
                    | None => None
                    end) with
  | Some _, Some transport => (st, Forward transport set)
  | _, _ =>
      if match sessionId with
         | None => String.eqb (method req) "POST"
         | Some _ => false
         end
      then
        let '(st', transport) := openSession st in
        (st', Forward transport set)
      else if String.eqb (method req) "GET" then
        let '(st', transport) := openStandalone st in
        (st', Forward transport set)
      else
        (st, respondJSON 400 (set ++ jsonType) badRequestBody)
  end.

(** The headers the handler sets first: those of CORS, when enabled. *)
Definition headersSet (self : AgentMcpServerInstance)
  : list (string * string) :=
  if cfg_cors self then corsHeaders else [].

(** The request handler passed to [createServer]. *)
Definition handler (self : AgentMcpServerInstance) (now : number)
    (st : ListenState) (req : Request) : ListenState * Outcome :=
  let set := headersSet self in
  if cfg_cors self && String.eqb (method req) "OPTIONS" then
    (st, Respond 204 set None)
  else if negb (match url req with
                | Some u => String.eqb u "/mcp" || String.eqb u "/"
                | None => false
                end) then
    (st, respondJSON 404 (set ++ jsonType) notFoundBody)
  else
    match paymentGate self now set req with
    | Some out => (st, out)
    | None => route st set req
    end.

(** The [onclose] callback of a transport; only a session transport has
    one: [transports.delete(newSessionId)]. *)
Definition onclose (st : ListenState) (t : Transport) : ListenState :=
  match sessionIdGenerator t with
  | Some newSessionId =>
      {| transports := delete newSessionId (transports st);
         connected := connected st;
         constructed := constructed st;
         minted := minted st;
         closed := closed st |}
  | None => st
  end.

(** What happens to a listening server: a request arrives, or a transport
    signals that it closed. *)
Inductive Event : Type :=
  | Arrives (now : number) (req : Request)
  | Closes (t : Transport).

(** A transport closes: its [onclose] callback runs. *)
Definition close (st : ListenState) (t : Transport) : ListenState :=
  let st' := onclose st t in
  {| transports := transports st';
     connected := connected st';
     constructed := constructed st';
     minted := minted st';
     closed := t :: closed st' |}.

Definition step (self : AgentMcpServerInstance) (st : ListenState)
    (ev : Event) : ListenState * option Outcome :=
  match ev with
  | Arrives now req =>
      let '(st', out) := handler self now st req in (st', Some out)
  | Closes t => (close st t, None)
  end.

Fixpoint run (self : AgentMcpServerInstance) (st : ListenState)
    (evs : list Event) : ListenState :=
  match evs with
  | [] => st
  | ev :: rest => run self (fst (step self st ev)) rest
  end.

(** Only a transport that was connected can signal its closure. *)
Definition possible (st : ListenState) (ev : Event) : Prop :=
  match ev with
  | Arrives _ _ => True
  | Closes t => In t (connected st)
  end.

Fixpoint admissible (self : AgentMcpServerInstance) (st : ListenState)
    (evs : list Event) : Prop :=
  match evs with
  | [] => True
  | ev :: rest =>
      possible st ev /\ admissible self (fst (step self st ev)) rest
  end.

End Listen.

End DataServer.

Import DataServer.

(** ** A reference runtime

    A [Platform] to run the definitions on: RFC 4648 base64, JSON text
    over the values of [JValue] (numbers are runs of digits), percent
    decoding. *)

Module Reference.

Definition hexDigit (n : N) : ascii :=
  ascii_of_N (if (n <? 10)%N then 48 + n else 87 + n).

Definition escapeChar (c : ascii) : string :=
  let n := N_of_ascii c in
  if (n =? 34)%N then String "\"%char dquote
  else if (n =? 92)%N then "\\"
  else if (n =? 8)%N then "\b"
  else if (n =? 12)%N then "\f"
  else if (n =? 10)%N then "\n"
  else if (n =? 13)%N then "\r"
  else if (n =? 9)%N then "\t"
  else if (n <? 32)%N then
    "\u00" ++ String (hexDigit (n / 16)) (String (hexDigit (n mod 16)) "")
  else String c "".

Fixpoint escape (s : string) : string :=
  match s with
  | EmptyString => EmptyString
  | String c s' => escapeChar c ++ escape s'
  end.

Definition quote (s : string) : string := dquote ++ escape s ++ dquote.

Fixpoint join (sep : string) (l : list string) : string :=
  match l with
  | [] => ""
  | [x] => x
  | x :: rest => x ++ sep ++ join sep rest
  end.

Fixpoint stringify (v : JValue) : string :=
  match v with
  | JNull => "null"
  | JBool true => "true"
  | JBool false => "false"
  | JNum Infinity => "null"
  | JNum n => Number_toString n
  | JStr s => quote s
  | JArr items => "[" ++ join "," (map stringify items) ++ "]"
  | JObj fields =>
      "{" ++ join "," (map (fun kv => quote (fst kv) ++ ":" ++ stringify (snd kv))
                           fields) ++ "}"
  end.

Definition isWs (c : ascii) : bool :=
  let n := N_of_ascii c in
  (n =? 32)%N || (n =? 9)%N || (n =? 10)%N || (n =? 13)%N.

Fixpoint skipWs (s : string) : string :=
  match s with
  | String c s' => if isWs c then skipWs s' else s
  | EmptyString => EmptyString
  end.

Definition hexValue (c : ascii) : option N :=
  let n := N_of_ascii c in
  if (48 <=? n)%N && (n <=? 57)%N then Some (n - 48)%N
  else if (65 <=? n)%N && (n <=? 70)%N then Some (n - 55)%N
  else if (97 <=? n)%N && (n <=? 102)%N then Some (n - 87)%N
  else None.

(** The characters of a string literal after its opening quote, and the
    text after the closing one. *)
Fixpoint parseChars (s : string) : option (string * string) :=
  match s with
  | EmptyString => None
  | String c s' =>
      if Ascii.eqb c "034" then Some (EmptyString, s')
      else if Ascii.eqb c "\" then
        match s' with
        | String e s'' =>
            let simple (d : ascii) :=
              match parseChars s'' with
              | Some (r, rest) => Some (String d r, rest)
              | None => None
              end in
            if Ascii.eqb e "034" then simple "034"%char
            else if Ascii.eqb e "\" then simple "\"%char
            else if Ascii.eqb e "/" then simple "/"%char
            else if Ascii.eqb e "b" then simple "008"%char
            else if Ascii.eqb e "f" then simple "012"%char
            else if Ascii.eqb e "n" then simple "010"%char
            else if Ascii.eqb e "r" then simple "013"%char
            else if Ascii.eqb e "t" then simple "009"%char
            else if Ascii.eqb e "u" then
              match s'' with
              | String h1 (String h2 (String h3 (String h4 s4))) =>
                  match hexValue h1, hexValue h2, hexValue h3, hexValue h4 with
                  | Some 0%N, Some 0%N, Some a, Some b =>
                      match parseChars s4 with
                      | Some (r, rest) =>
                          Some (String (ascii_of_N (16 * a + b)) r, rest)
                      | None => None
                      end
                  | _, _, _, _ => None
                  end
              | _ => None
              end
            else None
        | EmptyString => None
        end
      else if (N_of_ascii c <? 32)%N then None
      else
        match parseChars s' with
        | Some (r, rest) => Some (String c r, rest)
        | None => None
        end
  end.

Definition parseNumber (s : string) : option (number * string) :=
  let '(digits, rest) := span isDigit s in
  let plain :=
    match rest with
    | String c _ =>
        negb (Ascii.eqb c "." || Ascii.eqb c "e" || Ascii.eqb c "E")
    | EmptyString => true
    end in
  match digits with
  | EmptyString => None
  | String "0" (String _ _) => None
  | _ => if plain then Some (Number_ofDigits digits, rest) else None
  end.

Fixpoint parseValue (fuel : nat) (s : string) : option (JValue * string) :=
  match fuel with
  | O => None
  | S fuel =>
      match skipWs s with
      | EmptyString => None
      | String c s' =>
          if isDigit c then
            match parseNumber (String c s') with
            | Some (n, rest) => Some (JNum n, rest)
            | None => None
            end
          else if Ascii.eqb c "034" then
            match parseChars s' with
            | Some (str, rest) => Some (JStr str, rest)
            | None => None
            end
          else if Ascii.eqb c "[" then
            match skipWs s' with
            | String c' rest =>
                if Ascii.eqb c' "]" then Some (JArr [], rest)
                else
                  match parseElements fuel s' with
                  | Some (items, rest) => Some (JArr items, rest)
                  | None => None
                  end
            | EmptyString => None
            end
          else if Ascii.eqb c "{" then
            match skipWs s' with
            | String c' rest =>
                if Ascii.eqb c' "}" then Some (JObj [], rest)
                else
                  match parseMembers fuel s' with
                  | Some (fields, rest) => Some (JObj fields, rest)
                  | None => None
                  end
            | EmptyString => None
            end
          else if startsWith (String c s') "null" then
            Some (JNull, slice s' 3)
          else if startsWith (String c s') "true" then
            Some (JBool true, slice s' 3)
          else if startsWith (String c s') "false" then
            Some (JBool false, slice s' 4)
          else None
      end
  end
with parseElements (fuel : nat) (s : string)
  : option (list JValue * string) :=
  match fuel with
  | O => None
  | S fuel =>
      match parseValue fuel s with
      | Some (v, rest) =>
          match skipWs rest with
          | String c rest' =>
              if Ascii.eqb c "," then
                match parseElements fuel rest' with
                | Some (vs, rest'') => Some (v :: vs, rest'')
                | None => None
                end
              else if Ascii.eqb c "]" then Some ([v], rest')
              else None
          | EmptyString => None
          end
      | None => None
      end
  end
with parseMembers (fuel : nat) (s : string)
  : option (list (string * JValue) * string) :=
  match fuel with
  | O => None
  | S fuel =>
      match skipWs s with
      | String q s' =>
          if Ascii.eqb q "034" then
            match parseChars s' with
            | Some (k, rest) =>
                match skipWs rest with
                | String c rest' =>
                    if Ascii.eqb c ":" then
                      match parseValue fuel rest' with
                      | Some (v, rest'') =>
                          match skipWs rest'' with
                          | String c' rest3 =>
                              if Ascii.eqb c' "," then
                                match parseMembers fuel rest3 with
                                | Some (kvs, rest4) =>
                                    Some ((k, v) :: kvs, rest4)
                                | None => None
                                end
                              else if Ascii.eqb c' "}" then
                                Some ([(k, v)], rest3)
                              else None
                          | EmptyString => None
                          end
                      | None => None
                      end
                    else None
                | EmptyString => None
                end
            | None => None
            end
          else None
      | EmptyString => None
      end
  end.

Definition parse (s : string) : Result JValue :=
  match parseValue (S (String.length s)) s with
  | Some (v, rest) =>
      match skipWs rest with
      | EmptyString => Ok v
      | _ => Throw "Unexpected non-whitespace character after JSON"
      end
  | None => Throw "Unexpected token in JSON"
  end.

Definition b64Alphabet : string :=
  "ABCDEFGHIJKLMNOPQRSTUVWXYZabcdefghijklmnopqrstuvwxyz0123456789+/".

Definition b64Char (n : N) : ascii :=
  match String.get (N.to_nat n) b64Alphabet with
  | Some c => c
  | None => "="%char
  end.

Fixpoint b64encode (s : string) : string :=
  match s with
  | EmptyString => EmptyString
  | String a EmptyString =>
      let x := N_of_ascii a in
      String (b64Char (x / 4)) (String (b64Char (x mod 4 * 16)) "==")
  | String a (String b EmptyString) =>
      let x := N_of_ascii a in
      let y := N_of_ascii b in
      String (b64Char (x / 4))
        (String (b64Char (x mod 4 * 16 + y / 16))
           (String (b64Char (y mod 16 * 4)) "="))
  | String a (String b (String c rest)) =>
      let x := N_of_ascii a in
      let y := N_of_ascii b in
      let z := N_of_ascii c in
      String (b64Char (x / 4))
        (String (b64Char (x mod 4 * 16 + y / 16))
           (String (b64Char (y mod 16 * 4 + z / 64))
              (String (b64Char (z mod 64)) (b64encode rest))))
  end.

Definition b64Value (c : ascii) : option N :=
  let n := N_of_ascii c in
  if (65 <=? n)%N && (n <=? 90)%N then Some (n - 65)%N
  else if (97 <=? n)%N && (n <=? 122)%N then Some (n - 71)%N
  else if (48 <=? n)%N && (n <=? 57)%N then Some (n + 4)%N
  else if (n =? 43)%N || (n =? 45)%N then Some 62%N
  else if (n =? 47)%N || (n =? 95)%N then Some 63%N
  else None.

(** Decoding stops at the padding or at the first character outside the
    alphabet. *)
Fixpoint b64decode (s : string) : string :=
  match s with
  | String a (String b rest) =>
      match b64Value a, b64Value b with
      | Some x, Some y =>
          String (ascii_of_N (x * 4 + y / 16))
            match rest with
            | String c rest' =>
                match b64Value c with
                | Some z =>
                    String (ascii_of_N (y mod 16 * 16 + z / 4))
                      match rest' with
                      | String d rest'' =>
                          match b64Value d with
                          | Some w =>
                              String (ascii_of_N (z mod 4 * 64 + w))
                                     (b64decode rest'')
                          | None => EmptyString
                          end
                      | EmptyString => EmptyString
                      end
                | None => EmptyString
                end
            | EmptyString => EmptyString
            end
      | _, _ => EmptyString
      end
  | _ => EmptyString
  end.

Fixpoint percentDecode (s : string) : Result string :=
  match s with
  | EmptyString => Ok EmptyString
  | String c s' =>
      if Ascii.eqb c "%" then
        match s' with
        | String h1 (String h2 rest) =>
            match hexValue h1, hexValue h2, percentDecode rest with
            | Some a, Some b, Ok r => Ok (String (ascii_of_N (16 * a + b)) r)
            | Some _, Some _, Throw m => Throw m
            | _, _, _ => Throw "URI malformed"
            end
        | _ => Throw "URI malformed"
        end
      else
        match percentDecode s' with
        | Ok r => Ok (String c r)
        | Throw m => Throw m
        end
  end.

(** The values that the text of this runtime holds exactly: numbers up to
    [Number.MAX_SAFE_INTEGER]. *)
Fixpoint exact (v : JValue) : bool :=
  match v with
  | JNum (Finite n) => (n <? 2 ^ 53)%N
  | JNum Infinity => false
  | JArr items => forallb exact items
  | JObj fields => forallb (fun kv => exact (snd kv)) fields
  | _ => true
  end.

(** The fuel that reading a value back takes. *)
Fixpoint weight (v : JValue) : nat :=
  match v with
  | JArr items => S (list_sum (map (fun x => S (weight x)) items))
  | JObj fields => S (list_sum (map (fun kv => S (weight (snd kv))) fields))
  | _ => 1
  end.

(** What may follow a value inside a text: nothing, or a separator. *)
Definition closes (rest : string) : bool :=
  match rest with
  | EmptyString => true
  | String c _ => Ascii.eqb c "," || Ascii.eqb c "]" || Ascii.eqb c "}"
  end.

(** The characters a value's text can start with. *)
Definition opens (c : ascii) : bool :=
  isDigit c || Ascii.eqb c "034" || Ascii.eqb c "[" || Ascii.eqb c "{"
  || Ascii.eqb c "n" || Ascii.eqb c "t" || Ascii.eqb c "f".

(** Reading a value back from a text: its own text followed by [rest],
    with enough fuel. *)
Definition readsBack (v : JValue) : Prop :=
  exact v = true ->
  forall rest fuel,
    closes rest = true -> (weight v <= fuel)%nat ->
    parseValue fuel (stringify v ++ rest) = Some (v, rest).

Definition platform : Platform :=
  {| JSON_stringify := stringify;
     JSON_parse := parse;
     base64_encode := b64encode;
     base64_decode := b64decode;
     decodeURIComponent := percentDecode |}.

End Reference.


(** * The vocabulary of the specification *)

Module Spec.

(** [Number.isSafeInteger(x)], for the numbers of this model. *)
Definition safeInteger (x : number) : bool :=
  match x with
  | Finite n => (n <? 2 ^ 53)%N
  | Infinity => false
  end.

(** [allChars p s]: every character of [s] is in the class [p]. *)
Fixpoint allChars (p : ascii -> bool) (s : string) : bool :=
  match s with
  | EmptyString => true
  | String c s' => p c && allChars p s'
  end.

Definition lowerFixed (c : ascii) : bool := Ascii.eqb (lowerAscii c) c.

(** A non-empty run of characters of a class. *)
Definition isRun (p : ascii -> bool) (s : string) : bool :=
  negb (String.eqb s "") && allChars p s.

(** A run of digits that is a decimal numeral: no leading zero. *)
Definition numeral (s : string) : bool :=
  isRun isDigit s &&
  match s with
  | String "0" (String _ _) => false
  | _ => true
  end.

(** The text of a reference, with [sep] before the local id. *)
Definition referenceText (sep chain hex id : string) : string :=
  "eip155:" ++ chain ++ ":0x" ++ hex ++ sep ++ id.

(** A well-formed reference: the pattern
    [eip155:<digits>:0x<hex digits>#<digits>], or the same with [/] before
    the local id. *)
Definition wellFormedReference (s : string) : Prop :=
  exists sep chain hex id,
    (sep = "#" \/ sep = "/")
    /\ isRun isDigit chain = true
    /\ isRun isHexDigit hex = true
    /\ isRun isDigit id = true
    /\ s = referenceText sep chain hex id.

(** The typed reading of a fetched registration record: an entry of its
    [registrations] list, as the interface [AgentRegistrationRef] has it. *)
Definition entryOf (v : JValue) : option AgentRegistrationRef :=
  match v with
  | JObj fields =>
      match lookupField fields "agentId", lookupField fields "agentRegistry" with
      | Some (JNum n), Some (JStr s) =>
          Some {| ref_agentId := n; agentRegistry := s |}
      | _, _ => None
      end
  | _ => None
  end.

Fixpoint entriesOf (items : list JValue) : option (list AgentRegistrationRef) :=
  match items with
  | [] => Some []
  | v :: rest =>
      match entryOf v, entriesOf rest with
      | Some e, Some es => Some (e :: es)
      | _, _ => None
      end
  end.

(** The cross-reference list of a registration record that is an object
    whose [registrations], when present, is an array of such entries. *)
Definition crossReferences (registration : JValue)
  : option (list AgentRegistrationRef) :=
  match registration with
  | JObj fields =>
      match lookupField fields "registrations" with
      | Some (JArr items) => entriesOf items
      | None => Some []
      | Some _ => None
      end
  | _ => None
  end.

(** An entry points back to [ref]: the same local id, and the registry
    reference [eip155:<chainId>:<registryAddress>] up to letter case. *)
Definition pointsBack (ref : AgentRef) (e : AgentRegistrationRef) : Prop :=
  ref_agentId e = agentId ref
  /\ toLowerCase (agentRegistry e)
     = toLowerCase ("eip155:" ++ Number_toString (chainId ref) ++ ":"
                    ++ registry ref).

(** The entry that [buildRegistrationUri] puts first. *)
Definition ownRegistration (self : AgentIdentity) (id : number)
  : AgentRegistrationRef :=
  {| ref_agentId := id;
     agentRegistry :=
       "eip155:" ++ Number_toString (cfg_chainId (config self)) ++ ":"
       ++ self_registry self |}.

(** The reference of an agent registered through [self]. *)
Definition ownReference (self : AgentIdentity) (id : number) : AgentRef :=
  {| namespace := "eip155";
     chainId := cfg_chainId (config self);
     registry := self_registry self;
     agentId := id |}.

(** The argument with which [verifyAgent] checks that agent. *)
Definition ownInput (self : AgentIdentity) (id : number) (rpc : string)
  : VerifyInput :=
  ByRef {| in_chainId := cfg_chainId (config self);
           in_agentId := id;
           in_registry := Some (self_registry self);
           in_rpc := Some rpc |}.

(** [decoded.accepts[0].resource] of a decoded challenge header *)
Definition acceptsResource (decoded : JValue) : option JValue :=
  match getPropOpt (Some decoded) "accepts" with
  | Some (JArr (first :: _)) => getPropOpt (Some first) "resource"
  | _ => None
  end.

(** The tool that a protocol request names: [params.name] of a
    [tools/call] message. *)
Definition calledTool (P : Platform) (body : string) : option string :=
  match JSON_parse P body with
  | Ok message =>
      match getPropOpt (Some message) "method",
            getPropOpt (getPropOpt (Some message) "params") "name" with
      | Some (JStr "tools/call"), Some (JStr name) => Some name
      | _, _ => None
      end
  | Throw _ => None
  end.

(** A live connection: a transport given to the engine that has not
    signalled its closure. *)
Definition live (st : ListenState) (t : Transport) : Prop :=
  In t (connected st) /\ ~ In t (closed st).

(** The registry agrees with the connections: a registered id maps to a
    live transport generated for that id; transports are told apart by
    construction order; the ids in use were minted, each for one
    transport. *)
Record Consistent (randomUUID : nat -> string) (st : ListenState) : Prop := {
  registered_live : forall id t,
    transports st !! id = Some t ->
    sessionIdGenerator t = Some id /\ live st t;
  closed_connected : forall t, In t (closed st) -> In t (connected st);
  connected_tid : forall t, In t (connected st) -> tid t < constructed st;
  session_minted : forall t id,
    In t (connected st) -> sessionIdGenerator t = Some id ->
    exists k, k < minted st /\ id = randomUUID k;
  session_unique : forall t1 t2 id,
    In t1 (connected st) -> In t2 (connected st) ->
    sessionIdGenerator t1 = Some id -> sessionIdGenerator t2 = Some id ->
    t1 = t2
}.


(** The configured free-tools list, [["ping"]] by default. *)
Definition freeToolsOf (self : AgentMcpServerInstance) : list string :=
  match cfg_payment self with
  | Some p => orElse (freeTools p) ["ping"]
  | None => ["ping"]
  end.

(** A guarded request: a protocol request that calls a tool which is not
    on the free-tools list. *)
Definition guarded (P : Platform) (self : AgentMcpServerInstance)
    (req : Request) : bool :=
  match calledTool P (body req) with
  | Some toolName => negb (includesName (freeToolsOf self) toolName)
  | None => false
  end.

End Spec.

Import Spec.

(** * The payment wrapper of the connector *)

Module Connector.

(** An exchange as the connector's transport sees it. *)
Record HttpRequest : Type := {
  rq_path : string;
  rq_tool : string;
  rq_payment : option string
}.

Record HttpReply : Type := {
  rp_status : N;
  rp_paymentRequired : option string
}.

(** A [fetch]: the requests that went out, and the reply it resolves to. *)
Definition Fetch : Type := HttpRequest -> list HttpRequest * HttpReply.

Section Wrapper.

Context (P : Platform).

(** Modelled from the spec: the external signing collaborator
    [sign(authorizationRequest) -> proof] (the package [@x402/evm] is
    not part of the sources).  The proof is the [X-PAYMENT] header of a
    direct authorization from [address] for the first requirements of the
    challenge, at the amount the challenge demands. *)
Definition signProof (address : string) (requirementsHeader : string)
  : option string :=
  match JSON_parse P (base64_decode P requirementsHeader) with
  | Ok decoded =>
      match getPropOpt (Some decoded) "accepts" with
      | Some (JArr (first :: _)) =>
          match getPropOpt (Some first) "payTo",
                getPropOpt (Some first) "maxAmountRequired",
                getPropOpt (Some first) "network" with
          | Some payTo, Some value, Some network =>
              Some (base64_encode P
                      (JSON_stringify P
                         (JObj [("payload",
                                 JObj [("authorization",
                                        JObj [("from", JStr address);
                                              ("to", payTo);
                                              ("value", value);
                                              ("nonce", JStr "0x01")])]);
                                ("network", network)])))
          | _, _, _ => None
          end
      | _ => None
      end
  | Throw _ => None
  end.

(** Modelled from the spec: the transport wrapper of section 4.5, step 3
    (the package [@x402/fetch] is not part of the sources).  Every
    exchange is first attempted as it is; on a 402 the wrapper builds a
    proof with the first registered scheme, re-issues the call once with
    the proof attached, and returns the second response.  It is given the
    fetch and the schemes, nothing else. *)
Definition wrapFetch (fetch : Fetch) (schemes : list (string * string))
  : Fetch :=
  fun request =>
    let '(sent, reply) := fetch request in
    if (rp_status reply =? 402)%N then
      match schemes, rp_paymentRequired reply with
      | (_, signer) :: _, Some requirements =>
          match signProof signer requirements with
          | Some proof =>
              let '(sent', reply') :=
                fetch {| rq_path := rq_path request;
                         rq_tool := rq_tool request;
                         rq_payment := Some proof |} in
              ((sent ++ sent')%list, reply')
          | None => (sent, reply)
          end
      | _, _ => (sent, reply)
      end
    else (sent, reply).

(** The two packages, over accounts given by their address. *)
Definition library : X402Library string Fetch :=
  {| Signer := string;
     Scheme := string;
     toClientEvmSigner := fun address _ => address;
     ExactEvmScheme := fun signer => signer;
     wrapFetchWithPaymentFromConfig := wrapFetch |}.

End Wrapper.

End Connector.

(** * Scenarios *)

Module Scenario.

(** A ledger that knows one agent, and no network. *)
Definition ledger (owner wallet agentUri : string) : World :=
  {| readContract := fun _ _ fn _ =>
       if String.eqb fn "ownerOf" then Ok owner
       else if String.eqb fn "getAgentWallet" then Ok wallet
       else if String.eqb fn "tokenURI" then Ok agentUri
       else Throw "execution reverted";
     fetch := fun _ _ => Throw "fetch failed" |}.

Definition alice : string := "0x00000000000000000000000000000000000A11CE".

Definition baseIdentity : AgentIdentity :=
  {| config := {| cfg_chainId := Finite 8453;
                  cfg_chainRpc := None;
                  cfg_rpc := None;
                  cfg_registry := None |};
     self_registry := IDENTITY_REGISTRY_ADDRESS;
     self_rpcUrl := "https://mainnet.base.org" |}.

Definition myAgent : RegisterOptions :=
  {| opt_name := "MyAgent";
     opt_description := "Provides market data and analysis.";
     opt_image := Some "https://example.com/agent-logo.png";
     opt_services :=
       Some [ {| svc_name := "MCP";
                 svc_endpoint := "https://mcp.myagent.example/mcp";
                 svc_version := Some "2025-06-18";
                 svc_skills := None;
                 svc_domains := None |} ];
     opt_x402Support := Some true;
     opt_active := Some true;
     opt_supportedTrust := Some ["reputation"];
     opt_existingRegistrations := None |}.

(** The registration of agent 2376 on Base, as [register] stores it. *)
Definition agentUri2376 : string :=
  buildRegistrationUri Reference.platform baseIdentity myAgent
    (Some (Finite 2376)).

Definition baseLedger : World := ledger alice ZERO_ADDRESS agentUri2376.

(** A server that sells [get-price] for 0.10 USDC, with the default
    free-tools list. *)
Definition priceServer : AgentMcpServerInstance :=
  tool (newAgentMcpServer
          {| name := "price-feed";
             version := "1.0.0";
             identity := None;
             payment :=
               Some {| pay := {| payTo := alice;
                                 amount := "100000";
                                 asset := None;
                                 network := None;
                                 description := None;
                                 maxTimeoutSeconds := None |};
                       freeTools := None |};
             port := None;
             cors := None |})
       "get-price".

(** A server without payment configuration. *)
Definition openServer : AgentMcpServerInstance :=
  newAgentMcpServer
    {| name := "open"; version := "1.0.0"; identity := None;
       payment := None; port := None; cors := None |}.

(** The [n]-th session identifier. *)
Definition uuid (n : nat) : string := "session-" ++ pretty n.

Definition toolCall (toolName : string) : string :=
  Reference.stringify
    (JObj [("jsonrpc", JStr "2.0");
           ("id", JNum (Finite 1));
           ("method", JStr "tools/call");
           ("params", JObj [("name", JStr toolName);
                            ("arguments", JObj [])])]).

(** [POST path] carrying a call of [toolName], with the given payment and
    session headers. *)
Definition post (path toolName : string) (payment session : option string)
  : Request :=
  {| method := "POST";
     url := Some path;
     host := Some "agent.example";
     x_payment := payment;
     mcp_session_id := session;
     body := toolCall toolName |}.

Definition get (path : string) (session : option string) : Request :=
  {| method := "GET";
     url := Some path;
     host := Some "agent.example";
     x_payment := None;
     mcp_session_id := session;
     body := "" |}.

Definition noon : number := Finite 1762084800000.

(** A server that sells [get-price] for 0.50 USDC. *)
Definition dearServer : AgentMcpServerInstance :=
  tool (newAgentMcpServer
          {| name := "price-feed";
             version := "1.0.0";
             identity := None;
             payment :=
               Some {| pay := {| payTo := alice;
                                 amount := "500000";
                                 asset := None;
                                 network := None;
                                 description := None;
                                 maxTimeoutSeconds := None |};
                       freeTools := None |};
             port := None;
             cors := None |})
       "get-price".

(** The network between a connector and a freshly started [server]: each
    request is a [POST] handled by the server. *)
Definition network (server : AgentMcpServerInstance) : Connector.Fetch :=
  fun request =>
    ([request],
     match snd (handler Reference.platform uuid server noon initialState
                  (post (Connector.rq_path request) (Connector.rq_tool request)
                     (Connector.rq_payment request) None)) with
     | Respond status headers _ =>
         {| Connector.rp_status := status;
            Connector.rp_paymentRequired := assoc headers "X-PAYMENT-REQUIRED" |}
     | Forward _ _ =>
         {| Connector.rp_status := 200;
            Connector.rp_paymentRequired := None |}
     end).

Definition bob : string := "0x0000000000000000000000000000000000000B0B".

(** A registration record whose only entry names agent 7 and no registry,
    and a ledger that holds it for an agent with a payment wallet. *)
Definition untypedRecord : JValue :=
  JObj [("registrations", JArr [JObj [("agentId", JNum (Finite 7))]])].

Definition untypedLedger : World :=
  ledger alice bob
    ("data:application/json;base64,"
     ++ Reference.b64encode (Reference.stringify untypedRecord)).

(** A payer that auto-pays at most 0.10 USDC per request. *)
Definition frugalPayer : @PaymentClient string Connector.Fetch :=
  newPaymentClient
    {| account := bob; chains := None; maxAmountPerRequest := Some "100000" |}.

Definition priceCall : Connector.HttpRequest :=
  {| Connector.rq_path := "/mcp";
     Connector.rq_tool := "get-price";
     Connector.rq_payment := None |}.

End Scenario.

(** * Further code of the packages *)

(** ** identity: the rest of the resolver *)

Module Endpoints.

Definition upperAscii (c : ascii) : ascii :=
  let n := nat_of_ascii c in
  if (97 <=? n)%nat && (n <=? 122)%nat then ascii_of_nat (n - 32) else c.

(** [s.toUpperCase()], on the ASCII letters: no other character has [M],
    [C], [P] or [A] as its upper case, so the comparisons with ["MCP"] and
    ["A2A"] are exact. *)
Fixpoint toUpperCase (s : string) : string :=
  match s with
  | EmptyString => EmptyString
  | String c s' => String (upperAscii c) (toUpperCase s')
  end.

(** The callback [(s) => s.name.toUpperCase() === label] *)
Definition isService (label : string) (s : JValue) : Result bool :=
  match getProp (Some s) "name" with
  | Throw m => Throw m
  | Ok (Some (JStr n)) => Ok (String.eqb (toUpperCase n) label)
  | Ok None =>
      Throw "Cannot read properties of undefined (reading 'toUpperCase')"
  | Ok (Some JNull) =>
      Throw "Cannot read properties of null (reading 'toUpperCase')"
  | Ok (Some _) => Throw "s.name.toUpperCase is not a function"
  end.

(** [items.find(cb)] for a callback that may throw; [None] is
    [undefined]. *)
Fixpoint arrayFind (cb : JValue -> Result bool) (items : list JValue)
  : Result (option JValue) :=
  match items with
  | [] => Ok None
  | s :: rest =>
      match cb s with
      | Throw m => Throw m
      | Ok true => Ok (Some s)
      | Ok false => arrayFind cb rest
      end
  end.

(** [registration.services.find(cb)] *)
Definition findService (cb : JValue -> Result bool) (registration : JValue)
  : Result (option JValue) :=
  match getProp (Some registration) "services" with
  | Throw m => Throw m
  | Ok (Some (JArr items)) => arrayFind cb items
  | Ok None => Throw "Cannot read properties of undefined (reading 'find')"
  | Ok (Some JNull) => Throw "Cannot read properties of null (reading 'find')"
  | Ok (Some _) => Throw "result.registration.services.find is not a function"
  end.

Section Resolver.

Context (P : Platform) (W : World).

(** [getMcpEndpoint(globalId)]; [Ok None] is [null]. *)
Definition getMcpEndpoint (globalId : string) : Result (option JValue) :=
  match verifyAgent P W (ByGlobalId globalId) with
  | Throw m => Throw m
  | Ok result =>
      if negb (valid result) || negb (truthy (registration result)) then
        Ok None
      else
        match findService (isService "MCP")
                (match registration result with
                 | Some r => r
                 | None => JNull
                 end) with
        | Throw m => Throw m
        | Ok mcpService =>
            Ok (nullish (getPropOpt mcpService "endpoint") None)
        end
  end.

(** [getA2aEndpoint(globalId)] *)
Definition getA2aEndpoint (globalId : string) : Result (option JValue) :=
  match verifyAgent P W (ByGlobalId globalId) with
  | Throw m => Throw m
  | Ok result =>
      if negb (valid result) || negb (truthy (registration result)) then
        Ok None
      else
        match findService (isService "A2A")
                (match registration result with
                 | Some r => r
                 | None => JNull
                 end) with
        | Throw m => Throw m
        | Ok a2aService =>
            Ok (nullish (getPropOpt a2aService "endpoint") None)
        end
  end.

End Resolver.

End Endpoints.

(** ** identity: the readers of [AgentIdentity] *)

Module Getters.

Section Readers.

Context (W : World).

(** [getAgentURI(agentId)] *)
Definition getAgentURI (self : AgentIdentity) (agentId : number)
  : Result string :=
  match BigInt agentId with
  | Throw m => Throw m
  | Ok id => readContract W (self_rpcUrl self) (self_registry self) "tokenURI" id
  end.

(** [getPaymentWallet(agentId)]; [Ok None] is [null]. *)
Definition getPaymentWallet (self : AgentIdentity) (agentId : number)
  : Result (option string) :=
  match BigInt agentId with
  | Throw m => Throw m
  | Ok id =>
      match readContract W (self_rpcUrl self) (self_registry self)
              "getAgentWallet" id with
      | Throw m => Throw m
      | Ok wallet =>
          Ok (if String.eqb wallet ZERO_ADDRESS then None else Some wallet)
      end
  end.

(** [getOwner(agentId)] *)
Definition getOwner (self : AgentIdentity) (agentId : number)
  : Result string :=
  match BigInt agentId with
  | Throw m => Throw m
  | Ok id => readContract W (self_rpcUrl self) (self_registry self) "ownerOf" id
  end.

End Readers.

End Getters.

(** ** payments: PaymentServer.middleware *)

Module Middleware.

(** The request, by the parts the middleware reads.  Node lower-cases the
    header names of an [IncomingMessage], so [req.headers["X-PAYMENT"]] is
    [undefined] and [mw_x_payment] is [req.headers["x-payment"]]. *)
Record MiddlewareRequest : Type := {
  mw_host : option string;
  mw_url : option string;
  mw_x_payment : option string
}.

(** What the middleware does: it writes a response, or it sets
    [req.payment] and calls [next]. *)
Inductive MiddlewareOutcome : Type :=
  | Answer (status : N) (headers : list (string * string)) (body : string)
  | Next (payment : option PaymentDetails).

Section Express.

Context (P : Platform).

Definition requiredBody (self : PaymentServer) : JValue :=
  JObj [("error", JStr "Payment Required");
        ("message", JStr (ps_description self));
        ("amount", JStr (ps_amount self ++ " USDC base units"));
        ("network", JStr (ps_network self))].

Definition invalidBody (result : PaymentVerifyResult) : JValue :=
  JObj ([("error", JStr "Payment Invalid")]
        ++ match pv_error result with
           | Some m => [("message", JStr m)]
           | None => []
           end).

(** [middleware(overrides)(req, res, next)] *)
Definition middleware (self : PaymentServer) (overrides : option Overrides)
    (now : number) (req : MiddlewareRequest) : MiddlewareOutcome :=
  match mw_x_payment req with
  | None | Some EmptyString =>
      let resource := orElse (mw_host req) "" ++ orElse (mw_url req) "/" in
      let requirementsHeader :=
        buildRequirementsHeader P self ("https://" ++ resource) overrides in
      Answer 402
        [("Content-Type", "application/json");
         ("X-PAYMENT-REQUIRED", requirementsHeader)]
        (JSON_stringify P (requiredBody self))
  | Some _ =>
      let result := verify P self (mw_x_payment req) now in
      if negb (pv_valid result) then
        Answer 402 [("Content-Type", "application/json")]
          (JSON_stringify P (invalidBody result))
      else Next (pv_payment result)
  end.

End Express.

End Middleware.

(** ** payments: the readers of PaymentClient *)

Module Receipts.

(** A [Response], by the parts the client reads: its status and the
    headers it asks for ([Headers.get] ignores the case of a name). *)
Record Response : Type := {
  rs_status : N;
  rs_payment_required : option string;
  rs_x_payment_response : option string;
  rs_payment_response : option string
}.

(** The receipt of [decodeReceipt]; a field holds whatever the header
    had, [None] for [undefined]. *)
Record Receipt : Type := {
  rc_from : option JValue;
  rc_to : option JValue;
  rc_amount : option JValue;
  rc_asset : option JValue;
  rc_network : option JValue;
  rc_txHash : option JValue;
  rc_timestamp : option JValue
}.

(** The result of [checkPaymentRequirements]. *)
Record Requirement : Type := {
  rq_requiresPayment : bool;
  rq_amount : option JValue;
  rq_asset : option JValue;
  rq_network : option JValue;
  rq_payTo : option JValue
}.

Definition unpriced (requiresPayment : bool) : Requirement :=
  {| rq_requiresPayment := requiresPayment;
     rq_amount := None; rq_asset := None; rq_network := None;
     rq_payTo := None |}.

Section Client.

Context (P : Platform).

(** The body of the [try] in [decodeReceipt]. *)
Definition readReceipt (paymentResponseHeader : string) (now : number)
  : Result Receipt :=
  match JSON_parse P (base64_decode P paymentResponseHeader) with
  | Throw m => Throw m
  | Ok decoded =>
      let d := Some decoded in
      (* the first read throws on [null]; the later ones cannot *)
      match getProp d "sender" with
      | Throw m => Throw m
      | Ok sender =>
          Ok {| rc_from := nullish sender (getPropOpt d "from");
                rc_to := nullish (nullish (getPropOpt d "recipient")
                                          (getPropOpt d "to"))
                                 (getPropOpt d "payTo");
                rc_amount := nullish (getPropOpt d "amount")
                                     (getPropOpt d "value");
                rc_asset := nullish (getPropOpt d "asset")
                                    (getPropOpt d "token");
                rc_network := nullish (nullish (getPropOpt d "network")
                                               (getPropOpt d "chain"))
                                      (Some (JStr DEFAULT_NETWORK));
                rc_txHash := nullish (getPropOpt d "txHash")
                                     (getPropOpt d "hash");
                rc_timestamp := nullish (getPropOpt d "timestamp")
                                        (Some (JNum now)) |}
      end
  end.

(** [decodeReceipt(response)]; [None] is [null], [now] the reading of
    [Date.now()]. *)
Definition decodeReceipt (response : Response) (now : number)
  : option Receipt :=
  match (match rs_x_payment_response response with
         | Some h => Some h
         | None => rs_payment_response response
         end) with
  | None | Some EmptyString => None
  | Some paymentResponseHeader =>
      match readReceipt paymentResponseHeader now with
      | Ok receipt => Some receipt
      | Throw _ => None
      end
  end.

(** The body of the [try] in [checkPaymentRequirements]. *)
Definition readRequirements (reqHeader : string) : Result Requirement :=
  match JSON_parse P (base64_decode P reqHeader) with
  | Throw m => Throw m
  | Ok reqs =>
      match getProp (Some reqs) "accepts" with
      | Throw m => Throw m
      | Ok accepts =>
          let first :=
            match accepts with
            | Some (JArr items) => head items
            | _ => Some reqs
            end in
          match getProp first "maxAmountRequired", getProp first "asset",
                getProp first "network", getProp first "payTo" with
          | Ok amount, Ok asset, Ok network, Ok payTo =>
              Ok {| rq_requiresPayment := true;
                    rq_amount := amount;
                    rq_asset := asset;
                    rq_network := network;
                    rq_payTo := payTo |}
          | Throw m, _, _, _ | _, Throw m, _, _
          | _, _, Throw m, _ | _, _, _, Throw m => Throw m
          end
      end
  end.

(** [checkPaymentRequirements(url)], over [fetch(url, {method: "HEAD"})];
    a rejected [fetch] leaves the function. *)
Definition checkPaymentRequirements (fetchHead : string -> Result Response)
    (url : string) : Result Requirement :=
  match fetchHead url with
  | Throw m => Throw m
  | Ok response =>
      if negb (rs_status response =? 402)%N then Ok (unpriced false)
      else
        match rs_payment_required response with
        | None | Some EmptyString => Ok (unpriced true)
        | Some reqHeader =>
            match readRequirements reqHeader with
            | Ok r => Ok r
            | Throw _ => Ok (unpriced true)
            end
        end
  end.

End Client.

End Receipts.

(** ** data: createAgentMcpClient *)

Module DataClient.

Record Payer (Account : Type) : Type := {
  py_account : Account;
  py_maxAmount : option string
}.
Arguments py_account {Account} _.
Arguments py_maxAmount {Account} _.

Record AgentMcpClientConfig (Account : Type) : Type := {
  cc_agentId : option string;
  cc_url : option string;
  cc_payer : option (Payer Account)
}.
Arguments cc_agentId {Account} _.
Arguments cc_url {Account} _.
Arguments cc_payer {Account} _.

(** The fields of an [AgentMcpClientInstance] that this package sets. *)
Record AgentMcpClientInstance (Account Fetch : Type) : Type := {
  ci_url : JValue;
  ci_payer : option (@PaymentClient Account Fetch);
  ci_verification : option VerificationResult
}.
Arguments ci_url {Account Fetch} _.
Arguments ci_payer {Account Fetch} _.
Arguments ci_verification {Account Fetch} _.

(** [!!s] for an optional string *)
Definition given (s : option string) : option string :=
  match s with
  | None | Some EmptyString => None
  | Some v => Some v
  end.

Section Connect.

Context {Account Fetch : Type} (P : Platform) (W : World).

(** The engine: [new URL(mcpUrl)], the transport over the chosen fetch
    (the payer's when there is one) and [client.connect(transport)]. *)
Context (connect : JValue -> option (@PaymentClient Account Fetch)
                   -> Result unit).

(** [createAgentMcpClient(config)] *)
Definition createAgentMcpClient (config : AgentMcpClientConfig Account)
  : Result (AgentMcpClientInstance Account Fetch) :=
  match given (cc_agentId config), given (cc_url config) with
  | None, None =>
      Throw "Must provide either agentId (ERC-8004 global ID) or url"
  | agentId, url =>
      match
        match agentId with
        | Some agentId =>
            match verifyAgent P W (ByGlobalId agentId) with
            | Throw m => Throw m
            | Ok verification =>
                if negb (valid verification) then
                  Throw ("Cannot connect to agent " ++ dquote ++ agentId
                         ++ dquote ++ ": "
                         ++ orElse (error verification)
                                   "Identity verification failed")
                else
                  match Endpoints.getMcpEndpoint P W agentId with
                  | Throw m => Throw m
                  | Ok endpoint =>
                      if negb (truthy endpoint) then
                        Throw ("Agent " ++ dquote ++ agentId ++ dquote
                               ++ " does not expose an MCP endpoint. "
                               ++ "Check their registration's services array for a "
                               ++ dquote ++ "MCP" ++ dquote
                               ++ " service entry.")
                      else
                        Ok (match endpoint with
                            | Some mcpUrl => mcpUrl
                            | None => JNull
                            end,
                            Some verification)
                  end
            end
        | None => Ok (JStr (orElse url ""), None)
        end
      with
      | Throw m => Throw m
      | Ok (mcpUrl, verification) =>
          let payer :=
            option_map
              (fun p =>
                 newPaymentClient
                   {| account := py_account p;
                      chains := None;
                      maxAmountPerRequest := py_maxAmount p |})
              (cc_payer config) in
          match connect mcpUrl payer with
          | Throw m => Throw m
          | Ok _ =>
              Ok {| ci_url := mcpUrl;
                    ci_payer := payer;
                    ci_verification := verification |}
          end
      end
  end.

End Connect.

End DataClient.

(** ** data: the built-in tool *)

Module Builtin.

(** The object that the [ping] tool serialises; [timestamp] is the reading
    of [new Date().toISOString()]. *)
Definition pingStatus (self : AgentMcpServerInstance) (timestamp : string)
  : JValue :=
  JObj ([("status", JStr "ok");
         ("server", JStr (cfg_name self));
         ("version", JStr (cfg_version self));
         ("timestamp", JStr timestamp);
         ("requiresPayment",
          JBool match cfg_payment self with
                | Some _ => true
                | None => false
                end)]
        ++ match cfg_payment self with
           | Some p =>
               [("paymentInfo",
                 JObj [("amount", JStr (amount (pay p)));
                       ("network",
                        JStr (orElse (network (pay p)) DEFAULT_NETWORK));
                       ("payTo", JStr (payTo (pay p)))])]
           | None => []
           end).

(** The text of the result of the [ping] tool. *)
Definition ping (P : Platform) (self : AgentMcpServerInstance)
    (timestamp : string) : string :=
  JSON_stringify P (pingStatus self timestamp).

End Builtin.

(** ** cli: parseGlobalId *)

Module Cli.

(** [id.match(/^eip155:(\d+):(0x[a-fA-F0-9]{40})#(\d+)$/)]: the three
    groups.  The forty hexadecimal digits are followed by [#], so they are
    the whole run of hexadecimal digits. *)
Definition matchGlobalId (id : string) : option (string * string * string) :=
  match stripPrefix "eip155:" id with
  | None => None
  | Some s1 =>
      let '(chain, s2) := span isDigit s1 in
      if String.eqb chain "" then None
      else
        match stripPrefix ":0x" s2 with
        | None => None
        | Some s3 =>
            let '(hex, s4) := span isHexDigit s3 in
            if negb (String.length hex =? 40)%nat then None
            else
              match stripPrefix "#" s4 with
              | None => None
              | Some s5 =>
                  let '(agent, s6) := span isDigit s5 in
                  if String.eqb agent "" then None
                  else if String.eqb s6 "" then Some (chain, "0x" ++ hex, agent)
                  else None
              end
        end
  end.

Record GlobalId : Type := {
  g_chainId : number;
  g_registry : string;
  (** a [bigint] *)
  g_agentId : N
}.

(** [parseGlobalId(id)]; [BigInt] of a run of digits is its value. *)
Definition parseGlobalId (id : string) : Result GlobalId :=
  match matchGlobalId id with
  | None =>
      Throw ("Invalid global ID format: " ++ id ++ newline
             ++ "Expected: eip155:<chainId>:<registry>#<agentId>")
  | Some (chain, reg, agent) =>
      Ok {| g_chainId := Number_ofDigits chain;
            g_registry := reg;
            g_agentId := decimalValue agent |}
  end.

End Cli.

(** * Further vocabulary *)

Module Terms.

(** The server after [tool] was called for each name in turn. *)
Definition registerAll (self : AgentMcpServerInstance) (names : list string)
  : AgentMcpServerInstance :=
  fold_left tool names self.

(** The headers that the handler has set when it is done with a request. *)
Definition outcomeHeaders (out : Outcome) : list (string * string) :=
  match out with
  | Respond _ headers _ => headers
  | Forward _ headers => headers
  end.

(** [l] starts with [prefix]. *)
Fixpoint startsWithHeaders (prefix l : list (string * string)) : Prop :=
  match prefix, l with
  | [], _ => True
  | h :: prefix', h' :: l' => h = h' /\ startsWithHeaders prefix' l'
  | _ :: _, [] => False
  end.

(** The request as [PaymentServer.middleware] reads it. *)
Definition toMiddleware (req : Request) : Middleware.MiddlewareRequest :=
  {| Middleware.mw_host := host req;
     Middleware.mw_url := url req;
     Middleware.mw_x_payment := x_payment req |}.

(** [HEAD path], as [fetch(url, {method: "HEAD"})] sends it. *)
Definition headRequest (hostName path : string) : Request :=
  {| method := "HEAD";
     url := Some path;
     host := Some hostName;
     x_payment := None;
     mcp_session_id := None;
     body := "" |}.

(** The response that a client receives when the handler answers; what a
    transport answers is not known. *)
Definition answerOf (out : Outcome) : Result Receipts.Response :=
  match out with
  | Respond status headers _ =>
      Ok {| Receipts.rs_status := status;
            Receipts.rs_payment_required :=
              assoc headers "X-PAYMENT-REQUIRED";
            Receipts.rs_x_payment_response := None;
            Receipts.rs_payment_response := None |}
  | Forward _ _ => Throw "answered by the transport"
  end.

(** The first service of a list that is named [label], in any case. *)
Definition serviceNamed (label : string) (l : list AgentService)
  : option AgentService :=
  List.find (fun s => String.eqb (Endpoints.toUpperCase (svc_name s)) label) l.

End Terms.

(** * Further scenarios *)

Module Cases.

(** A ledger whose agent keeps its registration on IPFS, and a gateway
    that does not have it. *)
Definition pinnedLedger : World :=
  {| readContract := fun _ _ fn _ =>
       if String.eqb fn "ownerOf" then Ok Scenario.alice
       else if String.eqb fn "getAgentWallet" then Ok Scenario.bob
       else if String.eqb fn "tokenURI" then Ok "ipfs://bafyagent"
       else Throw "execution reverted";
     fetch := fun _ _ =>
       Ok {| ok := false; status := 404; text := Ok "not found" |} |}.

(** A ledger on which the agent's wallet cannot be read. *)
Definition walletlessLedger : World :=
  {| readContract := fun _ _ fn _ =>
       if String.eqb fn "ownerOf" then Ok Scenario.alice
       else Throw "execution reverted";
     fetch := fun _ _ => Throw "fetch failed" |}.

Definition agent2376 : VerifyInput :=
  ByGlobalId "eip155:8453:0x8004A169FB4a3325136EB29fA0ceB6D2e539a432#2376".

Definition ref2376 : AgentRef :=
  {| namespace := "eip155";
     chainId := Finite 8453;
     registry := "0x8004A169FB4a3325136EB29fA0ceB6D2e539a432";
     agentId := Finite 2376 |}.

(** The ledger between [register]'s first transaction and its
    [setAgentURI]: the agent's URI is the one built without agent id. *)
Definition pendingLedger : World :=
  Scenario.ledger Scenario.alice ZERO_ADDRESS
    (buildRegistrationUri Reference.platform Scenario.baseIdentity
       Scenario.myAgent None).

(** A client configuration that names an agent and a URL. *)
Definition byAgent (fallback : option string)
  : DataClient.AgentMcpClientConfig string :=
  {| DataClient.cc_agentId :=
       Some "eip155:8453:0x8004A169FB4a3325136EB29fA0ceB6D2e539a432#2376";
     DataClient.cc_url := fallback;
     DataClient.cc_payer := None |}.

(** An engine that connects to every URL. *)
Definition connects (mcpUrl : JValue)
    (payer : option (@PaymentClient string Connector.Fetch)) : Result unit :=
  Ok tt.

(** A registration record that points back to agent 2376 on Base and
    lists no services, and a ledger that holds it. *)
Definition bareRecord : JValue :=
  JObj [("type", JStr REGISTRATION_TYPE);
        ("name", JStr "bare");
        ("registrations",
         JArr [JObj [("agentId", JNum (Finite 2376));
                     ("agentRegistry",
                      JStr "eip155:8453:0x8004A169FB4a3325136EB29fA0ceB6D2e539a432")]])].

Definition bareLedger : World :=
  Scenario.ledger Scenario.alice ZERO_ADDRESS
    ("data:application/json;base64,"
     ++ Reference.b64encode (Reference.stringify bareRecord)).

(** A seller that asks 0.50 USDC for [alice], and one that asks one base
    unit for [bob]. *)
Definition seller : PaymentServer :=
  newPaymentServer {| payTo := Scenario.alice; amount := "500000";
                      asset := None; network := None; description := None;
                      maxTimeoutSeconds := None |}.

Definition otherSeller : PaymentServer :=
  newPaymentServer {| payTo := Scenario.bob; amount := "1";
                      asset := None; network := None; description := None;
                      maxTimeoutSeconds := None |}.

(** The [X-PAYMENT] header of an authorization of one base unit from
    [bob] to [bob]. *)
Definition underpaid : string :=
  Reference.b64encode
    (Reference.stringify
       (JObj [("payload",
               JObj [("authorization",
                      JObj [("from", JStr Scenario.bob);
                            ("to", JStr Scenario.bob);
                            ("value", JStr "1");
                            ("nonce", JStr "0x01")])])])).

(** A server that sells on Polygon without naming the asset. *)
Definition polygonShop : AgentMcpServerConfig :=
  {| name := "shop"; version := "1.0.0"; identity := None;
     payment :=
       Some {| pay := {| payTo := Scenario.alice; amount := "100000";
                         asset := None; network := Some "eip155:137";
                         description := None; maxTimeoutSeconds := None |};
               freeTools := None |};
     port := None; cors := None |}.

End Cases.

(** * Properties *)

(** ** Strings *)

#[local] Arguments String.append !_ _ /.

(** Case analysis on every test and every scrutinee of the goal. *)
Ltac case_branches :=
  repeat match goal with
         | |- context [if ?b then _ else _] => destruct b
         | |- context [match ?x with _ => _ end] => destruct x
         end.

Lemma startsWith_app (p s : string) : startsWith (p ++ s) p = true.
Proof.
  induction p as [|a p IH]; simpl.
  - now destruct s.
  - now rewrite Ascii.eqb_refl.
Qed.

Lemma slice_app (p s : string) : slice (p ++ s) (String.length p) = s.
Proof. induction p as [|a p IH]; simpl; [now destruct s | exact IH]. Qed.

Lemma stripPrefix_app (p s : string) : stripPrefix p (p ++ s) = Some s.
Proof. unfold stripPrefix. now rewrite startsWith_app, slice_app. Qed.

Lemma append_assoc (a b c : string) : (a ++ b) ++ c = a ++ b ++ c.
Proof. induction a as [|x a IH]; simpl; [reflexivity | now rewrite IH]. Qed.

Lemma toLowerCase_app (a b : string) :
  toLowerCase (a ++ b) = toLowerCase a ++ toLowerCase b.
Proof. induction a as [|x a IH]; simpl; [reflexivity | now rewrite IH]. Qed.

Lemma lowerAscii_idem (c : ascii) : lowerAscii (lowerAscii c) = lowerAscii c.
Proof. destruct c as [[] [] [] [] [] [] [] []]; reflexivity. Qed.

Lemma toLowerCase_idem (s : string) : toLowerCase (toLowerCase s) = toLowerCase s.
Proof.
  induction s as [|c s IH]; simpl; [reflexivity|].
  now rewrite lowerAscii_idem, IH.
Qed.


Lemma allChars_app (p : ascii -> bool) (a b : string) :
  allChars p (a ++ b) = allChars p a && allChars p b.
Proof.
  induction a as [|x a IH]; simpl; [reflexivity|].
  now rewrite IH, andb_assoc.
Qed.

Lemma allChars_weaken (p q : ascii -> bool) (s : string) :
  (forall c, p c = true -> q c = true) ->
  allChars p s = true -> allChars q s = true.
Proof.
  intros Hpq. induction s as [|c s IH]; simpl; [reflexivity|].
  intros [Hc Hs]%andb_prop. now rewrite (Hpq _ Hc), IH.
Qed.


Lemma toLowerCase_fixed (s : string) :
  allChars lowerFixed s = true -> toLowerCase s = s.
Proof.
  induction s as [|c s IH]; simpl; [reflexivity|].
  intros [Hc Hs]%andb_prop. apply Ascii.eqb_eq in Hc.
  now rewrite Hc, IH.
Qed.

Lemma isDigit_lowerFixed (c : ascii) : isDigit c = true -> lowerFixed c = true.
Proof. destruct c as [[] [] [] [] [] [] [] []]; cbv; congruence. Qed.

(** A run of characters of the class [p] followed by a character outside it
    is what [span] splits off. *)
Lemma span_run (p : ascii -> bool) (a : string) (c : ascii) (rest : string) :
  allChars p a = true -> p c = false ->
  span p (a ++ String c rest) = (a, String c rest).
Proof.
  intros Ha Hc. induction a as [|x a IH]; simpl in *.
  - now rewrite Hc.
  - apply andb_prop in Ha as [Hx Ha]. now rewrite Hx, (IH Ha).
Qed.

Lemma span_all (p : ascii -> bool) (a : string) :
  allChars p a = true -> span p a = (a, EmptyString).
Proof.
  intros Ha. induction a as [|x a IH]; simpl in *; [reflexivity|].
  apply andb_prop in Ha as [Hx Ha]. now rewrite Hx, (IH Ha).
Qed.

Lemma replaceFirst_absent (s : string) (a b : ascii) :
  allChars (fun c => negb (Ascii.eqb c a)) s = true -> replaceFirst s a b = s.
Proof.
  induction s as [|c s IH]; simpl; [reflexivity|].
  intros [Hc Hs]%andb_prop. apply negb_true_iff in Hc.
  now rewrite Hc, (IH Hs).
Qed.

Lemma replaceFirst_first (pre post : string) (a b : ascii) :
  allChars (fun c => negb (Ascii.eqb c a)) pre = true ->
  replaceFirst (pre ++ String a post) a b = pre ++ String b post.
Proof.
  induction pre as [|c pre IH]; simpl.
  - intros _. now rewrite Ascii.eqb_refl.
  - intros [Hc Hs]%andb_prop. apply negb_true_iff in Hc.
    now rewrite Hc, (IH Hs).
Qed.

(** ** Numbers *)

Lemma roundToDouble_exact (v : N) : (v < 2 ^ 53)%N -> roundToDouble v = Finite v.
Proof.
  intros Hv. unfold roundToDouble.
  now apply N.ltb_lt in Hv as ->.
Qed.

(** Rounding never goes below [2^53] from above it. *)
Lemma roundToDouble_large (v y : N) :
  (2 ^ 53 <= v)%N -> roundToDouble v = Finite y -> (2 ^ 53 <= y)%N.
Proof.
  intros Hv. unfold roundToDouble.
  destruct (N.ltb_spec v (2 ^ 53)) as [Hlt|_]; [lia|].
  set (e := (N.log2 v - 52)%N).
  set (q := N.shiftr v e).
  match goal with
  | |- context [N.shiftl ?x e] => set (q' := x)
  end.
  destruct (2 ^ 1024 <=? N.shiftl q' e)%N; [discriminate|].
  intros [= <-].
  assert (Hlog : (53 <= N.log2 v)%N).
  { change 53%N with (N.log2 (2 ^ 53)). now apply N.log2_le_mono. }
  assert (Hq : (2 ^ 52 <= q)%N).
  { subst q. rewrite N.shiftr_div_pow2.
    assert (Hpos : (0 < v)%N) by (assert (0 < 2 ^ 53)%N by reflexivity; lia).
    destruct (N.log2_spec v Hpos) as [Hlo _].
    replace (N.log2 v) with (52 + e)%N in Hlo by (subst e; lia).
    rewrite N.pow_add_r in Hlo.
    apply N.div_le_lower_bound; [apply N.pow_nonzero; discriminate|].
    lia. }
  assert (Hq' : (q <= q')%N) by (subst q'; destruct (_ || _); lia).
  rewrite N.shiftl_mul_pow2.
  assert (He : (2 ^ 1 <= 2 ^ e)%N).
  { apply N.pow_le_mono_r; [discriminate | subst e; lia]. }
  change (2 ^ 53)%N with (2 ^ 52 * 2 ^ 1)%N.
  apply N.mul_le_mono; lia.
Qed.

Lemma roundsTo_exact (c x : N) :
  (x < 2 ^ 53)%N -> roundsTo c x = true -> c = x.
Proof.
  intros Hx. unfold roundsTo.
  destruct (N.lt_ge_cases c (2 ^ 53)) as [Hc|Hc].
  - rewrite (roundToDouble_exact _ Hc). now intros ?%N.eqb_eq.
  - destruct (roundToDouble c) as [y|] eqn:Hy; [|discriminate].
    intros ->%N.eqb_eq. apply (roundToDouble_large _ _ Hc) in Hy. lia.
Qed.

Lemma candidate_exact (x : N) (n k : nat) (c : N) :
  (x < 2 ^ 53)%N -> candidate x n k = Some c -> c = x.
Proof.
  intros Hx. unfold candidate.
  set (p := (10 ^ N.of_nat (n - k))%N).
  destruct (roundsTo (x / p * p) x) eqn:Hlo,
           (roundsTo (x / p * p + p) x) eqn:Hhi;
    try discriminate; case_branches; intros [= <-];
    eauto using roundsTo_exact.
Qed.

Lemma shortestFrom_exact (x : N) (n k fuel : nat) :
  (x < 2 ^ 53)%N -> shortestFrom x n k fuel = x.
Proof.
  intros Hx. revert k. induction fuel as [|fuel IH]; intros k; simpl.
  - reflexivity.
  - destruct (candidate x n k) as [c|] eqn:Hc; [|apply IH].
    eauto using candidate_exact.
Qed.

(** Up to [Number.MAX_SAFE_INTEGER] a number prints as its decimal
    numeral. *)
Lemma Number_toString_safe (x : N) :
  (x < 2 ^ 53)%N -> Number_toString (Finite x) = decimal x.
Proof.
  intros Hx. unfold Number_toString, shortestDecimal.
  rewrite shortestFrom_exact by assumption.
  assert (Hlt : (x < 10 ^ 21)%N).
  { eapply N.lt_trans; [exact Hx | reflexivity]. }
  now apply N.ltb_lt in Hlt as ->.
Qed.

(** ** Global references: parseAgentId and formatAgentId *)


Lemma isDigit_isHexDigit (c : ascii) : isDigit c = true -> isHexDigit c = true.
Proof. unfold isHexDigit. now intros ->. Qed.

Lemma isHexDigit_not_slash (c : ascii) :
  isHexDigit c = true -> negb (Ascii.eqb c "/") = true.
Proof. destruct c as [[] [] [] [] [] [] [] []]; cbv; congruence. Qed.

Lemma isHexDigit_not_hash (c : ascii) :
  isHexDigit c = true -> Ascii.eqb c "#" = false.
Proof. destruct c as [[] [] [] [] [] [] [] []]; cbv; congruence. Qed.

Lemma run_nonempty (p : ascii -> bool) (s : string) :
  isRun p s = true -> String.eqb s "" = false /\ allChars p s = true.
Proof.
  unfold isRun. intros [H1 H2]%andb_prop. now apply negb_true_iff in H1.
Qed.

Lemma matchGlobalId_text (chain hex id : string) :
  isRun isDigit chain = true -> isRun isHexDigit hex = true ->
  isRun isDigit id = true ->
  matchGlobalId (referenceText "#" chain hex id)
  = Some ("eip155", chain, "0x" ++ hex, id).
Proof.
  intros [Hc1 Hc2]%run_nonempty [Hh1 Hh2]%run_nonempty [Hi1 Hi2]%run_nonempty.
  unfold matchGlobalId, referenceText.
  rewrite stripPrefix_app.
  change (chain ++ ":0x" ++ hex ++ "#" ++ id)
    with (chain ++ String ":" ("0x" ++ hex ++ "#" ++ id)).
  rewrite (span_run isDigit chain ":" _ Hc2 eq_refl), Hc1.
  change (String ":" ("0x" ++ hex ++ "#" ++ id))
    with (":0x" ++ hex ++ String "#" id).
  rewrite stripPrefix_app.
  rewrite (span_run isHexDigit hex "#" _ Hh2 eq_refl), Hh1.
  change (String "#" id) with ("#" ++ id).
  rewrite stripPrefix_app, (span_all isDigit id Hi2), Hi1.
  reflexivity.
Qed.

Lemma normalize_text (sep chain hex id : string) :
  sep = "#" \/ sep = "/" ->
  allChars isDigit chain = true -> allChars isHexDigit hex = true ->
  allChars isDigit id = true ->
  replaceFirst (referenceText sep chain hex id) "/" "#"
  = referenceText "#" chain hex id.
Proof.
  intros Hsep Hc Hh Hi.
  pose (noSlash := fun c : ascii => negb (Ascii.eqb c "/")).
  assert (Hd : forall s, allChars isDigit s = true -> allChars noSlash s = true).
  { intros s. apply allChars_weaken. intros c Hcd.
    now apply isHexDigit_not_slash, isDigit_isHexDigit. }
  assert (Hx : allChars noSlash hex = true).
  { revert Hh. apply allChars_weaken, isHexDigit_not_slash. }
  assert (Hpre : allChars noSlash ("eip155:" ++ chain ++ ":0x" ++ hex) = true).
  { rewrite !allChars_app, (Hd _ Hc), Hx. reflexivity. }
  unfold referenceText. destruct Hsep as [-> | ->].
  - apply replaceFirst_absent. fold noSlash.
    rewrite !allChars_app, (Hd _ Hc), (Hd _ Hi), Hx. reflexivity.
  - replace ("eip155:" ++ chain ++ ":0x" ++ hex ++ "/" ++ id)
      with (("eip155:" ++ chain ++ ":0x" ++ hex) ++ String "/" id)
      by (now rewrite !append_assoc).
    rewrite (replaceFirst_first _ _ _ "#" Hpre).
    now rewrite !append_assoc.
Qed.

(** What [parseAgentId] returns on the text of a reference, with either
    separator. *)
Lemma parseAgentId_text (sep chain hex id : string) :
  sep = "#" \/ sep = "/" ->
  isRun isDigit chain = true -> isRun isHexDigit hex = true ->
  isRun isDigit id = true ->
  parseAgentId (referenceText sep chain hex id)
  = Ok {| namespace := "eip155";
          chainId := Number_ofDigits chain;
          registry := "0x" ++ hex;
          agentId := Number_ofDigits id |}.
Proof.
  intros Hsep Hc Hh Hi. unfold parseAgentId.
  rewrite normalize_text by
    (try assumption; now apply run_nonempty in Hc, Hh, Hi).
  now rewrite matchGlobalId_text.
Qed.

Lemma startsWith_inv (p s : string) :
  startsWith s p = true -> s = p ++ slice s (String.length p).
Proof.
  revert s. induction p as [|a p IH]; intros s; simpl.
  - now destruct s.
  - destruct s as [|b s]; [discriminate|].
    intros [Hab Hs]%andb_prop. apply Ascii.eqb_eq in Hab as ->.
    simpl. f_equal. now apply IH.
Qed.

Lemma stripPrefix_inv (p s r : string) :
  stripPrefix p s = Some r -> s = p ++ r.
Proof.
  unfold stripPrefix. destruct (startsWith s p) eqn:Hs; [|discriminate].
  intros [= <-]. now apply startsWith_inv.
Qed.

Lemma span_inv (p : ascii -> bool) (s a b : string) :
  span p s = (a, b) -> s = a ++ b /\ allChars p a = true.
Proof.
  revert a b. induction s as [|c s IH]; intros a b; simpl.
  - now intros [= <- <-].
  - destruct (p c) eqn:Hc.
    + destruct (span p s) as [a' b'] eqn:Hs. intros [= <- <-].
      destruct (IH a' b' eq_refl) as [-> Ha]. simpl. now rewrite Hc.
    + now intros [= <- <-].
Qed.

Lemma isRun_intro (p : ascii -> bool) (s : string) :
  String.eqb s "" = false -> allChars p s = true -> isRun p s = true.
Proof. unfold isRun. now intros -> ->. Qed.

(** What [matchGlobalId] accepts is the text of a reference. *)
Lemma matchGlobalId_inv (s ns chain reg id : string) :
  matchGlobalId s = Some (ns, chain, reg, id) ->
  exists hex,
    ns = "eip155" /\ reg = "0x" ++ hex
    /\ isRun isDigit chain = true /\ isRun isHexDigit hex = true
    /\ isRun isDigit id = true
    /\ s = referenceText "#" chain hex id.
Proof.
  unfold matchGlobalId.
  destruct (stripPrefix "eip155:" s) as [s1|] eqn:H1; [|discriminate].
  destruct (span isDigit s1) as [c s2] eqn:H2.
  destruct (String.eqb c "") eqn:Hc; [discriminate|].
  destruct (stripPrefix ":0x" s2) as [s3|] eqn:H3; [|discriminate].
  destruct (span isHexDigit s3) as [h s4] eqn:H4.
  destruct (String.eqb h "") eqn:Hh; [discriminate|].
  destruct (stripPrefix "#" s4) as [s5|] eqn:H5; [|discriminate].
  destruct (span isDigit s5) as [i s6] eqn:H6.
  destruct (String.eqb i "") eqn:Hi; [discriminate|].
  destruct (String.eqb_spec s6 "") as [-> | _]; [|discriminate].
  intros [= <- <- <- <-]. exists h.
  apply stripPrefix_inv in H1, H3, H5.
  apply span_inv in H2 as [-> Hcd], H4 as [-> Hhd], H6 as [-> Hid].
  repeat split; auto using isRun_intro.
  subst. unfold referenceText.
  replace (i ++ "") with i by (clear; induction i; simpl; congruence).
  reflexivity.
Qed.

Lemma replaceFirst_inv (s : string) (a b : ascii) :
  replaceFirst s a b = s
  \/ exists pre post,
       s = pre ++ String a post
       /\ replaceFirst s a b = pre ++ String b post.
Proof.
  induction s as [|c s IH]; simpl; [now left|].
  destruct (Ascii.eqb_spec c a) as [-> | Hne].
  - right. now exists EmptyString, s.
  - destruct IH as [-> | (pre & post & Hs & ->)]; [now left|].
    right. exists (String c pre), post. simpl. now rewrite <- Hs.
Qed.

(** A separator that occurs in neither part splits a text in one way. *)
Lemma separator_unique (c : ascii) (x y x' y' : string) :
  allChars (fun d => negb (Ascii.eqb d c)) x = true ->
  allChars (fun d => negb (Ascii.eqb d c)) y = true ->
  x ++ String c y = x' ++ String c y' ->
  x' = x /\ y' = y.
Proof.
  intros Hx Hy. revert x' Hx.
  induction x as [|d x IH]; intros x' Hx Heq; simpl in *.
  - destruct x' as [|d' x']; simpl in Heq.
    + now injection Heq as <-.
    + injection Heq as <- ->. rewrite allChars_app in Hy. simpl in Hy.
      rewrite Ascii.eqb_refl in Hy. simpl in Hy.
      now rewrite andb_false_r in Hy.
  - apply andb_prop in Hx as [Hd Hx].
    destruct x' as [|d' x']; simpl in Heq.
    + injection Heq as -> _. now rewrite Ascii.eqb_refl in Hd.
    + injection Heq as <- Heq. destruct (IH x' Hx Heq) as [-> ->]. auto.
Qed.

(** [parseAgentId] succeeds exactly on the well-formed references. *)
Lemma parseAgentId_wellFormed (s : string) :
  wellFormedReference s <-> exists ref, parseAgentId s = Ok ref.
Proof.
  split.
  - intros (sep & chain & hex & id & Hsep & Hc & Hh & Hi & ->).
    eexists. now apply parseAgentId_text.
  - intros [ref Hp]. unfold parseAgentId in Hp.
    destruct (matchGlobalId (replaceFirst s "/" "#"))
      as [[[[ns chain] reg] id]|] eqn:Hm; [|discriminate].
    clear Hp. apply matchGlobalId_inv in Hm
      as (hex & _ & _ & Hc & Hh & Hi & Hn).
    destruct (replaceFirst_inv s "/" "#") as [Hsame | (pre & post & Hs & Hr)].
    + exists "#", chain, hex, id. rewrite Hsame in Hn. auto 6.
    + exists "/", chain, hex, id. do 4 (split; [auto|]).
      rewrite Hr in Hn. unfold referenceText in Hn.
      replace ("eip155:" ++ chain ++ ":0x" ++ hex ++ "#" ++ id)
        with (("eip155:" ++ chain ++ ":0x" ++ hex) ++ String "#" id)
        in Hn by (now rewrite !append_assoc).
      pose (noHash := fun d : ascii => negb (Ascii.eqb d "#")).
      assert (Hd : forall t, allChars isDigit t = true ->
                             allChars noHash t = true).
      { intros t. apply allChars_weaken. intros d Hdd. unfold noHash.
        now rewrite isHexDigit_not_hash by now apply isDigit_isHexDigit. }
      assert (Hx : allChars noHash hex = true).
      { apply run_nonempty in Hh as [_ Hh]. revert Hh.
        apply allChars_weaken. intros d Hdd. unfold noHash.
        now rewrite isHexDigit_not_hash. }
      apply run_nonempty in Hc as [_ Hc'], Hi as [_ Hi'].
      symmetry in Hn. apply separator_unique in Hn as [-> ->].
      * rewrite Hs. unfold referenceText. now rewrite !append_assoc.
      * fold noHash. rewrite !allChars_app, (Hd _ Hc'), Hx. reflexivity.
      * fold noHash. now apply Hd.
Qed.

Lemma digits_uint (s : string) :
  allChars isDigit s = true ->
  exists d, NilEmpty.uint_of_string s = Some d.
Proof.
  induction s as [|c s IH]; simpl; [now eexists|].
  intros [Hc Hs]%andb_prop. destruct (IH Hs) as [d ->].
  destruct c as [[] [] [] [] [] [] [] []]; try discriminate Hc;
    simpl; now eexists.
Qed.

(** A decimal numeral is the numeral of its value. *)
Lemma decimal_decimalValue (s : string) :
  numeral s = true -> decimal (decimalValue s) = s.
Proof.
  unfold numeral. intros [Hr Hz]%andb_prop.
  destruct (run_nonempty _ _ Hr) as [_ Hd].
  destruct (digits_uint s Hd) as [d Hsd].
  unfold decimal, decimalValue. rewrite Hsd, Unsigned.to_of.
  rewrite <- (NilEmpty.sus s d Hsd). f_equal.
  destruct s as [|c s]; [discriminate|].
  simpl in Hsd, Hd. apply andb_prop in Hd as [Hc Hs].
  destruct (digits_uint s Hs) as [d' Hsd']. rewrite Hsd' in Hsd.
  destruct c as [[] [] [] [] [] [] [] []]; try discriminate Hc;
    simpl in Hsd; injection Hsd as <-; try reflexivity.
  destruct s; [|discriminate Hz].
  simpl in Hsd'. now injection Hsd' as <-.
Qed.

(** C9 (amended).  For every reference text, with [#] or [/] before the
    local id, whose chain id and local id are at most 2^53 - 1:
    [parseAgentId] succeeds, keeps the namespace and the registry address as
    written and the two ids by value, and [formatAgentId] of the result is
    the [#]-separated text with both ids as decimal numerals; when the ids
    are written without leading zeros this is the input with [#] as the
    separator. *)
Theorem format_parse_canonical (sep chain hex id : string) :
  sep = "#" \/ sep = "/" ->
  isRun isDigit chain = true ->
  isRun isHexDigit hex = true ->
  isRun isDigit id = true ->
  (decimalValue chain < 2 ^ 53)%N ->
  (decimalValue id < 2 ^ 53)%N ->
  exists ref,
    parseAgentId (referenceText sep chain hex id) = Ok ref
    /\ namespace ref = "eip155"
    /\ chainId ref = Finite (decimalValue chain)
    /\ registry ref = "0x" ++ hex
    /\ agentId ref = Finite (decimalValue id)
    /\ formatAgentId ref
       = referenceText "#" (decimal (decimalValue chain)) hex
                           (decimal (decimalValue id))
    /\ (numeral chain = true -> numeral id = true ->
        formatAgentId ref = referenceText "#" chain hex id).
Proof.
  intros Hsep Hc Hh Hi Hcv Hiv.
  eexists. split; [now apply parseAgentId_text|].
  unfold formatAgentId, Number_ofDigits; cbn [namespace chainId registry agentId].
  rewrite !roundToDouble_exact, !Number_toString_safe by assumption.
  do 4 (split; [reflexivity|]). split; [reflexivity|].
  intros Hnc Hni. now rewrite !decimal_decimalValue.
Qed.

Lemma format_parse_canonical_witness :
  exists ref,
    parseAgentId
      "eip155:08453:0x8004A169FB4a3325136EB29fA0ceB6D2e539a432/2376" = Ok ref
    /\ formatAgentId ref
       = "eip155:8453:0x8004A169FB4a3325136EB29fA0ceB6D2e539a432#2376".
Proof.
  destruct (format_parse_canonical "/" "08453"
              "8004A169FB4a3325136EB29fA0ceB6D2e539a432" "2376")
    as (ref & Hp & _ & _ & _ & _ & Hf & _);
    [right; reflexivity | reflexivity | reflexivity | reflexivity
    | reflexivity | reflexivity |].
  exists ref. split; [exact Hp | exact Hf].
Defined.

(** Beyond 2^53 the local id is not kept: [Number] rounds it. *)
Lemma format_parse_rounds_large_id :
  exists ref,
    parseAgentId
      "eip155:8453:0x8004A169FB4a3325136EB29fA0ceB6D2e539a432/9007199254740993"
    = Ok ref
    /\ agentId ref = Finite 9007199254740992
    /\ formatAgentId ref
       = "eip155:8453:0x8004A169FB4a3325136EB29fA0ceB6D2e539a432#9007199254740992"
    /\ formatAgentId ref
       <> "eip155:8453:0x8004A169FB4a3325136EB29fA0ceB6D2e539a432#9007199254740993".
Proof.
  eexists. split; [vm_compute; reflexivity|].
  split; [reflexivity|]. split; [vm_compute; reflexivity|].
  vm_compute. discriminate.
Qed.

(** ** identity: verifyAgent *)

Lemma number_eqb_eq (a b : number) : number_eqb a b = true <-> a = b.
Proof.
  destruct a, b; simpl; split; try congruence.
  - now intros ->%N.eqb_eq.
  - intros [= ->]. apply N.eqb_refl.
Qed.

(** The test of [isBackref] implies the relation of the specification. *)
Lemma registryPrefix_pointsBack (ref : AgentRef) (e : AgentRegistrationRef) :
  number_eqb (ref_agentId e) (agentId ref) = true ->
  String.eqb (toLowerCase (agentRegistry e)) (registryPrefix ref) = true ->
  pointsBack ref e.
Proof.
  intros Hid%number_eqb_eq Hreg%String.eqb_eq. split; [exact Hid|].
  rewrite <- toLowerCase_idem, Hreg. unfold registryPrefix.
  now rewrite !toLowerCase_app, toLowerCase_idem.
Qed.

Lemma isBackref_entry (ref : AgentRef) (prefix : string) (v : JValue)
    (e : AgentRegistrationRef) :
  entryOf v = Some e ->
  isBackref ref prefix v
  = Ok (number_eqb (ref_agentId e) (agentId ref)
        && String.eqb (toLowerCase (agentRegistry e)) prefix).
Proof.
  destruct v as [| | | | |fields]; try discriminate. unfold entryOf, isBackref.
  cbn [getProp].
  destruct (lookupField fields "agentId") as [[| |n| | |]|]; try discriminate.
  destruct (lookupField fields "agentRegistry") as [[| | |s| |]|];
    try discriminate.
  intros [= <-]. cbn [ref_agentId agentRegistry].
  now destruct (number_eqb n (agentId ref)).
Qed.

Lemma arraySome_no_backref (ref : AgentRef) (items : list JValue)
    (entries : list AgentRegistrationRef) :
  entriesOf items = Some entries ->
  (forall e, In e entries -> ~ pointsBack ref e) ->
  arraySome (isBackref ref (registryPrefix ref)) items = Ok false.
Proof.
  revert entries. induction items as [|v items IH]; intros entries; simpl.
  - reflexivity.
  - destruct (entryOf v) as [e|] eqn:He; [|discriminate].
    destruct (entriesOf items) as [es|]; [|discriminate].
    intros [= <-] Hno. rewrite (isBackref_entry _ _ _ _ He).
    destruct (number_eqb _ _ && _) eqn:Hm.
    + apply andb_prop in Hm as [H1 H2].
      exfalso. apply (Hno e); [now left|].
      now apply registryPrefix_pointsBack.
    + apply (IH es eq_refl). intros e' He'. apply Hno. now right.
Qed.

Lemma hasBackref_none (ref : AgentRef) (registration : JValue)
    (entries : list AgentRegistrationRef) :
  crossReferences registration = Some entries ->
  (forall e, In e entries -> ~ pointsBack ref e) ->
  hasBackref registration ref (registryPrefix ref) = Ok None
  \/ hasBackref registration ref (registryPrefix ref) = Ok (Some false).
Proof.
  destruct registration as [| | | | |fields]; try discriminate.
  unfold crossReferences, hasBackref. cbn [getProp].
  destruct (lookupField fields "registrations") as [[| | | |items|]|];
    try discriminate.
  - intros He Hno. right. now rewrite (arraySome_no_backref _ _ _ He Hno).
  - now left.
Qed.

(** On a record typed as [AgentRegistrationFile]: when the owner,
    payment-wallet and URI reads succeed and the record's [registrations]
    is absent or a list of entries with a number [agentId] and a string
    [agentRegistry], none of which points back to the reference,
    [verifyAgent] returns a result with [valid = false], the back-reference
    error, and the owner and payment wallet it had read. *)
Theorem missing_backreference_reported
    (P : Platform) (W : World) (input : VerifyInput) (ref : AgentRef)
    (rpcUrl ownerRead walletRead agentUri : string) (record : JValue)
    (entries : list AgentRegistrationRef) :
  resolveRef input = Ok ref ->
  rpcUrlFor input ref = Some rpcUrl ->
  rpcUrl <> "" ->
  readField W rpcUrl ref "ownerOf" = Ok ownerRead ->
  readField W rpcUrl ref "getAgentWallet" = Ok walletRead ->
  readField W rpcUrl ref "tokenURI" = Ok agentUri ->
  snd (fetchRegistrationFile P W agentUri DEFAULT_IPFS_GATEWAY) = Ok record ->
  crossReferences record = Some entries ->
  (forall e, In e entries -> ~ pointsBack ref e) ->
  exists r,
    verifyAgent P W input = Ok r
    /\ valid r = false
    /\ error r = Some (backrefMissing ref (registryPrefix ref))
    /\ owner r = Some ownerRead
    /\ paymentWallet r
       = (if String.eqb walletRead ZERO_ADDRESS then None else Some walletRead)
    /\ registration r = Some record.
Proof.
  intros Href Hrpc Hne Ho Hw Hu Hf Hx Hno.
  unfold verifyAgent. rewrite Href. eexists. split; [reflexivity|].
  unfold verifyRef. rewrite Hrpc.
  destruct rpcUrl as [|c rpcUrl]; [congruence|].
  rewrite Ho, Hw, Hu, Hf.
  destruct (hasBackref_none ref record entries Hx Hno) as [-> | ->];
    repeat split.
Qed.

Lemma missing_backreference_witness :
  exists r,
    verifyAgent Reference.platform Scenario.baseLedger
      (ByGlobalId "eip155:8453:0x8004A169FB4a3325136EB29fA0ceB6D2e539a432#7")
    = Ok r
    /\ valid r = false
    /\ owner r = Some Scenario.alice
    /\ paymentWallet r = None.
Proof.
  destruct (missing_backreference_reported Reference.platform
              Scenario.baseLedger
              (ByGlobalId
                 "eip155:8453:0x8004A169FB4a3325136EB29fA0ceB6D2e539a432#7")
              {| namespace := "eip155";
                 chainId := Finite 8453;
                 registry := "0x8004A169FB4a3325136EB29fA0ceB6D2e539a432";
                 agentId := Finite 7 |}
              "https://mainnet.base.org" Scenario.alice ZERO_ADDRESS
              Scenario.agentUri2376
              (registrationFile Scenario.baseIdentity Scenario.myAgent
                 (Some (Finite 2376)))
              [ {| ref_agentId := Finite 2376;
                   agentRegistry :=
                     "eip155:8453:0x8004A169FB4a3325136EB29fA0ceB6D2e539a432" |} ])
    as (r & Hr & Hv & _ & Ho & Hp & _).
  - vm_compute; reflexivity.
  - vm_compute; reflexivity.
  - discriminate.
  - reflexivity.
  - reflexivity.
  - reflexivity.
  - vm_compute; reflexivity.
  - vm_compute; reflexivity.
  - intros e [<- | []] [Hid _]. discriminate Hid.
  - exists r. repeat split; assumption.
Defined.

Lemma arraySome_app (cb : JValue -> Result bool) (pre rest : list JValue) :
  arraySome cb pre = Ok false ->
  arraySome cb (pre ++ rest) = arraySome cb rest.
Proof.
  induction pre as [|v pre IH]; cbn [arraySome app]; [reflexivity|].
  destruct (cb v) as [[|]|m]; try discriminate. exact IH.
Qed.

(** C1.  The specification reports a record without back-reference as
    such, with the owner and the payment wallet that were read; the code
    does so only while it can read every entry it looks at.  The fetched
    record is cast to [AgentRegistrationFile] unchecked.  When the three
    ledger reads succeed and the record's [registrations] holds, after
    well-typed entries that do not point back, an entry with the agent's
    id and no [agentRegistry], and no entry of the list points back to the
    reference, then [verifyAgent] returns a result with [valid = false]
    whose error is the TypeError of reading [toLowerCase], not the
    back-reference error, and with neither the owner nor the payment
    wallet nor the registration. *)
Theorem untyped_entry_loses_owner
    (P : Platform) (W : World) (input : VerifyInput) (ref : AgentRef)
    (rpcUrl ownerRead walletRead agentUri : string)
    (fields entry : list (string * JValue)) (pre rest : list JValue)
    (typed : list AgentRegistrationRef) :
  resolveRef input = Ok ref ->
  rpcUrlFor input ref = Some rpcUrl ->
  rpcUrl <> "" ->
  readField W rpcUrl ref "ownerOf" = Ok ownerRead ->
  readField W rpcUrl ref "getAgentWallet" = Ok walletRead ->
  readField W rpcUrl ref "tokenURI" = Ok agentUri ->
  snd (fetchRegistrationFile P W agentUri DEFAULT_IPFS_GATEWAY)
  = Ok (JObj fields) ->
  lookupField fields "registrations"
  = Some (JArr (pre ++ JObj entry :: rest)) ->
  entriesOf pre = Some typed ->
  (forall e, In e typed -> ~ pointsBack ref e) ->
  lookupField entry "agentId" = Some (JNum (agentId ref)) ->
  lookupField entry "agentRegistry" = None ->
  (forall v e, In v rest -> entryOf v = Some e -> ~ pointsBack ref e) ->
  exists r,
    verifyAgent P W input = Ok r
    /\ valid r = false
    /\ owner r = None
    /\ paymentWallet r = None
    /\ registration r = None
    /\ error r
       = Some "Cannot read properties of undefined (reading 'toLowerCase')"
    /\ error r <> Some (backrefMissing ref (registryPrefix ref)).
Proof.
  intros Href Hrpc Hne Ho Hw Hu Hf Hregs Hpre Hno Hid Hreg _.
  unfold verifyAgent. rewrite Href. eexists. split; [reflexivity|].
  unfold verifyRef. rewrite Hrpc.
  destruct rpcUrl as [|c rpcUrl]; [congruence|].
  rewrite Ho, Hw, Hu, Hf.
  unfold hasBackref. cbn [getProp]. rewrite Hregs.
  rewrite (arraySome_app _ _ _ (arraySome_no_backref ref pre typed Hpre Hno)).
  assert (Hthrow : isBackref ref (registryPrefix ref) (JObj entry)
                   = Throw "Cannot read properties of undefined (reading 'toLowerCase')").
  { unfold isBackref. cbn [getProp]. rewrite Hid, Hreg.
    now rewrite (proj2 (number_eqb_eq _ _) eq_refl). }
  cbn [arraySome]. rewrite Hthrow.
  unfold caught, failed; cbn [valid owner paymentWallet registration error].
  change (includes "Cannot read properties of undefined (reading 'toLowerCase')"
            "revert"
          || includes
               "Cannot read properties of undefined (reading 'toLowerCase')"
               "ERC721")
    with false.
  do 5 (split; [reflexivity|]).
  unfold backrefMissing. cbn [String.append]. discriminate.
Qed.

Lemma untyped_entry_loses_owner_witness :
  exists r,
    verifyAgent Reference.platform Scenario.untypedLedger
      (ByGlobalId "eip155:8453:0x8004A169FB4a3325136EB29fA0ceB6D2e539a432#7")
    = Ok r
    /\ valid r = false
    /\ owner r = None
    /\ paymentWallet r = None
    /\ error r
       = Some "Cannot read properties of undefined (reading 'toLowerCase')".
Proof.
  destruct (untyped_entry_loses_owner Reference.platform
              Scenario.untypedLedger
              (ByGlobalId
                 "eip155:8453:0x8004A169FB4a3325136EB29fA0ceB6D2e539a432#7")
              {| namespace := "eip155";
                 chainId := Finite 8453;
                 registry := "0x8004A169FB4a3325136EB29fA0ceB6D2e539a432";
                 agentId := Finite 7 |}
              "https://mainnet.base.org" Scenario.alice Scenario.bob
              ("data:application/json;base64,"
               ++ Reference.b64encode
                    (Reference.stringify Scenario.untypedRecord))
              [("registrations", JArr [JObj [("agentId", JNum (Finite 7))]])]
              [("agentId", JNum (Finite 7))] [] [] [])
    as (r & Hr & Hv & Ho & Hp & _ & He & _).
  - vm_compute; reflexivity.
  - vm_compute; reflexivity.
  - discriminate.
  - reflexivity.
  - reflexivity.
  - reflexivity.
  - vm_compute; reflexivity.
  - reflexivity.
  - reflexivity.
  - intros e [].
  - reflexivity.
  - reflexivity.
  - intros v e [].
  - exists r. repeat split; assumption.
Defined.

(** A result is well formed when it is valid without an error, or invalid
    with one. *)
Lemma verifyRef_shape (P : Platform) (W : World) (input : VerifyInput)
    (ref : AgentRef) :
  let r := verifyRef P W input ref in
  globalId r = formatAgentId ref
  /\ vr_agentId r = agentId ref
  /\ (valid r = true /\ error r = None
      \/ valid r = false /\ exists m, error r = Some m).
Proof.
  unfold verifyRef, caught. case_branches; cbn; repeat split; eauto.
Qed.

(** C2 (amended).  On a well-formed reference string [verifyAgent]
    returns a result, and a failure is a result with [valid = false] and an
    error message; on any other string the error of [parseAgentId] leaves
    [verifyAgent]: the call throws and no result is returned. *)
Theorem verifyAgent_string_outcome (P : Platform) (W : World) (s : string) :
  (wellFormedReference s ->
   exists ref r,
     parseAgentId s = Ok ref
     /\ verifyAgent P W (ByGlobalId s) = Ok r
     /\ globalId r = formatAgentId ref
     /\ (valid r = true /\ error r = None
         \/ valid r = false /\ exists m, error r = Some m))
  /\ (~ wellFormedReference s ->
      exists m,
        parseAgentId s = Throw m
        /\ verifyAgent P W (ByGlobalId s) = Throw m).
Proof.
  unfold verifyAgent, resolveRef. split.
  - intros [ref Hp]%parseAgentId_wellFormed. exists ref. rewrite Hp.
    eexists. split; [reflexivity|]. split; [reflexivity|].
    destruct (verifyRef_shape P W (ByGlobalId s) ref) as (Hg & _ & Hv).
    now split.
  - intros Hnot. destruct (parseAgentId s) as [ref|m] eqn:Hp.
    + exfalso. apply Hnot, parseAgentId_wellFormed. now exists ref.
    + now exists m.
Qed.

Lemma verifyAgent_string_outcome_witness :
  exists r,
    verifyAgent Reference.platform Scenario.baseLedger
      (ByGlobalId "eip155:8453:0x8004A169FB4a3325136EB29fA0ceB6D2e539a432/2376")
    = Ok r
    /\ globalId r
       = "eip155:8453:0x8004A169FB4a3325136EB29fA0ceB6D2e539a432#2376".
Proof.
  destruct (verifyAgent_string_outcome Reference.platform Scenario.baseLedger
              "eip155:8453:0x8004A169FB4a3325136EB29fA0ceB6D2e539a432/2376")
    as [Hok _].
  destruct Hok as (ref & r & Hp & Hr & Hg & _).
  - exists "/", "8453", "8004A169FB4a3325136EB29fA0ceB6D2e539a432", "2376".
    repeat split; auto.
  - exists r. split; [exact Hr|]. rewrite Hg.
    vm_compute in Hp. injection Hp as <-. vm_compute. reflexivity.
Defined.

(** A string outside the pattern: the call throws. *)
Lemma verifyAgent_throws_on_malformed :
  verifyAgent Reference.platform Scenario.baseLedger (ByGlobalId "agent-2376")
  = Throw ("Invalid agent global ID format: " ++ dquote ++ "agent-2376"
           ++ dquote ++ newline ++ "Expected: " ++ dquote
           ++ "eip155:{chainId}:{registry}#{agentId}" ++ dquote
           ++ " (e.g. " ++ dquote ++ "eip155:8453:0x8004...#2376" ++ dquote
           ++ ")")
  /\ ~ exists r,
         verifyAgent Reference.platform Scenario.baseLedger
           (ByGlobalId "agent-2376") = Ok r.
Proof.
  split; [vm_compute; reflexivity|].
  intros [r Hr]. vm_compute in Hr. discriminate Hr.
Qed.

(** ** identity: buildRegistrationUri *)

Lemma string_of_uint_digits (d : Decimal.uint) :
  allChars isDigit (NilEmpty.string_of_uint d) = true.
Proof. induction d; simpl; auto. Qed.

Lemma decimal_digits (n : N) : allChars isDigit (decimal n) = true.
Proof. apply string_of_uint_digits. Qed.

Lemma allChars_rev_string (p : ascii -> bool) (s acc : string) :
  allChars p s = true -> allChars p acc = true ->
  allChars p (rev_string s acc) = true.
Proof.
  revert acc. induction s as [|c s IH]; intros acc; simpl; [auto|].
  intros [Hc Hs]%andb_prop Hacc. apply IH; [exact Hs|].
  simpl. now rewrite Hc.
Qed.

Lemma allChars_dropZeros (p : ascii -> bool) (s : string) :
  allChars p s = true -> allChars p (dropZeros s) = true.
Proof.
  induction s as [|c s IH]; [auto|].
  intros Hs. pose proof Hs as [Hc Hs']%andb_prop. simpl.
  destruct c as [[] [] [] [] [] [] [] []]; auto.
Qed.

Lemma allChars_stripTrailingZeros (p : ascii -> bool) (s : string) :
  allChars p s = true -> allChars p (stripTrailingZeros s) = true.
Proof.
  intros Hs. unfold stripTrailingZeros.
  apply allChars_rev_string; [|reflexivity].
  apply allChars_dropZeros. now apply allChars_rev_string.
Qed.

(** The text of a finite number has no upper-case letter. *)
Lemma Number_toString_lower (v : N) :
  toLowerCase (Number_toString (Finite v)) = Number_toString (Finite v).
Proof.
  apply toLowerCase_fixed. unfold Number_toString.
  assert (Hd : forall n, allChars lowerFixed (decimal n) = true).
  { intros n. eapply allChars_weaken; [apply isDigit_lowerFixed|].
    apply decimal_digits. }
  destruct (_ <? _)%N; [apply Hd|].
  pose proof (allChars_stripTrailingZeros lowerFixed _
                (Hd (shortestDecimal v))) as Hs.
  destruct (stripTrailingZeros _) as [|d rest]; [apply Hd|].
  simpl in Hs. apply andb_prop in Hs as [H1 H2].
  rewrite 2!allChars_app, Hd. cbn [allChars]. rewrite H1.
  destruct rest as [|r rest]; [reflexivity|].
  now rewrite allChars_app, H2.
Qed.

Lemma registrationFile_registrations (self : AgentIdentity)
    (options : RegisterOptions) (agentId : number) :
  exists fields,
    registrationFile self options (Some agentId) = JObj fields
    /\ lookupField fields "registrations"
       = Some (JArr (registrationRefJ (ownRegistration self agentId)
                     :: map registrationRefJ
                          match opt_existingRegistrations options with
                          | Some l => l
                          | None => []
                          end)).
Proof.
  unfold registrationFile. eexists. split; [reflexivity|].
  destruct (opt_image options) as [i|]; [destruct (String.eqb i "")|];
    reflexivity.
Qed.

Lemma hasBackref_built (self : AgentIdentity) (options : RegisterOptions)
    (id : number) (c : N) :
  cfg_chainId (config self) = Finite c ->
  let ref := {| namespace := "eip155";
                chainId := Finite c;
                registry := self_registry self;
                agentId := id |} in
  hasBackref (registrationFile self options (Some id)) ref
    (registryPrefix ref) = Ok (Some true).
Proof.
  intros Hc ref.
  destruct (registrationFile_registrations self options id)
    as (fields & -> & Hl).
  unfold hasBackref. cbn [getProp]. rewrite Hl. cbn [arraySome].
  assert (Hb : isBackref ref (registryPrefix ref)
                 (registrationRefJ (ownRegistration self id)) = Ok true).
  { rewrite (isBackref_entry ref (registryPrefix ref)
               (registrationRefJ (ownRegistration self id))
               (ownRegistration self id) eq_refl).
    cbn [ref_agentId agentRegistry ownRegistration].
    replace (number_eqb id _) with true
      by (symmetry; now apply number_eqb_eq).
    unfold registryPrefix. cbn [chainId registry ref]. rewrite Hc.
    rewrite !toLowerCase_app, Number_toString_lower.
    cbn [andb]. f_equal. apply String.eqb_refl. }
  now rewrite Hb.
Qed.

Lemma fetchRegistrationFile_base64 (P : Platform) (W : World)
    (b64 gateway : string) :
  fetchRegistrationFile P W ("data:application/json;base64," ++ b64) gateway
  = ([], JSON_parse P (base64_decode P b64)).
Proof.
  unfold fetchRegistrationFile.
  now rewrite startsWith_app, slice_app.
Qed.

(** C10.  For an identity on a chain with a finite id, and on a runtime
    whose base64 and JSON codecs give the built file back:
    [fetchRegistrationFile] of [buildRegistrationUri(options, agentId)]
    requests nothing from the network and returns the file; the first
    element of its [registrations] is
    [{agentId, agentRegistry: "eip155:<chainId>:<registry>"}]; that entry
    satisfies the back-reference test of [verifyAgent] for the agent's own
    reference; and when the ledger stores this URI for the agent,
    [verifyAgent] returns [valid = true]. *)
Theorem built_registration_verifies
    (P : Platform) (W : World) (self : AgentIdentity)
    (options : RegisterOptions) (id : number) (c : N) (gateway : string) :
  cfg_chainId (config self) = Finite c ->
  base64_decode P
    (base64_encode P
       (JSON_stringify P (registrationFile self options (Some id))))
  = JSON_stringify P (registrationFile self options (Some id)) ->
  JSON_parse P (JSON_stringify P (registrationFile self options (Some id)))
  = Ok (registrationFile self options (Some id)) ->
  fetchRegistrationFile P W
    (buildRegistrationUri P self options (Some id)) gateway
  = ([], Ok (registrationFile self options (Some id)))
  /\ (exists others,
        getProp (Some (registrationFile self options (Some id)))
          "registrations"
        = Ok (Some (JArr (registrationRefJ (ownRegistration self id)
                          :: others))))
  /\ hasBackref (registrationFile self options (Some id))
       (ownReference self id) (registryPrefix (ownReference self id))
     = Ok (Some true)
  /\ (forall rpc ownerRead walletRead,
        rpc <> "" ->
        readField W rpc (ownReference self id) "ownerOf" = Ok ownerRead ->
        readField W rpc (ownReference self id) "getAgentWallet"
        = Ok walletRead ->
        readField W rpc (ownReference self id) "tokenURI"
        = Ok (buildRegistrationUri P self options (Some id)) ->
        exists r,
          verifyAgent P W (ownInput self id rpc) = Ok r
          /\ valid r = true
          /\ registration r = Some (registrationFile self options (Some id))).
Proof.
  intros Hc Hb64 Hjson.
  assert (Hfetch : forall g,
             fetchRegistrationFile P W
               (buildRegistrationUri P self options (Some id)) g
             = ([], Ok (registrationFile self options (Some id)))).
  { intros g. unfold buildRegistrationUri.
    now rewrite fetchRegistrationFile_base64, Hb64, Hjson. }
  assert (Hback : hasBackref (registrationFile self options (Some id))
                    (ownReference self id)
                    (registryPrefix (ownReference self id)) = Ok (Some true)).
  { unfold ownReference. rewrite Hc.
    exact (hasBackref_built self options id c Hc). }
  split; [apply Hfetch|]. split; [|split; [exact Hback|]].
  - destruct (registrationFile_registrations self options id)
      as (fields & -> & Hl).
    eexists. cbn [getProp]. now rewrite Hl.
  - intros rpc ownerRead walletRead Hne Ho Hw Hu.
    assert (Hres : resolveRef (ownInput self id rpc)
                   = Ok (ownReference self id)) by reflexivity.
    assert (Hrpc : rpcUrlFor (ownInput self id rpc) (ownReference self id)
                   = Some rpc) by reflexivity.
    unfold verifyAgent. rewrite Hres.
    eexists. split; [reflexivity|].
    unfold verifyRef. rewrite Hrpc.
    destruct rpc as [|ch rpc]; [congruence|].
    rewrite Ho, Hw, Hu, Hfetch. cbn [snd]. rewrite Hback. now split.
Qed.

Lemma built_registration_witness :
  fetchRegistrationFile Reference.platform Scenario.baseLedger
    Scenario.agentUri2376 DEFAULT_IPFS_GATEWAY
  = ([], Ok (registrationFile Scenario.baseIdentity Scenario.myAgent
               (Some (Finite 2376))))
  /\ exists r,
       verifyAgent Reference.platform Scenario.baseLedger
         (ownInput Scenario.baseIdentity (Finite 2376)
            "https://mainnet.base.org") = Ok r
       /\ valid r = true.
Proof.
  destruct (built_registration_verifies Reference.platform
              Scenario.baseLedger Scenario.baseIdentity Scenario.myAgent
              (Finite 2376) 8453 DEFAULT_IPFS_GATEWAY)
    as (Hf & _ & _ & Hv).
  - reflexivity.
  - vm_compute; reflexivity.
  - vm_compute; reflexivity.
  - split; [exact Hf|].
    destruct (Hv "https://mainnet.base.org" Scenario.alice ZERO_ADDRESS)
      as (r & Hr & Hvalid & _);
      [discriminate | reflexivity | reflexivity | reflexivity |].
    exists r. now split.
Defined.

(** ** payments: structural validation *)

(** A payload whose [authorization] is an object is accepted exactly when
    [from], [to], [value] and [nonce] are all truthy. *)
Lemma direct_authorization_checked (ps : PaymentServer) (parsed : ParsedHeader)
    (now : number) (fields : list (string * JValue)) :
  getProp (Some (ph_payload parsed)) "authorization" = Ok (Some (JObj fields)) ->
  exists r,
    verifyPayload ps parsed now = Ok r
    /\ pv_valid r
       = truthy (lookupField fields "from") && truthy (lookupField fields "to")
         && truthy (lookupField fields "value")
         && truthy (lookupField fields "nonce")
    /\ (pv_valid r = false ->
        pv_error r = Some "Invalid EIP-3009 authorization structure").
Proof.
  intros Ha. unfold verifyPayload. rewrite Ha. cbn.
  destruct (truthy (lookupField fields "from")),
           (truthy (lookupField fields "to")),
           (truthy (lookupField fields "value")),
           (truthy (lookupField fields "nonce"));
    cbn; eexists; (split; [reflexivity|]); split; try reflexivity;
    discriminate.
Qed.

(** A payload with neither an object [authorization] nor a truthy
    [permit2Authorization] is not recognized. *)
Lemma other_payload_unrecognized (ps : PaymentServer) (parsed : ParsedHeader)
    (now : number) (a p : option JValue) :
  getProp (Some (ph_payload parsed)) "authorization" = Ok a ->
  truthy a && isObjectType a = false ->
  getProp (Some (ph_payload parsed)) "permit2Authorization" = Ok p ->
  truthy p = false ->
  verifyPayload ps parsed now
  = Ok (invalid "Unrecognized payment payload format").
Proof.
  intros Ha Hna Hp Hnp. unfold verifyPayload. now rewrite Ha, Hna, Hp, Hnp.
Qed.

(** A payload with a truthy [permit2Authorization] is accepted whatever it
    holds: [permitted] and [witness] are read, never required. *)
Lemma permit_payload_unchecked (ps : PaymentServer) (parsed : ParsedHeader)
    (now : number) (a : option JValue) (p2 : JValue) :
  getProp (Some (ph_payload parsed)) "authorization" = Ok a ->
  truthy a && isObjectType a = false ->
  getProp (Some (ph_payload parsed)) "permit2Authorization" = Ok (Some p2) ->
  truthy (Some p2) = true ->
  exists r, verifyPayload ps parsed now = Ok r /\ pv_valid r = true.
Proof.
  intros Ha Hna Hp Hp2. unfold verifyPayload. rewrite Ha, Hna, Hp, Hp2.
  destruct p2; try discriminate Hp2; cbn; eexists; split; reflexivity.
Qed.

(** C4.  The specification accepts a permit-style payload only with a
    nested [permitted{amount, token}] and a witness [to]; [verify] does
    not require them.  The header below is the base64 text of
    [{"payload":{"permit2Authorization":{"from":"0x...A11CE"}}}]: no
    [permitted], no [witness].  [verify] accepts it, with an undefined
    recipient, amount and asset. *)
Theorem permit_without_permitted_accepted :
  verify Reference.platform
    (newPaymentServer {| payTo := Scenario.alice;
                         amount := "100000";
                         asset := None;
                         network := None;
                         description := None;
                         maxTimeoutSeconds := None |})
    (Some "eyJwYXlsb2FkIjp7InBlcm1pdDJBdXRob3JpemF0aW9uIjp7ImZyb20iOiIweDAwMDAwMDAwMDAwMDAwMDAwMDAwMDAwMDAwMDAwMDAwMDAwQTExQ0UifX19")
    Scenario.noon
  = {| pv_valid := true;
       pv_payment :=
         Some {| pd_from := Some (JStr Scenario.alice);
                 pd_to := None;
                 pd_amount := None;
                 pd_asset := None;
                 pd_network := JStr "eip155:8453";
                 pd_timestamp := Scenario.noon |};
       pv_error := None |}.
Proof. vm_compute. reflexivity. Qed.

(** ** data: the request handler *)

(** A request that is not a preflight and is on [/mcp] or [/] goes to the
    payment check and then to the session routing. *)
Lemma handler_accepts (P : Platform) (randomUUID : nat -> string)
    (self : AgentMcpServerInstance) (now : number) (st : ListenState)
    (req : Request) :
  cfg_cors self && String.eqb (method req) "OPTIONS" = false ->
  url req = Some "/mcp" \/ url req = Some "/" ->
  handler P randomUUID self now st req
  = match paymentGate P self now (headersSet self) req with
    | Some out => (st, out)
    | None => route P randomUUID st (headersSet self) req
    end.
Proof.
  intros Hpre Hurl. unfold handler. rewrite Hpre.
  now destruct Hurl as [-> | ->].
Qed.

Lemma assoc_headers (self : AgentMcpServerInstance)
    (rest : list (string * string)) (k : string) :
  assoc corsHeaders k = None ->
  assoc (headersSet self ++ rest) k = assoc rest k.
Proof.
  unfold headersSet. destruct (cfg_cors self); [|reflexivity].
  unfold corsHeaders. cbn [assoc app].
  repeat match goal with
         | |- context [String.eqb ?a k] => destruct (String.eqb a k)
         end; try discriminate.
  reflexivity.
Qed.

(** [tool] records that a tool of the free-tools list needs no payment. *)
Lemma tool_free_recorded (self : AgentMcpServerInstance) (toolName : string) :
  includesName (freeToolsOf self) toolName = true ->
  tools (tool self toolName) !! toolName
  = Some {| requiresPayment := false |}.
Proof.
  intros Hfree. unfold tool. cbn [tools]. rewrite lookup_insert_eq.
  unfold freeToolsOf in Hfree.
  destruct (cfg_payment self) as [p|]; [|reflexivity].
  now rewrite Hfree.
Qed.

(** C3.  The specification exempts the tools of the free-tools list from
    the payment challenge; the handler does not.  On a server with payment
    configured, a [POST] on the protocol path that names a tool of the
    free-tools list and carries no payment header is answered 402: the
    payment check reads neither the tool name nor the [tools] map. *)
Theorem free_tool_call_challenged (P : Platform) (randomUUID : nat -> string)
    (self : AgentMcpServerInstance) (ps : PaymentServer) (now : number)
    (st : ListenState) (req : Request) (toolName : string) :
  paymentServer self = Some ps ->
  method req = "POST" ->
  url req = Some "/mcp" \/ url req = Some "/" ->
  x_payment req = None ->
  calledTool P (body req) = Some toolName ->
  includesName (freeToolsOf self) toolName = true ->
  exists headers,
    handler P randomUUID self now st req
    = (st, Respond 402 headers
             (Some (JSON_stringify P (paymentRequiredBody self)))).
Proof.
  intros Hps Hm Hurl Hx _ _.
  rewrite handler_accepts; [|rewrite Hm; apply andb_false_r | exact Hurl].
  unfold paymentGate. rewrite Hps, Hm, Hx. cbn [String.eqb].
  eexists. reflexivity.
Qed.

Lemma free_tool_call_challenged_witness :
  exists headers,
    handler Reference.platform Scenario.uuid Scenario.priceServer
      Scenario.noon initialState (Scenario.post "/mcp" "ping" None None)
    = (initialState,
       Respond 402 headers
         (Some (Reference.stringify
                  (paymentRequiredBody Scenario.priceServer)))).
Proof.
  destruct (free_tool_call_challenged Reference.platform Scenario.uuid
              Scenario.priceServer
              {| ps_payTo := Scenario.alice;
                 ps_amount := "100000";
                 ps_asset := USDC_BASE;
                 ps_network := "eip155:8453";
                 ps_description := "price-feed MCP service";
                 ps_maxTimeoutSeconds := Finite 300 |}
              Scenario.noon initialState
              (Scenario.post "/mcp" "ping" None None) "ping")
    as [headers H].
  - reflexivity.
  - reflexivity.
  - left; reflexivity.
  - reflexivity.
  - vm_compute; reflexivity.
  - reflexivity.
  - exists headers. exact H.
Defined.

(** C5 (amended).  On a server with payment configured, a guarded
    request (a [POST] on the protocol path that calls a tool which is not
    on the free-tools list)
    - without payment header is answered 402 with the header
      [X-PAYMENT-REQUIRED]; where the runtime decodes that header back, it
      is the object [{version: 2, accepts: [requirements]}] and
      [accepts[0].resource] is the URL
      [https://<Host header, or localhost><requested path>];
    - with a payment header that [verify] rejects is answered 402 without
      that header and with the [Invalid Payment] body, a text different
      from the first where the runtime parses both back. *)
Theorem guarded_post_challenged (P : Platform) (randomUUID : nat -> string)
    (self : AgentMcpServerInstance) (ps : PaymentServer) (now : number)
    (st : ListenState) (req : Request) :
  paymentServer self = Some ps ->
  method req = "POST" ->
  url req = Some "/mcp" \/ url req = Some "/" ->
  guarded P self req = true ->
  JSON_parse P (JSON_stringify P (paymentRequiredBody self))
  = Ok (paymentRequiredBody self) ->
  (x_payment req = None \/ x_payment req = Some "" ->
   exists headers,
     handler P randomUUID self now st req
     = (st, Respond 402 headers
              (Some (JSON_stringify P (paymentRequiredBody self))))
     /\ assoc headers "X-PAYMENT-REQUIRED"
        = Some (buildRequirementsHeader P ps (resourceUrl req) None)
     /\ (JSON_parse P
           (base64_decode P
              (buildRequirementsHeader P ps (resourceUrl req) None))
         = Ok (requirementsPayload
                 (buildRequirements ps (resourceUrl req) None)) ->
         exists decoded,
           JSON_parse P
             (base64_decode P
                (buildRequirementsHeader P ps (resourceUrl req) None))
           = Ok decoded
           /\ getPropOpt (Some decoded) "version" = Some (JNum (Finite 2))
           /\ acceptsResource decoded = Some (JStr (resourceUrl req))))
  /\ (forall h,
        x_payment req = Some h -> h <> "" ->
        pv_valid (verify P ps (Some h) now) = false ->
        exists headers,
          handler P randomUUID self now st req
          = (st, Respond 402 headers
                   (Some (JSON_stringify P
                            (invalidPaymentBody (verify P ps (Some h) now)))))
          /\ assoc headers "X-PAYMENT-REQUIRED" = None
          /\ (JSON_parse P
                (JSON_stringify P
                   (invalidPaymentBody (verify P ps (Some h) now)))
              = Ok (invalidPaymentBody (verify P ps (Some h) now)) ->
              JSON_stringify P (invalidPaymentBody (verify P ps (Some h) now))
              <> JSON_stringify P (paymentRequiredBody self))).
Proof.
  intros Hps Hm Hurl _ Hbody.
  assert (Hh : handler P randomUUID self now st req
               = match paymentGate P self now (headersSet self) req with
                 | Some out => (st, out)
                 | None => route P randomUUID st (headersSet self) req
                 end).
  { apply handler_accepts; [rewrite Hm; apply andb_false_r | exact Hurl]. }
  split.
  - intros Hx. eexists. split; [|split].
    + rewrite Hh. unfold paymentGate. rewrite Hps, Hm. cbn [String.eqb].
      destruct Hx as [-> | ->]; reflexivity.
    + now rewrite assoc_headers.
    + intros Hdec. eexists. split; [exact Hdec|]. split; reflexivity.
  - intros h Hx Hne Hv. eexists. split; [|split].
    + rewrite Hh. unfold paymentGate. rewrite Hps, Hm, Hx. cbn [String.eqb].
      destruct h as [|c h]; [congruence|]. now rewrite Hv.
    + now rewrite assoc_headers.
    + intros Hinv Heq. rewrite Heq, Hbody in Hinv.
      unfold paymentRequiredBody, invalidPaymentBody in Hinv.
      destruct (pv_error _); discriminate Hinv.
Qed.

Lemma guarded_post_challenged_witness :
  exists headers decoded,
    handler Reference.platform Scenario.uuid Scenario.priceServer
      Scenario.noon initialState (Scenario.post "/mcp" "get-price" None None)
    = (initialState,
       Respond 402 headers
         (Some (Reference.stringify (paymentRequiredBody Scenario.priceServer))))
    /\ assoc headers "X-PAYMENT-REQUIRED"
       = Some "eyJ2ZXJzaW9uIjoyLCJhY2NlcHRzIjpbeyJzY2hlbWUiOiJleGFjdCIsIm5ldHdvcmsiOiJlaXAxNTU6ODQ1MyIsIm1heEFtb3VudFJlcXVpcmVkIjoiMTAwMDAwIiwicmVzb3VyY2UiOiJodHRwczovL2FnZW50LmV4YW1wbGUvbWNwIiwiZGVzY3JpcHRpb24iOiJwcmljZS1mZWVkIE1DUCBzZXJ2aWNlIiwicGF5VG8iOiIweDAwMDAwMDAwMDAwMDAwMDAwMDAwMDAwMDAwMDAwMDAwMDAwQTExQ0UiLCJtYXhUaW1lb3V0U2Vjb25kcyI6MzAwLCJhc3NldCI6IjB4ODMzNTg5ZkNENmVEYjZFMDhmNGM3QzMyRDRmNzFiNTRiZEEwMjkxMyJ9XX0="
    /\ Reference.parse
         (Reference.b64decode
            "eyJ2ZXJzaW9uIjoyLCJhY2NlcHRzIjpbeyJzY2hlbWUiOiJleGFjdCIsIm5ldHdvcmsiOiJlaXAxNTU6ODQ1MyIsIm1heEFtb3VudFJlcXVpcmVkIjoiMTAwMDAwIiwicmVzb3VyY2UiOiJodHRwczovL2FnZW50LmV4YW1wbGUvbWNwIiwiZGVzY3JpcHRpb24iOiJwcmljZS1mZWVkIE1DUCBzZXJ2aWNlIiwicGF5VG8iOiIweDAwMDAwMDAwMDAwMDAwMDAwMDAwMDAwMDAwMDAwMDAwMDAwQTExQ0UiLCJtYXhUaW1lb3V0U2Vjb25kcyI6MzAwLCJhc3NldCI6IjB4ODMzNTg5ZkNENmVEYjZFMDhmNGM3QzMyRDRmNzFiNTRiZEEwMjkxMyJ9XX0=")
       = Ok decoded
    /\ acceptsResource decoded = Some (JStr "https://agent.example/mcp").
Proof.
  destruct (guarded_post_challenged Reference.platform Scenario.uuid
              Scenario.priceServer
              {| ps_payTo := Scenario.alice;
                 ps_amount := "100000";
                 ps_asset := USDC_BASE;
                 ps_network := "eip155:8453";
                 ps_description := "price-feed MCP service";
                 ps_maxTimeoutSeconds := Finite 300 |}
              Scenario.noon initialState
              (Scenario.post "/mcp" "get-price" None None))
    as [Hmissing _].
  - reflexivity.
  - reflexivity.
  - left; reflexivity.
  - vm_compute; reflexivity.
  - vm_compute; reflexivity.
  - destruct Hmissing as (headers & Hh & Hx & Hdec); [left; reflexivity|].
    destruct Hdec as (decoded & Hd & _ & Hr); [vm_compute; reflexivity|].
    exists headers, decoded. repeat split; assumption.
Defined.

(** The resource of the challenge is a URL, not the requested path. *)
Lemma challenge_resource_is_not_the_path :
  exists headers body header decoded,
    handler Reference.platform Scenario.uuid Scenario.priceServer
      Scenario.noon initialState (Scenario.post "/mcp" "get-price" None None)
    = (initialState, Respond 402 headers body)
    /\ assoc headers "X-PAYMENT-REQUIRED" = Some header
    /\ Reference.parse (Reference.b64decode header) = Ok decoded
    /\ acceptsResource decoded = Some (JStr "https://agent.example/mcp")
    /\ acceptsResource decoded <> Some (JStr "/mcp").
Proof.
  do 4 eexists. split; [vm_compute; reflexivity|].
  split; [vm_compute; reflexivity|].
  split; [vm_compute; reflexivity|].
  split; [reflexivity | discriminate].
Qed.

(** C8 (amended).  A request whose path is neither [/mcp] nor its alias
    [/] is answered 404 with the hint body, unless it is an [OPTIONS]
    request on a server with CORS enabled, which is answered 204.  Either
    way the variables of the server are untouched: the request reaches
    neither the payment check nor a transport. *)
Theorem other_paths_rejected (P : Platform) (randomUUID : nat -> string)
    (self : AgentMcpServerInstance) (now : number) (st : ListenState)
    (req : Request) :
  url req <> Some "/mcp" ->
  url req <> Some "/" ->
  handler P randomUUID self now st req
  = (st,
     if cfg_cors self && String.eqb (method req) "OPTIONS"
     then Respond 204 (headersSet self) None
     else Respond 404 (headersSet self ++ jsonType)
            (Some (JSON_stringify P notFoundBody))).
Proof.
  intros H1 H2. unfold handler.
  destruct (cfg_cors self && String.eqb (method req) "OPTIONS");
    [reflexivity|].
  destruct (url req) as [u|]; [|reflexivity].
  destruct (String.eqb_spec u "/mcp") as [-> | _]; [congruence|].
  destruct (String.eqb_spec u "/") as [-> | _]; [congruence|].
  reflexivity.
Qed.

Lemma other_paths_rejected_witness :
  handler Reference.platform Scenario.uuid Scenario.priceServer Scenario.noon
    initialState (Scenario.post "/mcp?tool=ping" "ping" None None)
  = (initialState,
     Respond 404 (corsHeaders ++ jsonType)
       (Some (Reference.stringify notFoundBody))).
Proof.
  rewrite (other_paths_rejected Reference.platform Scenario.uuid
             Scenario.priceServer Scenario.noon initialState
             (Scenario.post "/mcp?tool=ping" "ping" None None));
    [reflexivity | discriminate | discriminate].
Defined.

(** A second path is served: a [GET] on [/] goes to a transport. *)
Lemma root_path_is_served :
  url (Scenario.get "/" None) <> Some "/mcp"
  /\ snd (handler Reference.platform Scenario.uuid Scenario.openServer
            Scenario.noon initialState (Scenario.get "/" None))
     = Forward {| tid := 0; sessionIdGenerator := None |} corsHeaders.
Proof. split; [discriminate | vm_compute; reflexivity]. Qed.

(** ** data: the session registry *)

Section Registry.

Context (P : Platform) (randomUUID : nat -> string)
        (self : AgentMcpServerInstance).

Hypothesis randomUUID_fresh : forall j k, randomUUID j = randomUUID k -> j = k.

Lemma Consistent_initial : Consistent randomUUID initialState.
Proof.
  split; cbn; try contradiction.
  intros id t Hl. now rewrite lookup_empty in Hl.
Qed.

Lemma Consistent_openSession (st : ListenState) :
  Consistent randomUUID st ->
  Consistent randomUUID (fst (openSession randomUUID st)).
Proof.
  intros [Hreg Hcl Htid Hmint Huniq].
  assert (Hnew : forall t, In t (connected st) -> tid t <> constructed st).
  { intros t Ht%Htid. lia. }
  split; cbn.
  - intros id t Hl. unfold live; cbn.
    destruct (decide (randomUUID (minted st) = id)) as [<- | Hne].
    + rewrite lookup_insert_eq in Hl. injection Hl as <-. cbn.
      split; [reflexivity|]. split; [now left|].
      intros Hc%Hcl. now apply Hnew in Hc.
    + rewrite lookup_insert_ne in Hl by exact Hne.
      destruct (Hreg id t Hl) as (Hg & Hin & Hnc). auto.
  - intros t Ht. right. now apply Hcl.
  - intros t [<- | Ht%Htid]; cbn; lia.
  - intros t id [<- | Ht] Hg.
    + cbn in Hg. injection Hg as <-. exists (minted st). split; [lia | reflexivity].
    + destruct (Hmint t id Ht Hg) as (k & Hk & ->). exists k. split; [lia | reflexivity].
  - assert (Hold : forall t id,
               In t (connected st) -> sessionIdGenerator t = Some id ->
               id <> randomUUID (minted st)).
    { intros t id Ht Hg. destruct (Hmint t id Ht Hg) as (k & Hk & ->).
      intros Heq%randomUUID_fresh. lia. }
    intros t1 t2 id [<- | H1] [<- | H2] Hg1 Hg2; cbn in *.
    + reflexivity.
    + injection Hg1 as <-. now apply Hold in Hg2.
    + injection Hg2 as <-. now apply Hold in Hg1.
    + eauto.
Qed.

Lemma Consistent_openStandalone (st : ListenState) :
  Consistent randomUUID st ->
  Consistent randomUUID (fst (openStandalone st)).
Proof.
  intros [Hreg Hcl Htid Hmint Huniq]. split; cbn.
  - intros id t Hl. destruct (Hreg id t Hl) as (Hg & Hin & Hnc).
    unfold live; cbn. auto.
  - intros t Ht. right. now apply Hcl.
  - intros t [<- | Ht%Htid]; cbn; lia.
  - intros t id [<- | Ht] Hg; [discriminate Hg | eauto].
  - intros t1 t2 id [<- | H1] [<- | H2] Hg1 Hg2;
      try discriminate; eauto.
Qed.

Lemma Consistent_close (st : ListenState) (t : Transport) :
  Consistent randomUUID st -> In t (connected st) ->
  Consistent randomUUID (close st t).
Proof.
  intros [Hreg Hcl Htid Hmint Huniq] Ht.
  assert (Hsame : connected (onclose st t) = connected st
                  /\ constructed (onclose st t) = constructed st
                  /\ minted (onclose st t) = minted st
                  /\ closed (onclose st t) = closed st).
  { unfold onclose. now destruct (sessionIdGenerator t). }
  destruct Hsame as (Hc & Hn & Hm & Hd).
  split; unfold close, live; cbn; rewrite ?Hc, ?Hn, ?Hm, ?Hd; auto.
  - intros id t' Hl.
    assert (Hl' : transports st !! id = Some t' /\ t' <> t).
    { unfold onclose in Hl. destruct (sessionIdGenerator t) as [id'|] eqn:Hg.
      - cbn in Hl. destruct (decide (id' = id)) as [-> | Hne].
        + now rewrite lookup_delete_eq in Hl.
        + rewrite lookup_delete_ne in Hl by exact Hne. split; [exact Hl|].
          intros ->. destruct (Hreg id t Hl) as [Hg' _]. congruence.
      - split; [exact Hl|]. intros ->.
        destruct (Hreg id t Hl) as [Hg' _]. congruence. }
    destruct Hl' as [Hl' Hne].
    destruct (Hreg id t' Hl') as (Hg & Hin & Hnc).
    split; [exact Hg|]. split; [exact Hin|].
    intros [Heq | Hin']; [congruence | contradiction].
  - intros t' [<- | Hin]; auto.
Qed.

Lemma handler_state (now : number) (st : ListenState) (req : Request) :
  fst (handler P randomUUID self now st req) = st
  \/ fst (handler P randomUUID self now st req)
     = fst (openSession randomUUID st)
  \/ fst (handler P randomUUID self now st req) = fst (openStandalone st).
Proof.
  unfold handler, route. case_branches; cbn; auto.
Qed.

Lemma Consistent_step (st : ListenState) (ev : Event) :
  Consistent randomUUID st -> possible st ev ->
  Consistent randomUUID (fst (step P randomUUID self st ev)).
Proof.
  intros Hst Hev. destruct ev as [now req | t]; cbn.
  - destruct (handler P randomUUID self now st req) as [st' out] eqn:Hh.
    cbn [fst]. pose proof (handler_state now st req) as Hs. rewrite Hh in Hs.
    cbn [fst] in Hs. destruct Hs as [-> | [-> | ->]];
      auto using Consistent_openSession, Consistent_openStandalone.
  - now apply Consistent_close.
Qed.

Lemma Consistent_run (evs : list Event) (st : ListenState) :
  Consistent randomUUID st -> admissible P randomUUID self st evs ->
  Consistent randomUUID (run P randomUUID self st evs).
Proof.
  revert st. induction evs as [|ev evs IH]; intros st Hst Hadm; cbn.
  - exact Hst.
  - destruct Hadm as [Hev Hrest]. apply IH; [|exact Hrest].
    now apply Consistent_step.
Qed.



Lemma admissible_app (evs1 evs2 : list Event) (st : ListenState) :
  admissible P randomUUID self st (evs1 ++ evs2) ->
  admissible P randomUUID self st evs1
  /\ admissible P randomUUID self (run P randomUUID self st evs1) evs2.
Proof.
  revert st. induction evs1 as [|ev evs1 IH]; intros st; cbn; [auto|].
  intros [Hev Hrest]. destruct (IH _ Hrest). auto.
Qed.

Lemma run_app (evs1 evs2 : list Event) (st : ListenState) :
  run P randomUUID self st (evs1 ++ evs2)
  = run P randomUUID self (run P randomUUID self st evs1) evs2.
Proof.
  revert st. induction evs1 as [|ev evs1 IH]; intros st; cbn; auto.
Qed.

End Registry.



Lemma uuid_fresh (j k : nat) : Scenario.uuid j = Scenario.uuid k -> j = k.
Proof.
  unfold Scenario.uuid. cbn [append]. intros [= H]. now apply (inj pretty).
Qed.

Lemma uuid_nonempty (k : nat) : Scenario.uuid k <> "".
Proof. discriminate. Qed.



(** ** payments: the paying fetch *)

(** The fetch that [getPaidFetch] builds is made of the account and the
    chains: whatever the configured maximum, it is the same fetch. *)
Lemma getPaidFetch_ignores_maximum {Account Fetch : Type}
    (X : X402Library Account Fetch) (fetch : Fetch) (who : Account)
    (networks : option (list string)) (maximum maximum' : option string) :
  fst (getPaidFetch X fetch
         (newPaymentClient {| account := who;
                              chains := networks;
                              maxAmountPerRequest := maximum |}))
  = fst (getPaidFetch X fetch
           (newPaymentClient {| account := who;
                                chains := networks;
                                maxAmountPerRequest := maximum' |})).
Proof. reflexivity. Qed.

(** C6.  The specification lets the connector surface a 402 that demands
    more than the configured maximum; the client does not.  A payer
    configured with the maximum "100000" calls a server that demands
    "500000": the paying fetch sends the call again with a proof for
    500000 and returns the second response, not the 402. *)
Theorem maximum_not_enforced :
  maxAmountPerRequest (pc_config Scenario.frugalPayer) = Some "100000"
  /\ fst (Scenario.network Scenario.dearServer Scenario.priceCall)
     = [Scenario.priceCall]
  /\ Connector.rp_status
       (snd (Scenario.network Scenario.dearServer Scenario.priceCall)) = 402%N
  /\ (exists decoded,
        option_map (fun h => Reference.parse (Reference.b64decode h))
          (Connector.rp_paymentRequired
             (snd (Scenario.network Scenario.dearServer Scenario.priceCall)))
        = Some (Ok decoded)
        /\ match getPropOpt (Some decoded) "accepts" with
           | Some (JArr (first :: _)) =>
               getPropOpt (Some first) "maxAmountRequired"
           | _ => None
           end = Some (JStr "500000"))
  /\ exists proof decoded,
       fst (getPaidFetch (Connector.library Reference.platform)
              (Scenario.network Scenario.dearServer) Scenario.frugalPayer)
         Scenario.priceCall
       = ([ Scenario.priceCall;
            {| Connector.rq_path := "/mcp";
               Connector.rq_tool := "get-price";
               Connector.rq_payment := Some proof |} ],
          {| Connector.rp_status := 200;
             Connector.rp_paymentRequired := None |})
       /\ Reference.parse (Reference.b64decode proof) = Ok decoded
       /\ getPropOpt
            (getPropOpt (getPropOpt (Some decoded) "payload") "authorization")
            "value"
          = Some (JStr "500000").
Proof.
  split; [reflexivity|]. split; [reflexivity|].
  split; [vm_compute; reflexivity|].
  split.
  - eexists. split; vm_compute; reflexivity.
  - do 2 eexists. split; [vm_compute; reflexivity|].
    split; vm_compute; reflexivity.
Qed.

(** ** The reference runtime gives back what it encodes *)

Lemma b64Value_b64Char (n : N) :
  (n < 64)%N -> Reference.b64Value (Reference.b64Char n) = Some n.
Proof.
  intros Hn.
  assert (Hin : In n (map N.of_nat (seq 0 64))).
  { apply in_map_iff. exists (N.to_nat n). split; [lia|].
    apply in_seq. lia. }
  assert (F : List.Forall
                (fun n => Reference.b64Value (Reference.b64Char n) = Some n)
                (map N.of_nat (seq 0 64))).
  { cbv [map seq]. repeat (constructor; [reflexivity|]). constructor. }
  exact (proj1 (List.Forall_forall _ _) F n Hin).
Qed.

Lemma N_of_ascii_bound (a : ascii) : (N_of_ascii a < 256)%N.
Proof. destruct a as [[] [] [] [] [] [] [] []]; reflexivity. Qed.

Lemma byte_back (a : ascii) (e : N) : e = N_of_ascii a -> ascii_of_N e = a.
Proof. intros ->. apply ascii_N_embedding. Qed.

Ltac sextets := zify; Z.to_euclidean_division_equations; lia.

Lemma b64decode_b64encode (s : string) :
  Reference.b64decode (Reference.b64encode s) = s.
Proof.
  assert (H : forall n s, (String.length s <= n)%nat ->
                          Reference.b64decode (Reference.b64encode s) = s).
  { clear s. induction n as [|n IH]; intros s Hs.
    - destruct s; [reflexivity | simpl in Hs; lia].
    - destruct s as [|a [|b [|c rest]]]; [reflexivity | | |].
      + pose proof (N_of_ascii_bound a) as Ha.
        cbn [Reference.b64encode Reference.b64decode].
        rewrite !b64Value_b64Char by sextets.
        change (Reference.b64Value "=") with (@None N). cbv iota.
        f_equal. apply byte_back. sextets.
      + pose proof (N_of_ascii_bound a) as Ha.
        pose proof (N_of_ascii_bound b) as Hb.
        cbn [Reference.b64encode Reference.b64decode].
        rewrite !b64Value_b64Char by sextets.
        change (Reference.b64Value "=") with (@None N). cbv iota.
        f_equal; [|f_equal]; apply byte_back; sextets.
      + pose proof (N_of_ascii_bound a) as Ha.
        pose proof (N_of_ascii_bound b) as Hb.
        pose proof (N_of_ascii_bound c) as Hc.
        cbn [Reference.b64encode Reference.b64decode].
        rewrite !b64Value_b64Char by sextets.
        rewrite IH by (simpl in Hs; lia).
        f_equal; [|f_equal; [|f_equal]]; apply byte_back; sextets. }
  now apply (H (String.length s)).
Qed.

Lemma JValue_induction (Q : JValue -> Prop) :
  Q JNull -> (forall b, Q (JBool b)) -> (forall n, Q (JNum n)) ->
  (forall s, Q (JStr s)) ->
  (forall items, List.Forall Q items -> Q (JArr items)) ->
  (forall fields, List.Forall (fun kv => Q (snd kv)) fields -> Q (JObj fields)) ->
  forall v, Q v.
Proof.
  intros Hnull Hbool Hnum Hstr Harr Hobj. fix IH 1.
  intros [ | b | n | s | items | fields];
    [exact Hnull | apply Hbool | apply Hnum | apply Hstr | | ].
  - apply Harr. revert items. fix IHl 1.
    intros [|x items]; constructor; [apply IH | apply IHl].
  - apply Hobj. revert fields. fix IHl 1.
    intros [|[k x] fields]; constructor; [apply IH | apply IHl].
Qed.

Lemma parseChars_escapeChar (c : ascii) (tail : string) :
  Reference.parseChars (Reference.escapeChar c ++ tail)
  = match Reference.parseChars tail with
    | Some (r, rest) => Some (String c r, rest)
    | None => None
    end.
Proof. destruct c as [[] [] [] [] [] [] [] []]; reflexivity. Qed.

Lemma parseChars_escape (s rest : string) :
  Reference.parseChars (Reference.escape s ++ String "034" rest)
  = Some (s, rest).
Proof.
  induction s as [|c s IH]; [reflexivity|].
  cbn [Reference.escape]. rewrite append_assoc, parseChars_escapeChar.
  now rewrite IH.
Qed.

Lemma decimalValue_decimal (n : N) : decimalValue (decimal n) = n.
Proof.
  unfold decimalValue, decimal.
  now rewrite NilEmpty.usu, DecimalN.Unsigned.of_to.
Qed.

Lemma unorm_to_uint (n : N) : Decimal.unorm (N.to_uint n) = N.to_uint n.
Proof.
  rewrite <- (DecimalN.Unsigned.of_to n) at 2.
  now rewrite DecimalN.Unsigned.to_of.
Qed.

(** The decimal numeral of a number is one: digits, no leading zero. *)
Lemma decimal_numeral (n : N) : numeral (decimal n) = true.
Proof.
  unfold numeral, isRun, decimal.
  rewrite string_of_uint_digits, andb_true_r.
  pose proof (unorm_to_uint n) as Hnorm.
  destruct (N.to_uint n) as [|d|d|d|d|d|d|d|d|d|d]; try reflexivity.
  - discriminate Hnorm.
  - destruct d; try reflexivity;
      exfalso; unfold Decimal.unorm in Hnorm; rewrite DecimalFacts.nzhead_D0 in Hnorm;
      match type of Hnorm with
      | context [Decimal.nzhead ?u] =>
          pose proof (DecimalFacts.nzhead_nonzero u) as Hnz;
          destruct (Decimal.nzhead u); try discriminate Hnorm;
          injection Hnorm as Hnorm; eapply Hnz; reflexivity
      end.
Qed.

Lemma closes_not_digit (c : ascii) (rest : string) :
  Reference.closes (String c rest) = true ->
  isDigit c = false
  /\ (Ascii.eqb c "." || Ascii.eqb c "e" || Ascii.eqb c "E") = false.
Proof.
  unfold Reference.closes.
  destruct c as [[] [] [] [] [] [] [] []]; cbv; intuition congruence.
Qed.

Lemma parseNumber_decimal (n : N) (rest : string) :
  (n < 2 ^ 53)%N -> Reference.closes rest = true ->
  Reference.parseNumber (decimal n ++ rest) = Some (Finite n, rest).
Proof.
  intros Hn Hrest. unfold Reference.parseNumber.
  assert (Hspan : span isDigit (decimal n ++ rest) = (decimal n, rest)).
  { destruct rest as [|c rest].
    - replace (decimal n ++ "") with (decimal n)
        by (induction (decimal n); simpl; congruence).
      apply span_all, decimal_digits.
    - apply span_run; [apply decimal_digits|].
      now apply closes_not_digit in Hrest. }
  rewrite Hspan.
  assert (Hplain : match rest with
                   | String c _ =>
                       negb (Ascii.eqb c "." || Ascii.eqb c "e" || Ascii.eqb c "E")
                   | EmptyString => true
                   end = true).
  { destruct rest as [|c rest]; [reflexivity|].
    apply closes_not_digit in Hrest as [_ ->]. reflexivity. }
  rewrite Hplain.
  assert (Hval : Number_ofDigits (decimal n) = Finite n).
  { unfold Number_ofDigits. rewrite decimalValue_decimal.
    now apply roundToDouble_exact. }
  rewrite Hval.
  pose proof (decimal_numeral n) as Hnum. unfold numeral, isRun in Hnum.
  destruct (decimal n) as [|d [|d' ds]]; [discriminate Hnum | |].
  - destruct d as [[] [] [] [] [] [] [] []]; reflexivity.
  - destruct d as [[] [] [] [] [] [] [] []]; try reflexivity.
    simpl in Hnum. now rewrite andb_false_r in Hnum.
Qed.

Lemma append_empty (s : string) : s ++ "" = s.
Proof. induction s; simpl; congruence. Qed.

Lemma opens_not_closing (c : ascii) :
  Reference.opens c = true ->
  Reference.isWs c = false
  /\ Ascii.eqb c "]" = false /\ Ascii.eqb c "}" = false.
Proof. destruct c as [[] [] [] [] [] [] [] []]; cbv; intuition congruence. Qed.

Lemma isDigit_opens (c : ascii) : isDigit c = true -> Reference.opens c = true.
Proof. unfold Reference.opens. now intros ->. Qed.

(** The text of an exact value starts with a character that opens a
    value. *)
Lemma stringify_opens (v : JValue) :
  Reference.exact v = true ->
  exists c t, Reference.stringify v = String c t /\ Reference.opens c = true.
Proof.
  destruct v as [ | [] | [n|] | s | items | fields]; cbn [Reference.exact];
    try discriminate; intros Hv;
    try (do 2 eexists; split; reflexivity).
  cbn [Reference.stringify].
  apply N.ltb_lt in Hv. rewrite (Number_toString_safe _ Hv).
  pose proof (decimal_numeral n) as Hnum. unfold numeral, isRun in Hnum.
  destruct (decimal n) as [|d ds]; [discriminate Hnum|].
  exists d, ds. split; [reflexivity|]. apply isDigit_opens.
  simpl in Hnum. now destruct (isDigit d).
Qed.

Lemma parseElements_join (items : list JValue) (rest : string) :
  items <> [] ->
  List.Forall Reference.readsBack items ->
  forallb Reference.exact items = true ->
  forall fuel,
    (list_sum (map (fun x => S (Reference.weight x)) items) <= fuel)%nat ->
    Reference.parseElements fuel
      (Reference.join "," (map Reference.stringify items) ++ String "]" rest)
    = Some (items, rest).
Proof.
  intros Hne Hall. induction Hall as [|x xs Hx Hxs IH]; [congruence|].
  clear Hne. cbn [forallb map list_sum].
  intros [Hex Hexs]%andb_prop fuel Hfuel.
  destruct fuel as [|fuel]; [simpl in Hfuel; lia|].
  cbn [Reference.parseElements].
  destruct xs as [|y ys].
  - cbn [Reference.join map].
    rewrite (Hx Hex (String "]" rest) fuel eq_refl)
      by (simpl in Hfuel; lia).
    reflexivity.
  - change (Reference.join ","
              (Reference.stringify x :: map Reference.stringify (y :: ys)))
      with (Reference.stringify x
            ++ "," ++ Reference.join "," (map Reference.stringify (y :: ys))).
    set (J := Reference.join "," (map Reference.stringify (y :: ys))) in *.
    replace ((Reference.stringify x ++ "," ++ J) ++ String "]" rest)
      with (Reference.stringify x ++ String "," (J ++ String "]" rest))
      by (now rewrite !append_assoc).
    rewrite (Hx Hex (String "," (J ++ String "]" rest)) fuel eq_refl)
      by (simpl in Hfuel; lia).
    change (Reference.skipWs (String "," (J ++ String "]" rest)))
      with (String "," (J ++ String "]" rest)).
    cbv beta iota. change (Ascii.eqb "," ",") with true. cbv iota.
    rewrite IH; [reflexivity | discriminate | exact Hexs |].
    unfold list_sum in *. cbn [map fold_right] in Hfuel |- *. lia.
Qed.

Lemma skipWs_solid (c : ascii) (s : string) :
  Reference.isWs c = false -> Reference.skipWs (String c s) = String c s.
Proof. intros Hc. cbn [Reference.skipWs]. now rewrite Hc. Qed.

Lemma member_text (k : string) (v : JValue) (rest : string) :
  (Reference.quote k ++ ":" ++ Reference.stringify v) ++ rest
  = String "034" (Reference.escape k
                  ++ String "034" (String ":" (Reference.stringify v ++ rest))).
Proof.
  unfold Reference.quote, dquote. rewrite !append_assoc. reflexivity.
Qed.

Lemma parseMembers_join (fields : list (string * JValue)) (rest : string) :
  fields <> [] ->
  List.Forall (fun kv => Reference.readsBack (snd kv)) fields ->
  forallb (fun kv => Reference.exact (snd kv)) fields = true ->
  forall fuel,
    (list_sum (map (fun kv => S (Reference.weight (snd kv))) fields) <= fuel)%nat ->
    Reference.parseMembers fuel
      (Reference.join ","
         (map (fun kv => Reference.quote (fst kv) ++ ":"
                         ++ Reference.stringify (snd kv)) fields)
       ++ String "}" rest)
    = Some (fields, rest).
Proof.
  intros Hne Hall. induction Hall as [|[k x] xs Hx Hxs IH]; [congruence|].
  clear Hne. cbn [forallb map list_sum fst snd] in *.
  intros [Hex Hexs]%andb_prop fuel Hfuel.
  destruct fuel as [|fuel]; [simpl in Hfuel; lia|].
  cbn [Reference.parseMembers].
  destruct xs as [|y ys].
  - cbn [Reference.join map]. rewrite member_text.
    rewrite skipWs_solid by reflexivity. cbv beta iota.
    change (Ascii.eqb "034" "034") with true. cbv iota.
    rewrite parseChars_escape.
    rewrite skipWs_solid by reflexivity. cbv beta iota.
    change (Ascii.eqb ":" ":") with true. cbv iota.
    rewrite (Hx Hex (String "}" rest) fuel eq_refl)
      by (simpl in Hfuel; lia).
    reflexivity.
  - set (J := Reference.join ","
                (map (fun kv : string * JValue =>
                        Reference.quote (fst kv) ++ ":"
                        ++ Reference.stringify (snd kv)) (y :: ys))) in *.
    change (Reference.join ","
              ((Reference.quote k ++ ":" ++ Reference.stringify x)
               :: map (fun kv : string * JValue =>
                         Reference.quote (fst kv) ++ ":"
                         ++ Reference.stringify (snd kv)) (y :: ys)))
      with ((Reference.quote k ++ ":" ++ Reference.stringify x) ++ "," ++ J).
    replace (((Reference.quote k ++ ":" ++ Reference.stringify x) ++ "," ++ J)
             ++ String "}" rest)
      with ((Reference.quote k ++ ":" ++ Reference.stringify x)
            ++ String "," (J ++ String "}" rest))
      by (now rewrite !append_assoc).
    rewrite member_text.
    rewrite skipWs_solid by reflexivity. cbv beta iota.
    change (Ascii.eqb "034" "034") with true. cbv iota.
    rewrite parseChars_escape.
    rewrite skipWs_solid by reflexivity. cbv beta iota.
    change (Ascii.eqb ":" ":") with true. cbv iota.
    rewrite (Hx Hex (String "," (J ++ String "}" rest)) fuel eq_refl)
      by (simpl in Hfuel; lia).
    rewrite skipWs_solid by reflexivity. cbv beta iota.
    change (Ascii.eqb "," ",") with true. cbv iota.
    rewrite IH; [reflexivity | discriminate | exact Hexs |].
    unfold list_sum in *. cbn [map fold_right] in Hfuel |- *. lia.
Qed.

Lemma join_opens (texts : list string) :
  texts <> [] ->
  List.Forall (fun t => exists c r, t = String c r /\ Reference.opens c = true)
              texts ->
  exists c r, Reference.join "," texts = String c r /\ Reference.opens c = true.
Proof.
  intros Hne Hall. destruct Hall as [|t ts (c & r & -> & Hc) _]; [congruence|].
  destruct ts as [|t' ts]; [now exists c, r|].
  exists c. eexists. split; [reflexivity | exact Hc].
Qed.

(** Every exact value is read back from its text. *)
Lemma stringify_readsBack (v : JValue) : Reference.readsBack v.
Proof.
  induction v as [ | b | n | s | items IH | fields IH] using JValue_induction;
    intros Hv rest fuel Hrest Hfuel;
    (destruct fuel as [|fuel]; [cbn in Hfuel; lia|]).
  - destruct rest; reflexivity.
  - destruct b, rest; reflexivity.
  - destruct n as [n|]; [|discriminate Hv].
    cbn [Reference.exact] in Hv. apply N.ltb_lt in Hv.
    cbn [Reference.stringify]. rewrite (Number_toString_safe _ Hv).
    pose proof (parseNumber_decimal n rest Hv Hrest) as Hnum.
    pose proof (decimal_numeral n) as Hd. unfold numeral, isRun in Hd.
    destruct (decimal n) as [|d ds]; [discriminate Hd|].
    assert (Hdigit : isDigit d = true).
    { simpl in Hd. now destruct (isDigit d). }
    destruct (opens_not_closing d (isDigit_opens d Hdigit)) as (Hws & _).
    cbn [Reference.parseValue]. cbn [String.append].
    rewrite skipWs_solid by exact Hws. cbv beta iota.
    rewrite Hdigit. cbv iota.
    cbn [String.append] in Hnum. now rewrite Hnum.
  - cbn [Reference.stringify Reference.parseValue].
    unfold Reference.quote, dquote. rewrite !append_assoc.
    cbn [String.append].
    rewrite skipWs_solid by reflexivity. cbv beta iota.
    change (isDigit "034") with false. cbv iota.
    change (Ascii.eqb "034" "034") with true. cbv iota.
    now rewrite parseChars_escape.
  - destruct items as [|x xs]; [reflexivity|].
    cbn [Reference.exact] in Hv.
    cbn [Reference.stringify Reference.parseValue].
    rewrite !append_assoc. cbn [String.append].
    rewrite skipWs_solid by reflexivity. cbv beta iota.
    change (isDigit "[") with false. cbv iota.
    change (Ascii.eqb "[" "034") with false. cbv iota.
    change (Ascii.eqb "[" "[") with true. cbv iota.
    destruct (join_opens (map Reference.stringify (x :: xs)))
      as (c & r & Hjoin & Hc); [discriminate | |].
    { apply List.Forall_forall. intros t (y & <- & Hy)%in_map_iff.
      apply stringify_opens.
      rewrite forallb_forall in Hv. now apply Hv. }
    destruct (opens_not_closing c Hc) as (Hws & Hclose & _).
    rewrite parseElements_join; [| discriminate | exact IH | exact Hv |].
    + rewrite Hjoin. cbn [String.append].
      rewrite skipWs_solid by exact Hws. cbv beta iota.
      now rewrite Hclose.
    + cbn [Reference.weight] in Hfuel. lia.
  - destruct fields as [|[k x] xs]; [reflexivity|].
    cbn [Reference.exact] in Hv.
    cbn [Reference.stringify Reference.parseValue].
    rewrite !append_assoc. cbn [String.append].
    rewrite skipWs_solid by reflexivity. cbv beta iota.
    change (isDigit "{") with false. cbv iota.
    change (Ascii.eqb "{" "034") with false. cbv iota.
    change (Ascii.eqb "{" "[") with false. cbv iota.
    change (Ascii.eqb "{" "{") with true. cbv iota.
    rewrite parseMembers_join; [| discriminate | exact IH | exact Hv |].
    + assert (Hhead : forall tail,
                 Reference.skipWs
                   ((Reference.quote k ++ tail)) =
                 String "034" (Reference.escape k ++ dquote ++ tail)).
      { intros tail. unfold Reference.quote, dquote.
        rewrite !append_assoc. reflexivity. }
      destruct xs as [|y ys]; cbn [map Reference.join fst snd];
        rewrite !append_assoc, Hhead; reflexivity.
    + cbn [Reference.weight] in Hfuel. lia.
Qed.

Lemma length_append (s t : string) :
  String.length (s ++ t) = (String.length s + String.length t)%nat.
Proof. induction s as [|c s IH]; cbn [String.append String.length]; lia. Qed.

Lemma join_length (texts : list string) :
  (list_sum (map (fun t => S (String.length t)) texts)
   <= S (String.length (Reference.join "," texts)))%nat.
Proof.
  induction texts as [|t ts IH]; [cbn; lia|].
  destruct ts as [|t' ts]; [cbn; lia|].
  change (Reference.join "," (t :: t' :: ts))
    with (t ++ "," ++ Reference.join "," (t' :: ts)).
  rewrite !length_append.
  unfold list_sum in *. cbn [map fold_right String.length] in IH |- *. lia.
Qed.

Lemma list_sum_le {A} (f g : A -> nat) (l : list A) :
  List.Forall (fun x => (f x <= g x)%nat) l ->
  (list_sum (map f l) <= list_sum (map g l))%nat.
Proof.
  induction 1 as [|x xs Hx _ IH]; [reflexivity|].
  unfold list_sum in *. cbn [map fold_right]. lia.
Qed.

(** The fuel a value takes is bounded by the length of its text. *)
Lemma weight_length (v : JValue) :
  Reference.exact v = true ->
  (Reference.weight v <= String.length (Reference.stringify v))%nat.
Proof.
  induction v as [ | b | n | s | items IH | fields IH] using JValue_induction;
    intros Hv.
  1-4: destruct (stringify_opens _ Hv) as (c & t & -> & _); cbn; lia.
  - cbn [Reference.exact Reference.weight Reference.stringify] in *.
    rewrite !length_append. cbn [String.length].
    pose proof (join_length (map Reference.stringify items)) as Hlen.
    rewrite map_map in Hlen.
    assert (Hsum : (list_sum (map (fun x => S (Reference.weight x)) items)
                    <= list_sum (map (fun x => S (String.length
                                                    (Reference.stringify x)))
                                     items))%nat).
    { apply list_sum_le. rewrite forallb_forall in Hv.
      rewrite List.Forall_forall in IH |- *.
      intros x Hx. specialize (IH x Hx (Hv x Hx)). lia. }
    lia.
  - cbn [Reference.exact Reference.weight Reference.stringify] in *.
    rewrite !length_append. cbn [String.length].
    pose proof (join_length
                  (map (fun kv : string * JValue =>
                          Reference.quote (fst kv) ++ ":"
                          ++ Reference.stringify (snd kv)) fields)) as Hlen.
    rewrite map_map in Hlen.
    assert (Hsum : (list_sum (map (fun kv => S (Reference.weight (snd kv)))
                                  fields)
                    <= list_sum
                         (map (fun kv : string * JValue =>
                                 S (String.length
                                      (Reference.quote (fst kv) ++ ":"
                                       ++ Reference.stringify (snd kv))))
                              fields))%nat).
    { apply list_sum_le. rewrite forallb_forall in Hv.
      rewrite List.Forall_forall in IH |- *.
      intros x Hx. specialize (IH x Hx (Hv x Hx)).
      rewrite !length_append. lia. }
    lia.
Qed.

(** [JSON.parse(JSON.stringify(v))] gives [v] back for every exact value. *)
Lemma parse_stringify (v : JValue) :
  Reference.exact v = true ->
  Reference.parse (Reference.stringify v) = Ok v.
Proof.
  intros Hv. unfold Reference.parse.
  pose proof (stringify_readsBack v Hv "" (S (String.length (Reference.stringify v)))
                eq_refl) as Hback.
  rewrite append_empty in Hback. rewrite Hback; [reflexivity|].
  pose proof (weight_length v Hv). lia.
Qed.

(** ** The reference runtime meets the codec assumptions

    The theorems on registration files and payment challenges assume that
    the runtime's codecs give a text back.  The reference runtime does, for
    every value whose numbers are safe integers. *)

Lemma exact_strings (l : list string) :
  forallb Reference.exact (map JStr l) = true.
Proof. induction l as [|s l IH]; [reflexivity | exact IH]. Qed.

Lemma exact_service (s : AgentService) : Reference.exact (serviceJ s) = true.
Proof.
  unfold serviceJ, optField, stringsJ. cbn [Reference.exact].
  rewrite !forallb_app.
  destruct (svc_version s), (svc_skills s), (svc_domains s);
    cbn [forallb snd Reference.exact andb]; rewrite ?exact_strings;
    reflexivity.
Qed.

Lemma exact_registrationRef (r : AgentRegistrationRef) :
  Reference.exact (registrationRefJ r) = Spec.safeInteger (ref_agentId r).
Proof.
  unfold registrationRefJ. cbn [Reference.exact forallb snd].
  destruct (ref_agentId r) as [n|]; cbn [Reference.exact Spec.safeInteger];
    [now rewrite !andb_true_r | reflexivity].
Qed.

(** The registration file is exact when the agent's id and the ids of the
    other registrations are safe integers. *)
Lemma registrationFile_exact (self : AgentIdentity) (options : RegisterOptions)
    (id : number) :
  Spec.safeInteger id = true ->
  (forall l r, opt_existingRegistrations options = Some l -> In r l ->
               Spec.safeInteger (ref_agentId r) = true) ->
  Reference.exact (registrationFile self options (Some id)) = true.
Proof.
  intros Hid Hothers. unfold registrationFile, optField, stringsJ.
  cbn [Reference.exact]. rewrite !forallb_app.
  assert (Hservices : forall l, forallb Reference.exact (map serviceJ l) = true).
  { induction l as [|s l IH]; [reflexivity|].
    cbn [map forallb]. now rewrite exact_service. }
  assert (Hregs : forall l,
             (forall r, In r l -> Spec.safeInteger (ref_agentId r) = true) ->
             forallb Reference.exact (map registrationRefJ l) = true).
  { induction l as [|r l IH]; intros Hl; [reflexivity|].
    cbn [map forallb]. rewrite exact_registrationRef, Hl by now left.
    apply IH. intros r' Hr'. apply Hl. now right. }
  cbn [forallb snd Reference.exact andb].
  rewrite Hservices, Hregs.
  - destruct (opt_image options) as [i|], (opt_supportedTrust options) as [t|];
      try destruct (String.eqb i "");
      cbn [forallb snd Reference.exact andb]; rewrite ?exact_strings;
      reflexivity.
  - intros r [<- | Hr]; [exact Hid|].
    destruct (opt_existingRegistrations options) as [l|] eqn:He;
      [now apply (Hothers l) | destruct Hr].
Qed.

(** On the reference runtime, the URI built for an exact registration file
    is read back without a request. *)
Lemma reference_reads_registration (W : World) (self : AgentIdentity)
    (options : RegisterOptions) (id : number) (gateway : string) :
  Reference.exact (registrationFile self options (Some id)) = true ->
  fetchRegistrationFile Reference.platform W
    (buildRegistrationUri Reference.platform self options (Some id)) gateway
  = ([], Ok (registrationFile self options (Some id))).
Proof.
  intros Hexact. unfold buildRegistrationUri.
  rewrite fetchRegistrationFile_base64.
  cbn [JSON_parse JSON_stringify base64_decode base64_encode
       Reference.platform].
  now rewrite b64decode_b64encode, parse_stringify.
Qed.

(** On the reference runtime, the body of the payment challenge is parsed
    back. *)
Lemma reference_reads_challenge (self : AgentMcpServerInstance) :
  JSON_parse Reference.platform
    (JSON_stringify Reference.platform (paymentRequiredBody self))
  = Ok (paymentRequiredBody self).
Proof. now apply parse_stringify. Qed.

(** On the reference runtime, the requirements header is decoded back when
    the time-out is a safe integer. *)
Lemma reference_reads_requirements (ps : PaymentServer) (resource : string)
    (overrides : option Overrides) :
  Spec.safeInteger (ps_maxTimeoutSeconds ps) = true ->
  JSON_parse Reference.platform
    (base64_decode Reference.platform
       (buildRequirementsHeader Reference.platform ps resource overrides))
  = Ok (requirementsPayload (buildRequirements ps resource overrides)).
Proof.
  intros Hsafe. unfold buildRequirementsHeader.
  cbn [JSON_parse JSON_stringify base64_decode base64_encode
       Reference.platform].
  rewrite b64decode_b64encode. apply parse_stringify.
  cbn [Reference.exact requirementsPayload requirementsJ forallb snd
       req_maxTimeoutSeconds buildRequirements].
  destruct (ps_maxTimeoutSeconds ps) as [n|]; [|discriminate Hsafe].
  cbn [Spec.safeInteger] in Hsafe. cbn [Reference.exact]. now rewrite Hsafe.
Qed.

(** * Further properties of the code *)

(** ** identity: what a verification result tells *)

Lemma arraySome_true (cb : JValue -> Result bool) (items : list JValue) :
  arraySome cb items = Ok true ->
  exists item, In item items /\ cb item = Ok true.
Proof.
  induction items as [|v items IH]; simpl; [discriminate|].
  destruct (cb v) as [[|]|] eqn:Hv; try discriminate.
  - intros _. exists v. split; [now left | exact Hv].
  - intros (item & Hin & Hitem)%IH. exists item. split; [now right | exact Hitem].
Qed.

(** An item that passes the callback of [registrations.some] is an entry
    of the interface [AgentRegistrationRef] that points back. *)
Lemma isBackref_true (ref : AgentRef) (item : JValue) :
  isBackref ref (registryPrefix ref) item = Ok true ->
  exists e, entryOf item = Some e /\ pointsBack ref e.
Proof.
  unfold isBackref, entryOf.
  destruct item as [| | | | |fields]; cbn [getProp]; try discriminate.
  destruct (lookupField fields "agentId") as [[| |n| | |]|]; try discriminate.
  destruct (number_eqb n (agentId ref)) eqn:Hn; [|discriminate].
  destruct (lookupField fields "agentRegistry") as [[| | |s| |]|];
    try discriminate.
  intros [= Hs]. eexists. split; [reflexivity|].
  now apply registryPrefix_pointsBack.
Qed.

(** X1.  [valid: true] is returned only on evidence: the owner is the one
    that [ownerOf] read, the registration is the record fetched from the
    agent's [tokenURI], and that record lists an entry pointing back to the
    reference. *)
Theorem valid_result_is_backed (P : Platform) (W : World)
    (input : VerifyInput) (r : VerificationResult) :
  verifyAgent P W input = Ok r ->
  valid r = true ->
  exists ref rpcUrl ownerRead agentUri record items item e,
    resolveRef input = Ok ref
    /\ rpcUrlFor input ref = Some rpcUrl
    /\ readField W rpcUrl ref "ownerOf" = Ok ownerRead
    /\ readField W rpcUrl ref "tokenURI" = Ok agentUri
    /\ snd (fetchRegistrationFile P W agentUri DEFAULT_IPFS_GATEWAY)
       = Ok record
    /\ owner r = Some ownerRead
    /\ registration r = Some record
    /\ error r = None
    /\ getProp (Some record) "registrations" = Ok (Some (JArr items))
    /\ In item items
    /\ entryOf item = Some e
    /\ pointsBack ref e.
Proof.
  unfold verifyAgent. destruct (resolveRef input) as [ref|] eqn:Href;
    [|discriminate].
  intros [= <-]. unfold verifyRef.
  destruct (rpcUrlFor input ref) as [[|c rpc]|] eqn:Hrpc; try discriminate.
  destruct (readField W (String c rpc) ref "ownerOf") as [o|] eqn:Ho;
    [|unfold caught; discriminate].
  destruct (readField W (String c rpc) ref "getAgentWallet") as [w|] eqn:Hw;
    [|unfold caught; discriminate].
  destruct (readField W (String c rpc) ref "tokenURI") as [u|] eqn:Hu;
    [|unfold caught; discriminate].
  destruct (snd (fetchRegistrationFile P W u DEFAULT_IPFS_GATEWAY))
    as [record|] eqn:Hf; [|discriminate].
  destruct (hasBackref record ref (registryPrefix ref)) as [[[|]|]|] eqn:Hb;
    try (unfold caught; discriminate).
  intros _. unfold hasBackref in Hb.
  destruct (getProp (Some record) "registrations")
    as [[[| | | |items|]|]|] eqn:Hg; try discriminate.
  destruct (arraySome (isBackref ref (registryPrefix ref)) items)
    as [[|]|] eqn:Hs; try discriminate.
  destruct (arraySome_true _ _ Hs) as (item & Hin & Hitem).
  destruct (isBackref_true _ _ Hitem) as (e & He & Hpoints).
  exists ref, (String c rpc), o, u, record, items, item, e.
  repeat split; try assumption; try reflexivity.
  all: apply Hpoints.
Qed.

Lemma valid_result_is_backed_witness :
  exists ref e,
    resolveRef (ownInput Scenario.baseIdentity (Finite 2376)
                  "https://mainnet.base.org") = Ok ref
    /\ pointsBack ref e.
Proof.
  destruct (valid_result_is_backed Reference.platform Scenario.baseLedger
              (ownInput Scenario.baseIdentity (Finite 2376)
                 "https://mainnet.base.org")
              (verifyRef Reference.platform Scenario.baseLedger
                 (ownInput Scenario.baseIdentity (Finite 2376)
                    "https://mainnet.base.org")
                 (ownReference Scenario.baseIdentity (Finite 2376))))
    as (ref & _ & _ & _ & _ & _ & _ & e & Href & _ & _ & _ & _ & _ & _ & _
        & _ & _ & _ & Hp).
  - reflexivity.
  - vm_compute; reflexivity.
  - exists ref, e. now split.
Defined.

(** X2.  Whatever [verifyAgent] returns, the payment wallet is never the
    zero address, and a result that carries a payment wallet or a
    registration carries the owner too. *)
Theorem result_wallet_is_never_zero (P : Platform) (W : World)
    (input : VerifyInput) (r : VerificationResult) :
  verifyAgent P W input = Ok r ->
  paymentWallet r <> Some ZERO_ADDRESS
  /\ (paymentWallet r <> None -> owner r <> None)
  /\ (registration r <> None -> owner r <> None).
Proof.
  unfold verifyAgent. destruct (resolveRef input) as [ref|]; [|discriminate].
  intros [= <-]. unfold verifyRef, caught, failed, verified.
  destruct (rpcUrlFor input ref) as [[|c rpc]|];
    cbn [paymentWallet owner registration];
    try (repeat split; congruence).
  destruct (readField W (String c rpc) ref "ownerOf") as [o|];
    cbn [paymentWallet owner registration];
    try (repeat split; congruence).
  destruct (readField W (String c rpc) ref "getAgentWallet") as [w|];
    cbn [paymentWallet owner registration];
    try (repeat split; congruence).
  assert (Hzero : (if String.eqb w ZERO_ADDRESS then None else Some w)
                  <> Some ZERO_ADDRESS).
  { destruct (String.eqb w ZERO_ADDRESS) eqn:Hz; [discriminate|].
    intros [= ->]. now rewrite String.eqb_refl in Hz. }
  case_branches; cbn [paymentWallet owner registration];
    repeat split; congruence.
Qed.

Lemma result_wallet_is_never_zero_witness :
  paymentWallet
    (verifyRef Reference.platform Scenario.baseLedger
       (ownInput Scenario.baseIdentity (Finite 2376)
          "https://mainnet.base.org")
       (ownReference Scenario.baseIdentity (Finite 2376)))
  = None
  /\ paymentWallet
       (verifyRef Reference.platform Scenario.baseLedger
          (ownInput Scenario.baseIdentity (Finite 2376)
             "https://mainnet.base.org")
          (ownReference Scenario.baseIdentity (Finite 2376)))
     <> Some ZERO_ADDRESS.
Proof.
  split; [vm_compute; reflexivity|].
  apply (result_wallet_is_never_zero Reference.platform Scenario.baseLedger
           (ownInput Scenario.baseIdentity (Finite 2376)
              "https://mainnet.base.org")).
  reflexivity.
Defined.

(** X3.  Without an RPC URL nothing is read: when the [rpc] option is the
    empty string, or is absent for a chain that is not supported,
    [verifyAgent] returns the same [valid: false] result on every ledger
    and network, with the missing-RPC error.  An empty [rpc] option is not
    replaced by the default of a supported chain. *)
Theorem no_rpc_nothing_read (P : Platform) (W W' : World)
    (r : AgentRefInput) :
  in_rpc r = Some ""
  \/ (in_rpc r = None /\ supportedChain (in_chainId r) = None) ->
  exists res,
    verifyAgent P W (ByRef r) = Ok res
    /\ verifyAgent P W' (ByRef r) = Ok res
    /\ valid res = false
    /\ owner res = None
    /\ registration res = None
    /\ error res
       = Some ("No RPC URL available for chain "
               ++ Number_toString (in_chainId r)
               ++ ". Add to SUPPORTED_CHAINS or pass rpc option.").
Proof.
  intros H. unfold verifyAgent, verifyRef, rpcUrlFor.
  cbn [resolveRef chainId].
  destruct H as [-> | [-> ->]]; cbn [option_map];
    eexists; repeat split; reflexivity.
Qed.

Lemma no_rpc_nothing_read_witness :
  exists res,
    verifyAgent Reference.platform Scenario.baseLedger
      (ByRef {| in_chainId := Finite 8453; in_agentId := Finite 2376;
                in_registry := None; in_rpc := Some "" |}) = Ok res
    /\ valid res = false.
Proof.
  destruct (no_rpc_nothing_read Reference.platform Scenario.baseLedger
              Scenario.baseLedger
              {| in_chainId := Finite 8453; in_agentId := Finite 2376;
                 in_registry := None; in_rpc := Some "" |})
    as (res & Hres & _ & Hvalid & _).
  - left. reflexivity.
  - exists res. now split.
Defined.

(** Every chain of [SUPPORTED_CHAINS] has an RPC URL. *)
Lemma supported_rpc_nonempty (k : string) (d : ChainDefaults) :
  assoc SUPPORTED_CHAINS k = Some d -> chain_rpc d <> "".
Proof.
  unfold SUPPORTED_CHAINS. cbn [assoc].
  repeat match goal with
         | |- context [String.eqb ?a k] => destruct (String.eqb a k)
         end;
    intros [= <-]; discriminate.
Qed.

(** X4.  An [AgentIdentity] always has an RPC URL: the constructor
    returns an object whose [rpcUrl] is not empty, or throws.  With
    neither an [rpc] option nor an RPC in the chain object, it succeeds
    exactly on the supported chains, with the chain's default; an empty
    [rpc] option makes it throw on every chain. *)
Theorem identity_has_rpc (cfg : IdentityConfig) :
  (forall self, newAgentIdentity cfg = Ok self ->
     self_rpcUrl self <> ""
     /\ self_registry self = orElse (cfg_registry cfg) IDENTITY_REGISTRY_ADDRESS)
  /\ (cfg_rpc cfg = None -> cfg_chainRpc cfg = None ->
      forall d, supportedChain (cfg_chainId cfg) = Some d ->
        exists self, newAgentIdentity cfg = Ok self
                     /\ self_rpcUrl self = chain_rpc d)
  /\ (cfg_rpc cfg = None -> cfg_chainRpc cfg = None ->
      supportedChain (cfg_chainId cfg) = None ->
      exists m, newAgentIdentity cfg = Throw m)
  /\ (cfg_rpc cfg = Some "" -> exists m, newAgentIdentity cfg = Throw m).
Proof.
  unfold newAgentIdentity. split; [|split; [|split]].
  - intros self. destruct (String.eqb _ "") eqn:He; [discriminate|].
    intros [= <-]. split.
    + exact (proj1 (String.eqb_neq _ _) He).
    + cbn [self_registry]. now destruct (cfg_registry cfg).
  - intros -> -> d Hd. rewrite Hd.
    destruct (String.eqb (chain_rpc d) "") eqn:He.
    + apply String.eqb_eq in He.
      now apply (supported_rpc_nonempty _ _ Hd) in He.
    + eexists. split; reflexivity.
  - intros -> -> ->. cbn. eexists. reflexivity.
  - intros ->. cbn. eexists. reflexivity.
Qed.

Lemma identity_has_rpc_witness :
  exists self,
    newAgentIdentity {| cfg_chainId := Finite 8453; cfg_chainRpc := None;
                        cfg_rpc := None; cfg_registry := None |} = Ok self
    /\ self_rpcUrl self = "https://mainnet.base.org".
Proof.
  destruct (identity_has_rpc {| cfg_chainId := Finite 8453;
                                cfg_chainRpc := None; cfg_rpc := None;
                                cfg_registry := None |})
    as (_ & Hdefault & _).
  destruct (Hdefault eq_refl eq_refl
              {| chain_name := "Base";
                 chain_rpc := "https://mainnet.base.org" |})
    as (self & Hself & Hrpc).
  - vm_compute; reflexivity.
  - exists self. split; [exact Hself | exact Hrpc].
Defined.

(** ** identity: fetching the registration file *)

(** X5.  A [data:] URI never reaches the network: the outcome is the same
    on every ledger and network, and no URL is requested.  Only the two
    exact prefixes [data:application/json;base64,] and
    [data:application/json,] are read; any other [data:] URI, such as one
    with a [charset] parameter, is rejected as an unsupported scheme. *)
Theorem data_uri_read_offline (P : Platform) (W W' : World)
    (agentUri ipfsGateway : string) :
  startsWith agentUri "data:" = true ->
  fetchRegistrationFile P W agentUri ipfsGateway
  = fetchRegistrationFile P W' agentUri ipfsGateway
  /\ fst (fetchRegistrationFile P W agentUri ipfsGateway) = []
  /\ (startsWith agentUri "data:application/json;base64," = false ->
      startsWith agentUri "data:application/json," = false ->
      snd (fetchRegistrationFile P W agentUri ipfsGateway)
      = Throw ("Unsupported URI scheme: " ++ dquote ++ agentUri ++ dquote
               ++ ". " ++ "Supported: data:, ipfs://, https://, http://")).
Proof.
  intros Hdata. unfold fetchRegistrationFile.
  assert (Hipfs : startsWith agentUri "ipfs://" = false).
  { rewrite (startsWith_inv _ _ Hdata). reflexivity. }
  assert (Hhttps : startsWith agentUri "https://" = false).
  { rewrite (startsWith_inv _ _ Hdata). reflexivity. }
  assert (Hhttp : startsWith agentUri "http://" = false).
  { rewrite (startsWith_inv _ _ Hdata). reflexivity. }
  rewrite Hipfs, Hhttps, Hhttp. cbn [orb].
  destruct (startsWith agentUri "data:application/json;base64,");
    [repeat split; discriminate|].
  destruct (startsWith agentUri "data:application/json,");
    [repeat split; discriminate|].
  repeat split.
Qed.

Lemma data_uri_read_offline_witness :
  snd (fetchRegistrationFile Reference.platform Scenario.baseLedger
         "data:application/json;charset=utf-8;base64,e30="
         DEFAULT_IPFS_GATEWAY)
  = Throw ("Unsupported URI scheme: " ++ dquote
           ++ "data:application/json;charset=utf-8;base64,e30=" ++ dquote
           ++ ". " ++ "Supported: data:, ipfs://, https://, http://").
Proof.
  destruct (data_uri_read_offline Reference.platform Scenario.baseLedger
              Scenario.baseLedger
              "data:application/json;charset=utf-8;base64,e30="
              DEFAULT_IPFS_GATEWAY eq_refl) as (_ & _ & H).
  apply H; reflexivity.
Defined.

(** X6.  When the agent's URI is on IPFS and the default gateway answers
    with an error status, [verifyAgent] returns [valid: false] with the
    status in the message; the owner and the payment wallet it had read
    stay in the result. *)
Theorem unreachable_record_keeps_owner (P : Platform) (W : World)
    (input : VerifyInput) (ref : AgentRef)
    (rpcUrl ownerRead walletRead cid : string) (response : HttpResponse) :
  resolveRef input = Ok ref ->
  rpcUrlFor input ref = Some rpcUrl ->
  rpcUrl <> "" ->
  readField W rpcUrl ref "ownerOf" = Ok ownerRead ->
  readField W rpcUrl ref "getAgentWallet" = Ok walletRead ->
  readField W rpcUrl ref "tokenURI" = Ok ("ipfs://" ++ cid) ->
  fetch W ("https://ipfs.io/ipfs/" ++ cid) None = Ok response ->
  ok response = false ->
  exists r,
    verifyAgent P W input = Ok r
    /\ valid r = false
    /\ owner r = Some ownerRead
    /\ paymentWallet r
       = (if String.eqb walletRead ZERO_ADDRESS then None else Some walletRead)
    /\ registration r = None
    /\ error r
       = Some ("Failed to fetch registration file: "
               ++ "Failed to fetch IPFS URI: ipfs://" ++ cid ++ " ("
               ++ Number_toString (Finite (status response)) ++ ")").
Proof.
  intros Href Hrpc Hne Ho Hw Hu Hfetch Hok.
  unfold verifyAgent. rewrite Href. eexists. split; [reflexivity|].
  unfold verifyRef. rewrite Hrpc.
  destruct rpcUrl as [|c rpcUrl]; [congruence|].
  rewrite Ho, Hw, Hu.
  assert (Hfile : snd (fetchRegistrationFile P W ("ipfs://" ++ cid)
                         DEFAULT_IPFS_GATEWAY)
                  = Throw ("Failed to fetch IPFS URI: ipfs://" ++ cid ++ " ("
                           ++ Number_toString (Finite (status response))
                           ++ ")")).
  { unfold fetchRegistrationFile, fetchText, DEFAULT_IPFS_GATEWAY.
    destruct cid as [|k cid]; cbn; cbn in Hfetch; rewrite Hfetch, Hok;
      reflexivity. }
  rewrite Hfile. repeat split.
Qed.

Lemma unreachable_record_keeps_owner_witness :
  exists r,
    verifyAgent Reference.platform Cases.pinnedLedger Cases.agent2376 = Ok r
    /\ owner r = Some Scenario.alice
    /\ error r
       = Some ("Failed to fetch registration file: "
               ++ "Failed to fetch IPFS URI: ipfs://bafyagent (404)").
Proof.
  destruct (unreachable_record_keeps_owner Reference.platform
              Cases.pinnedLedger Cases.agent2376 Cases.ref2376
              "https://mainnet.base.org" Scenario.alice Scenario.bob
              "bafyagent"
              {| ok := false; status := 404; text := Ok "not found" |})
    as (r & Hr & _ & Ho & _ & _ & He);
    try reflexivity; try discriminate.
  exists r. split; [exact Hr|]. split; [exact Ho|]. exact He.
Defined.

(** X7.  A ledger read that throws empties the result: whichever of the
    three reads is the first to fail, the result has no owner, no payment
    wallet and no registration, also when the owner had been read; a
    message that mentions [revert] or [ERC721] is replaced by the
    does-not-exist error, any other message is reported as it is. *)
Theorem failed_read_empties_result (P : Platform) (W : World)
    (input : VerifyInput) (ref : AgentRef) (rpcUrl m : string) :
  resolveRef input = Ok ref ->
  rpcUrlFor input ref = Some rpcUrl ->
  rpcUrl <> "" ->
  readField W rpcUrl ref "ownerOf" = Throw m
  \/ (exists o, readField W rpcUrl ref "ownerOf" = Ok o)
     /\ (readField W rpcUrl ref "getAgentWallet" = Throw m
         \/ (exists w, readField W rpcUrl ref "getAgentWallet" = Ok w)
            /\ readField W rpcUrl ref "tokenURI" = Throw m) ->
  exists r,
    verifyAgent P W input = Ok r
    /\ valid r = false
    /\ owner r = None
    /\ paymentWallet r = None
    /\ registration r = None
    /\ error r
       = Some (if includes m "revert" || includes m "ERC721"
               then "Agent #" ++ Number_toString (agentId ref)
                    ++ " does not exist on chain "
                    ++ Number_toString (chainId ref)
               else m).
Proof.
  intros Href Hrpc Hne Hfail.
  unfold verifyAgent. rewrite Href. eexists. split; [reflexivity|].
  unfold verifyRef. rewrite Hrpc.
  destruct rpcUrl as [|c rpcUrl]; [congruence|].
  destruct Hfail as [-> | [[o ->] [-> | [[w ->] ->]]]];
    unfold caught; repeat split.
Qed.

Lemma failed_read_empties_result_witness :
  exists r,
    verifyAgent Reference.platform Cases.walletlessLedger Cases.agent2376
    = Ok r
    /\ owner r = None
    /\ error r = Some "Agent #2376 does not exist on chain 8453".
Proof.
  destruct (failed_read_empties_result Reference.platform
              Cases.walletlessLedger Cases.agent2376 Cases.ref2376
              "https://mainnet.base.org" "execution reverted")
    as (r & Hr & _ & Ho & _ & _ & He);
    try reflexivity; try discriminate.
  - right. split; [now exists Scenario.alice|]. left. reflexivity.
  - exists r. split; [exact Hr|]. split; [exact Ho|].
    rewrite He. vm_compute. reflexivity.
Defined.

(** ** payments: what [verify] checks *)

(** The payload that [parsePaymentHeader] returns is never [null]. *)
Lemma parsePaymentHeader_payload (P : Platform) (ps : PaymentServer)
    (header : option string) (parsed : ParsedHeader) :
  parsePaymentHeader P ps header = Some parsed -> ph_payload parsed <> JNull.
Proof.
  unfold parsePaymentHeader.
  destruct header as [[|c h]|]; try discriminate.
  destruct (JSON_parse P _) as [decoded|]; [|discriminate].
  destruct decoded as [| | | | |fields]; cbn [getProp]; try discriminate.
  all: cbn [nullish getPropOpt].
  all: try (intros [= <-]; discriminate).
  destruct (lookupField fields "payload") as [[]|]; cbn [nullish];
    destruct (nullish _ _); try discriminate;
    intros [= <-]; discriminate.
Qed.

(** The [try] of [verify] has nothing to catch. *)
Lemma verifyPayload_returns (ps : PaymentServer)
    (parsed : ParsedHeader) (now : number) :
  ph_payload parsed <> JNull ->
  exists r, verifyPayload ps parsed now = Ok r
            /\ (pv_valid r = true /\ pv_error r = None
                /\ (exists d, pv_payment r = Some d
                              /\ pd_timestamp d = now
                              /\ pd_network d = ph_network parsed)
                \/ pv_valid r = false /\ pv_payment r = None
                   /\ (pv_error r
                       = Some "Invalid EIP-3009 authorization structure"
                       \/ pv_error r
                          = Some "Unrecognized payment payload format")).
Proof.
  intros Hnull. unfold verifyPayload.
  destruct (ph_payload parsed) as [| | | | |fields] eqn:Hp;
    [congruence| | | | |]; cbn [getProp truthy isObjectType andb].
  1-4: eexists; split; [reflexivity|]; right; cbn; auto.
  destruct (lookupField fields "authorization") as [[| | | |items|afields]|];
    destruct (lookupField fields "permit2Authorization") as [[]|];
    repeat (cbn [truthy isObjectType andb orb negb getProp getPropOpt];
            match goal with
            | |- context [if ?b then _ else _] => destruct b
            end);
    eexists; (split; [reflexivity|]); cbn;
    first [ left; repeat split; eexists; repeat split
          | right; repeat split; auto ].
Qed.

(** X8.  [verify] accepts with a payment stamped with the time of the
    check, or rejects with one of four errors; the error of its [catch]
    clause is never reported, as no header makes the structural check
    throw. *)
Theorem verify_outcomes (P : Platform) (ps : PaymentServer)
    (header : option string) (now : number) :
  (pv_valid (verify P ps header now) = true
   /\ pv_error (verify P ps header now) = None
   /\ exists d, pv_payment (verify P ps header now) = Some d
                /\ pd_timestamp d = now)
  \/ (pv_valid (verify P ps header now) = false
      /\ pv_payment (verify P ps header now) = None
      /\ In (pv_error (verify P ps header now))
            [ Some "Missing X-PAYMENT header. This endpoint requires x402 payment.";
              Some "Invalid X-PAYMENT header format";
              Some "Invalid EIP-3009 authorization structure";
              Some "Unrecognized payment payload format" ]).
Proof.
  unfold verify.
  destruct header as [[|c h]|]; try solve [right; cbn; auto].
  destruct (parsePaymentHeader P ps (Some (String c h))) as [parsed|] eqn:Hp;
    [|right; cbn; auto].
  destruct (verifyPayload_returns ps parsed now
              (parsePaymentHeader_payload P ps _ _ Hp))
    as (r & -> & [(Hv & He & d & Hd & Ht & _) | (Hv & Hd & [He | He])]);
    cbv beta iota.
  - left. split; [exact Hv|]. split; [exact He|]. exists d.
    split; assumption.
  - right. rewrite Hv, Hd, He. cbn. tauto.
  - right. rewrite Hv, Hd, He. cbn. tauto.
Qed.

(** X9.  The structural check never looks at the price or at the
    recipient: two payment servers with the same asset and network return
    the same result on every header, whatever their [payTo], [amount],
    description and time-out. *)
Theorem verify_ignores_price (P : Platform) (ps ps' : PaymentServer)
    (header : option string) (now : number) :
  ps_asset ps = ps_asset ps' ->
  ps_network ps = ps_network ps' ->
  verify P ps header now = verify P ps' header now.
Proof.
  intros Hasset Hnet.
  assert (Hparse : parsePaymentHeader P ps header
                   = parsePaymentHeader P ps' header).
  { unfold parsePaymentHeader. now rewrite Hnet. }
  unfold verify. rewrite Hparse.
  destruct header as [[|c h]|]; try reflexivity.
  destruct (parsePaymentHeader P ps' (Some (String c h))); [|reflexivity].
  unfold verifyPayload. now rewrite Hasset.
Qed.

Lemma verify_ignores_price_witness :
  verify Reference.platform Cases.seller (Some Cases.underpaid) Scenario.noon
  = verify Reference.platform Cases.otherSeller (Some Cases.underpaid)
      Scenario.noon
  /\ pv_valid (verify Reference.platform Cases.seller (Some Cases.underpaid)
                 Scenario.noon) = true.
Proof.
  split.
  - apply (verify_ignores_price Reference.platform Cases.seller
             Cases.otherSeller); reflexivity.
  - vm_compute. reflexivity.
Defined.

(** X10.  An MCP server configured without an asset always charges in the
    USDC of Base, on whatever network it sells; a [PaymentServer] created
    from the same payment configuration takes the USDC of the configured
    network.  Receiver, amount and network are the same in both. *)
Theorem server_asset_is_base_usdc (cfg : AgentMcpServerConfig)
    (p : PaymentOptions) :
  payment cfg = Some p ->
  asset (pay p) = None ->
  exists ps,
    paymentServer (newAgentMcpServer cfg) = Some ps
    /\ ps_asset ps = USDC_BASE
    /\ ps_payTo ps = ps_payTo (newPaymentServer (pay p))
    /\ ps_amount ps = ps_amount (newPaymentServer (pay p))
    /\ ps_network ps = ps_network (newPaymentServer (pay p))
    /\ (forall n a,
          network (pay p) = Some n -> assoc NETWORK_USDC n = Some a ->
          ps_asset (newPaymentServer (pay p)) = a).
Proof.
  intros Hp Ha. unfold newAgentMcpServer. rewrite Hp.
  cbn [paymentServer]. eexists. split; [reflexivity|].
  unfold newPaymentServer.
  cbn [ps_asset ps_payTo ps_amount ps_network asset network payTo amount
       orElse].
  rewrite Ha. cbn [orElse]. repeat split.
  intros n a Hn Hassoc. rewrite Hn. cbn [orElse]. now rewrite Hassoc.
Qed.

Lemma server_asset_is_base_usdc_witness :
  exists ps,
    paymentServer (newAgentMcpServer Cases.polygonShop) = Some ps
    /\ ps_network ps = "eip155:137"
    /\ ps_asset ps = USDC_BASE
    /\ ps_asset (newPaymentServer
                   {| payTo := Scenario.alice; amount := "100000";
                      asset := None; network := Some "eip155:137";
                      description := None; maxTimeoutSeconds := None |})
       = USDC_POLYGON.
Proof.
  destruct (server_asset_is_base_usdc Cases.polygonShop
              {| pay := {| payTo := Scenario.alice; amount := "100000";
                           asset := None; network := Some "eip155:137";
                           description := None; maxTimeoutSeconds := None |};
                 freeTools := None |} eq_refl eq_refl)
    as (ps & Hps & Hasset & _ & _ & Hnet & Hother).
  exists ps. split; [exact Hps|]. split; [rewrite Hnet; reflexivity|].
  split; [exact Hasset|].
  apply (Hother "eip155:137"); reflexivity.
Defined.

(** ** data: the request handler and the tools *)

Import Terms.

Lemma registerAll_config (names : list string) (self : AgentMcpServerInstance) :
  cfg_cors (registerAll self names) = cfg_cors self
  /\ cfg_payment (registerAll self names) = cfg_payment self
  /\ paymentServer (registerAll self names) = paymentServer self
  /\ cfg_name (registerAll self names) = cfg_name self
  /\ cfg_version (registerAll self names) = cfg_version self.
Proof.
  unfold registerAll. revert self.
  induction names as [|n names IH]; intros self; cbn [fold_left].
  - repeat split.
  - destruct (IH (tool self n)) as (-> & -> & -> & -> & ->). repeat split.
Qed.

Lemma registerAll_tools (names : list string) (self : AgentMcpServerInstance)
    (n : string) :
  tools (registerAll self names) !! n
  = if includesName names n
    then Some {| requiresPayment :=
                   match cfg_payment self with
                   | Some _ => negb (includesName (freeToolsOf self) n)
                   | None => false
                   end |}
    else tools self !! n.
Proof.
  unfold registerAll. revert self.
  induction names as [|k names IH]; intros self; [reflexivity|].
  cbn [fold_left]. rewrite IH. unfold includesName. cbn [existsb].
  assert (Hfree : freeToolsOf (tool self k) = freeToolsOf self) by reflexivity.
  rewrite Hfree. change (cfg_payment (tool self k)) with (cfg_payment self).
  destruct (existsb (String.eqb n) names); [now rewrite orb_true_r|].
  rewrite orb_false_r. unfold tool. cbn [tools].
  destruct (String.eqb n k) eqn:Hk.
  - apply String.eqb_eq in Hk as ->. now rewrite lookup_insert_eq.
  - apply String.eqb_neq in Hk. rewrite lookup_insert_ne by congruence.
    reflexivity.
Qed.

(** X11.  The [tools] map of a server holds exactly the names given to
    [tool]: each with [requiresPayment] true when payment is configured
    and the name is not in the free-tools list, and false otherwise.  The
    built-in [ping] goes to the engine only: it is in the map only when
    [tool] is called for it. *)
Theorem tools_record_registrations (cfg : AgentMcpServerConfig)
    (names : list string) (n : string) :
  tools (registerAll (newAgentMcpServer cfg) names) !! n
  = if includesName names n
    then Some {| requiresPayment :=
                   match payment cfg with
                   | Some p => negb (includesName (orElse (freeTools p) ["ping"]) n)
                   | None => false
                   end |}
    else None.
Proof.
  rewrite registerAll_tools. unfold freeToolsOf.
  cbn [newAgentMcpServer cfg_payment tools].
  destruct (includesName names n); [|apply lookup_empty].
  now destruct (payment cfg).
Qed.

(** X12.  Only [POST] is paid for: a request with any other method is
    never answered 402, and is handled exactly as by a server without
    payment configuration. *)
Theorem only_post_is_charged (P : Platform) (randomUUID : nat -> string)
    (self : AgentMcpServerInstance) (now : number) (st : ListenState)
    (req : Request) :
  method req <> "POST" ->
  (forall headers body,
     snd (handler P randomUUID self now st req) <> Respond 402 headers body)
  /\ handler P randomUUID self now st req
     = handler P randomUUID
         {| cfg_name := cfg_name self;
            cfg_version := cfg_version self;
            cfg_port := cfg_port self;
            cfg_cors := cfg_cors self;
            cfg_identity := cfg_identity self;
            cfg_payment := None;
            paymentServer := None;
            tools := tools self;
            mcpTools := mcpTools self |} now st req.
Proof.
  intros Hm. apply String.eqb_neq in Hm.
  unfold handler, paymentGate, route, headersSet, respondJSON.
  cbn [cfg_cors paymentServer]. rewrite Hm.
  split.
  - intros headers body.
    case_branches; cbn [snd]; discriminate.
  - now destruct (paymentServer self).
Qed.

Lemma only_post_is_charged_witness :
  exists t,
    snd (handler Reference.platform Scenario.uuid Scenario.priceServer
           Scenario.noon initialState (Scenario.get "/mcp" None))
    = Forward t corsHeaders.
Proof.
  destruct (only_post_is_charged Reference.platform Scenario.uuid
              Scenario.priceServer Scenario.noon initialState
              (Scenario.get "/mcp" None)) as [_ ->]; [discriminate|].
  eexists. vm_compute. reflexivity.
Defined.

(** What the payment check answers is a 402. *)
Lemma paymentGate_answers (P : Platform) (self : AgentMcpServerInstance)
    (now : number) (set : list (string * string)) (req : Request)
    (out : Outcome) :
  paymentGate P self now set req = Some out ->
  exists headers body, out = Respond 402 headers body.
Proof.
  unfold paymentGate, respondJSON.
  destruct (paymentServer self) as [ps|]; [|discriminate].
  destruct (String.eqb (method req) "POST"); [|discriminate].
  destruct (x_payment req) as [[|c h]|].
  - intros [= <-]. eauto.
  - destruct (pv_valid _); [discriminate|]. intros [= <-]. eauto.
  - intros [= <-]. eauto.
Qed.

(** What the session routing answers is a 400, and it leaves the state. *)
Lemma route_answers (P : Platform) (randomUUID : nat -> string)
    (st : ListenState) (set : list (string * string)) (req : Request)
    (status : N) (headers : list (string * string)) (body : option string) :
  snd (route P randomUUID st set req) = Respond status headers body ->
  fst (route P randomUUID st set req) = st /\ status = 400%N.
Proof.
  unfold route, respondJSON, openSession, openStandalone.
  destruct (presentedSession req) as [id|].
  - destruct (transports st !! id); [discriminate|].
    destruct (String.eqb (method req) "GET"); [discriminate|].
    cbn [fst snd]. intros [= <- _ _]. now split.
  - destruct (String.eqb (method req) "POST"); [discriminate|].
    destruct (String.eqb (method req) "GET"); [discriminate|].
    cbn [fst snd]. intros [= <- _ _]. now split.
Qed.

(** X13.  A request that the handler answers itself (204, 404, 402 or 400)
    leaves the session registry and the connections as they were; the
    state changes only when the request is handed to a transport. *)
Theorem answered_request_changes_nothing (P : Platform)
    (randomUUID : nat -> string) (self : AgentMcpServerInstance)
    (now : number) (st : ListenState) (req : Request)
    (status : N) (headers : list (string * string)) (body : option string) :
  snd (handler P randomUUID self now st req) = Respond status headers body ->
  fst (handler P randomUUID self now st req) = st
  /\ In status [204; 404; 402; 400]%N.
Proof.
  unfold handler.
  destruct (cfg_cors self && String.eqb (method req) "OPTIONS").
  { cbn [fst snd]. intros [= <- _ _]. split; [reflexivity | cbn; tauto]. }
  destruct (negb _).
  { cbn [fst snd]. unfold respondJSON. intros [= <- _ _].
    split; [reflexivity | cbn; tauto]. }
  destruct (paymentGate P self now (headersSet self) req) as [out|] eqn:Hg.
  - cbn [fst snd]. intros ->. split; [reflexivity|].
    destruct (paymentGate_answers _ _ _ _ _ _ Hg) as (h & b & [= <- _ _]).
    cbn; tauto.
  - intros Hr. destruct (route_answers _ _ _ _ _ _ _ _ Hr) as [-> ->].
    split; [reflexivity | cbn; tauto].
Qed.

Lemma answered_request_changes_nothing_witness :
  fst (handler Reference.platform Scenario.uuid Scenario.priceServer
         Scenario.noon initialState
         (Scenario.post "/mcp" "get-price" None None))
  = initialState.
Proof.
  eapply (answered_request_changes_nothing Reference.platform Scenario.uuid
            Scenario.priceServer Scenario.noon initialState
            (Scenario.post "/mcp" "get-price" None None)).
  vm_compute. reflexivity.
Defined.

(** X14.  The registry grows by [POST] only: a request with another
    method leaves the [transports] map as it is, also when a [GET] is
    given a transport of its own. *)
Theorem only_post_registers (P : Platform) (randomUUID : nat -> string)
    (self : AgentMcpServerInstance) (now : number) (st : ListenState)
    (req : Request) :
  method req <> "POST" ->
  transports (fst (handler P randomUUID self now st req)) = transports st
  /\ minted (fst (handler P randomUUID self now st req)) = minted st.
Proof.
  intros Hm. apply String.eqb_neq in Hm.
  unfold handler, paymentGate, route. rewrite Hm.
  destruct (cfg_cors self && _); [now split|].
  destruct (negb _); [now split|].
  assert (Hgate : match paymentServer self with
                  | Some _ => @None Outcome
                  | None => None
                  end = None) by now destruct (paymentServer self).
  rewrite Hgate.
  destruct (presentedSession req) as [id|].
  - destruct (transports st !! id); [now split|].
    destruct (String.eqb (method req) "GET"); now split.
  - destruct (String.eqb (method req) "GET"); now split.
Qed.

Lemma only_post_registers_witness :
  transports (fst (handler Reference.platform Scenario.uuid
                     Scenario.openServer Scenario.noon initialState
                     (Scenario.get "/mcp" None)))
  = transports initialState.
Proof.
  apply (only_post_registers Reference.platform Scenario.uuid
           Scenario.openServer Scenario.noon initialState
           (Scenario.get "/mcp" None)).
  discriminate.
Defined.

Lemma startsWithHeaders_app (prefix rest : list (string * string)) :
  startsWithHeaders prefix (prefix ++ rest).
Proof. induction prefix as [|h prefix IH]; cbn; auto. Qed.

(** The headers of an outcome: those set first, then the content type of
    an answer with a body, then the challenge. *)
Lemma handler_headers (P : Platform) (randomUUID : nat -> string)
    (self : AgentMcpServerInstance) (now : number) (st : ListenState)
    (req : Request) :
  exists rest,
    outcomeHeaders (snd (handler P randomUUID self now st req))
    = (headersSet self ++ rest)%list
    /\ (rest = [] \/ rest = jsonType
        \/ exists v, rest = (jsonType ++ [("X-PAYMENT-REQUIRED", v)])%list).
Proof.
  unfold handler.
  destruct (cfg_cors self && _).
  { exists []. cbn. rewrite app_nil_r. auto. }
  destruct (negb _).
  { exists jsonType. cbn. auto. }
  unfold paymentGate, respondJSON.
  assert (Hroute : exists rest,
             outcomeHeaders (snd (route P randomUUID st (headersSet self) req))
             = (headersSet self ++ rest)%list
             /\ (rest = [] \/ rest = jsonType
                 \/ exists v, rest = (jsonType ++ [("X-PAYMENT-REQUIRED", v)])%list)).
  { unfold route, respondJSON, openSession, openStandalone.
    destruct (presentedSession req) as [id|].
    - destruct (transports st !! id).
      + exists []. cbn. rewrite app_nil_r. auto.
      + destruct (String.eqb (method req) "GET").
        * exists []. cbn. rewrite app_nil_r. auto.
        * exists jsonType. cbn. auto.
    - destruct (String.eqb (method req) "POST").
      + exists []. cbn. rewrite app_nil_r. auto.
      + destruct (String.eqb (method req) "GET").
        * exists []. cbn. rewrite app_nil_r. auto.
        * exists jsonType. cbn. auto. }
  destruct (paymentServer self) as [ps|]; [|exact Hroute].
  destruct (String.eqb (method req) "POST"); [|exact Hroute].
  destruct (x_payment req) as [[|c h]|].
  - eexists. cbn. split; [reflexivity|]. right. right. eauto.
  - destruct (pv_valid _); [exact Hroute|].
    exists jsonType. cbn. auto.
  - eexists. cbn. split; [reflexivity|]. right. right. eauto.
Qed.

(** X15.  With CORS enabled, the three CORS headers are the first headers
    of every outcome, the 402, 404 and 400 answers included; with CORS
    disabled no outcome has them and [OPTIONS] is not answered 204. *)
Theorem cors_headers_on_every_outcome (P : Platform)
    (randomUUID : nat -> string) (self : AgentMcpServerInstance)
    (now : number) (st : ListenState) (req : Request) :
  (cfg_cors self = true ->
   startsWithHeaders corsHeaders
     (outcomeHeaders (snd (handler P randomUUID self now st req))))
  /\ (cfg_cors self = false ->
      (forall k, assoc corsHeaders k <> None ->
         assoc (outcomeHeaders (snd (handler P randomUUID self now st req))) k
         = None)
      /\ forall headers body,
           snd (handler P randomUUID self now st req)
           <> Respond 204 headers body).
Proof.
  destruct (handler_headers P randomUUID self now st req)
    as (rest & Hout & Hrest).
  rewrite Hout. unfold headersSet. split; intros Hc; rewrite Hc.
  - apply startsWithHeaders_app.
  - split.
    + intros k Hk. cbn [app].
      destruct Hrest as [-> | [-> | [v ->]]]; [reflexivity| |];
        revert Hk; unfold corsHeaders, jsonType; cbn [assoc app];
        repeat match goal with
               | |- context [String.eqb ?a k] =>
                   destruct (String.eqb a k) eqn:?
               end; try congruence; intros _;
        repeat match goal with
               | H : String.eqb _ k = true |- _ =>
                   apply String.eqb_eq in H; subst k
               end; discriminate.
    + intros headers body. unfold handler. rewrite Hc. cbn [andb].
      destruct (negb _); [unfold respondJSON; discriminate|].
      destruct (paymentGate P self now (headersSet self) req) as [out|] eqn:Hg.
      * destruct (paymentGate_answers _ _ _ _ _ _ Hg) as (h & b & ->).
        discriminate.
      * intros Hr. destruct (route_answers _ _ _ _ _ _ _ _ Hr) as [_ [=]].
Qed.

Lemma cors_headers_on_every_outcome_witness :
  startsWithHeaders corsHeaders
    (outcomeHeaders
       (snd (handler Reference.platform Scenario.uuid Scenario.priceServer
               Scenario.noon initialState
               (Scenario.post "/mcp" "get-price" None None)))).
Proof.
  apply (cors_headers_on_every_outcome Reference.platform Scenario.uuid
           Scenario.priceServer Scenario.noon initialState
           (Scenario.post "/mcp" "get-price" None None)).
  reflexivity.
Defined.

(** ** payments: the middleware *)

Lemma verify_valid_payment (P : Platform) (ps : PaymentServer)
    (header : option string) (now : number) :
  pv_valid (verify P ps header now) = true ->
  exists d, pv_payment (verify P ps header now) = Some d.
Proof.
  unfold verify.
  destruct header as [[|c h]|]; try discriminate.
  destruct (parsePaymentHeader P ps (Some (String c h))) as [parsed|] eqn:Hp;
    [|discriminate].
  destruct (verifyPayload_returns ps parsed now
              (parsePaymentHeader_payload P ps _ _ Hp))
    as (r & -> & [(_ & _ & d & Hd & _) | (Hv & _)]); cbv beta iota.
  - intros _. now exists d.
  - congruence.
Qed.

(** X16.  The middleware lets a request through only with a payment that
    [verify] accepted, attached to the request; everything else is
    answered 402, with the requirements header exactly when the request
    has no payment header. *)
Theorem middleware_outcomes (P : Platform) (ps : PaymentServer)
    (overrides : option Overrides) (now : number)
    (req : Middleware.MiddlewareRequest) :
  (exists d,
     Middleware.middleware P ps overrides now req = Middleware.Next (Some d)
     /\ pv_valid (verify P ps (Middleware.mw_x_payment req) now) = true
     /\ pv_payment (verify P ps (Middleware.mw_x_payment req) now) = Some d)
  \/ (exists headers body,
        Middleware.middleware P ps overrides now req
        = Middleware.Answer 402 headers body
        /\ pv_valid (verify P ps (Middleware.mw_x_payment req) now) = false
        /\ (assoc headers "X-PAYMENT-REQUIRED" <> None
            <-> (Middleware.mw_x_payment req = None
                 \/ Middleware.mw_x_payment req = Some ""))).
Proof.
  unfold Middleware.middleware.
  destruct (Middleware.mw_x_payment req) as [[|c h]|] eqn:Hx.
  - right. do 2 eexists. split; [reflexivity|]. split; [reflexivity|].
    cbn. split; [auto | discriminate].
  - destruct (pv_valid (verify P ps (Some (String c h)) now)) eqn:Hv.
    + left. destruct (verify_valid_payment P ps _ now Hv) as (d & Hd).
      exists d. cbn [negb]. rewrite Hd. auto.
    + right. do 2 eexists. split; [reflexivity|]. split; [reflexivity|].
      cbn. split; [congruence | intros [|]; discriminate].
  - right. do 2 eexists. split; [reflexivity|]. split; [reflexivity|].
    cbn. split; [auto | discriminate].
Qed.

(** X17.  The middleware and the handler of the MCP server take the same
    decision on a [POST]: the handler's payment check lets the request go
    on exactly when the middleware of its payment server calls [next].
    Their challenges name the same resource when the request has a [Host]
    header and a URL; without a [Host] header the handler writes
    [localhost] and the middleware nothing. *)
Theorem middleware_agrees_with_handler (P : Platform)
    (self : AgentMcpServerInstance) (ps : PaymentServer) (now : number)
    (set : list (string * string)) (req : Request) :
  paymentServer self = Some ps ->
  method req = "POST" ->
  (paymentGate P self now set req = None
   <-> exists p,
         Middleware.middleware P ps None now (toMiddleware req)
         = Middleware.Next p)
  /\ (x_payment req = None ->
      forall h u, host req = Some h -> url req = Some u ->
      exists headers body headers' body',
        paymentGate P self now set req = Some (Respond 402 headers body)
        /\ Middleware.middleware P ps None now (toMiddleware req)
           = Middleware.Answer 402 headers' body'
        /\ assoc headers' "X-PAYMENT-REQUIRED"
           = Some (buildRequirementsHeader P ps ("https://" ++ h ++ u) None)
        /\ (assoc set "X-PAYMENT-REQUIRED" = None ->
            assoc set "Content-Type" = None ->
            assoc headers "X-PAYMENT-REQUIRED"
            = assoc headers' "X-PAYMENT-REQUIRED"))
  /\ (x_payment req = None -> host req = None ->
      forall u, url req = Some u ->
      exists headers body headers' body',
        paymentGate P self now set req = Some (Respond 402 headers body)
        /\ Middleware.middleware P ps None now (toMiddleware req)
           = Middleware.Answer 402 headers' body'
        /\ assoc headers' "X-PAYMENT-REQUIRED"
           = Some (buildRequirementsHeader P ps ("https://" ++ u) None)
        /\ (assoc set "X-PAYMENT-REQUIRED" = None ->
            assoc set "Content-Type" = None ->
            assoc headers "X-PAYMENT-REQUIRED"
            = Some (buildRequirementsHeader P ps
                      ("https://localhost" ++ u) None))).
Proof.
  intros Hps Hm. unfold paymentGate, Middleware.middleware, toMiddleware.
  rewrite Hps, Hm. cbn [String.eqb Ascii.eqb Bool.eqb andb
                        Middleware.mw_x_payment Middleware.mw_host
                        Middleware.mw_url].
  change (String.eqb "POST" "POST") with true. cbv iota.
  split; [|split].
  - destruct (x_payment req) as [[|c x]|].
    + split; [discriminate | intros [p [=]]].
    + destruct (pv_valid (verify P ps (Some (String c x)) now)); cbn [negb].
      * split; [eauto | reflexivity].
      * split; [discriminate | intros [p [=]]].
    + split; [discriminate | intros [p [=]]].
  - intros -> h u Hh Hu. unfold resourceUrl, respondJSON.
    rewrite Hh, Hu. cbn [orElse].
    do 4 eexists. split; [reflexivity|]. split; [reflexivity|].
    split; [reflexivity|].
    intros Hset Hct. clear -Hset Hct.
    induction set as [|[k v] set IH]; [reflexivity|].
    cbn [assoc app] in *.
    destruct (String.eqb k "X-PAYMENT-REQUIRED"); [discriminate|].
    destruct (String.eqb k "Content-Type"); [discriminate|].
    now apply IH.
  - intros -> Hh u Hu. unfold resourceUrl, respondJSON.
    rewrite Hh, Hu. cbn [orElse].
    do 4 eexists. split; [reflexivity|]. split; [reflexivity|].
    split; [reflexivity|].
    intros Hset Hct. clear -Hset Hct.
    induction set as [|[k v] set IH]; [reflexivity|].
    cbn [assoc app] in *.
    destruct (String.eqb k "X-PAYMENT-REQUIRED"); [discriminate|].
    destruct (String.eqb k "Content-Type"); [discriminate|].
    now apply IH.
Qed.

Lemma middleware_agrees_with_handler_witness :
  paymentGate Reference.platform Scenario.priceServer Scenario.noon []
    (Scenario.post "/mcp" "get-price" (Some Cases.underpaid) None) = None
  <-> exists p,
        Middleware.middleware Reference.platform
          (newPaymentServer
             {| payTo := Scenario.alice; amount := "100000";
                asset := Some USDC_BASE; network := Some DEFAULT_NETWORK;
                description := Some "price-feed MCP service";
                maxTimeoutSeconds := None |})
          None Scenario.noon
          (toMiddleware
             (Scenario.post "/mcp" "get-price" (Some Cases.underpaid) None))
        = Middleware.Next p.
Proof.
  apply (middleware_agrees_with_handler Reference.platform
           Scenario.priceServer
           (newPaymentServer
              {| payTo := Scenario.alice; amount := "100000";
                 asset := Some USDC_BASE; network := Some DEFAULT_NETWORK;
                 description := Some "price-feed MCP service";
                 maxTimeoutSeconds := None |})
           Scenario.noon []
           (Scenario.post "/mcp" "get-price" (Some Cases.underpaid) None));
    reflexivity.
Defined.

(** ** payments: what the client reads from a response *)

(** X18.  The client reads back what the server wrote: on a 402 response
    whose [X-PAYMENT-REQUIRED] header was built by [buildRequirementsHeader],
    and on a runtime whose codecs give the payload back,
    [checkPaymentRequirements] reports the amount, asset, network and
    receiver of the server's requirements, overrides included. *)
Theorem client_reads_server_challenge (P : Platform) (ps : PaymentServer)
    (resource : string) (overrides : option Overrides)
    (fetchHead : string -> Result Receipts.Response) (url : string)
    (response : Receipts.Response) :
  fetchHead url = Ok response ->
  Receipts.rs_status response = 402%N ->
  Receipts.rs_payment_required response
  = Some (buildRequirementsHeader P ps resource overrides) ->
  buildRequirementsHeader P ps resource overrides <> "" ->
  JSON_parse P
    (base64_decode P (buildRequirementsHeader P ps resource overrides))
  = Ok (requirementsPayload (buildRequirements ps resource overrides)) ->
  Receipts.checkPaymentRequirements P fetchHead url
  = Ok {| Receipts.rq_requiresPayment := true;
          Receipts.rq_amount :=
            Some (JStr (maxAmountRequired
                          (buildRequirements ps resource overrides)));
          Receipts.rq_asset :=
            Some (JStr (req_asset (buildRequirements ps resource overrides)));
          Receipts.rq_network :=
            Some (JStr (req_network
                          (buildRequirements ps resource overrides)));
          Receipts.rq_payTo :=
            Some (JStr (req_payTo
                          (buildRequirements ps resource overrides))) |}.
Proof.
  intros Hfetch Hstatus Hheader Hne Hparse.
  unfold Receipts.checkPaymentRequirements. rewrite Hfetch, Hstatus, Hheader.
  cbn [N.eqb Pos.eqb negb].
  destruct (buildRequirementsHeader P ps resource overrides) as [|c h] eqn:Hb;
    [congruence|].
  unfold Receipts.readRequirements. rewrite Hparse. reflexivity.
Qed.

Lemma client_reads_server_challenge_witness :
  Receipts.checkPaymentRequirements Reference.platform
    (fun _ =>
       Ok {| Receipts.rs_status := 402;
             Receipts.rs_payment_required :=
               Some (buildRequirementsHeader Reference.platform Cases.seller
                       "https://agent.example/mcp" None);
             Receipts.rs_x_payment_response := None;
             Receipts.rs_payment_response := None |})
    "https://agent.example/mcp"
  = Ok {| Receipts.rq_requiresPayment := true;
          Receipts.rq_amount := Some (JStr "500000");
          Receipts.rq_asset := Some (JStr USDC_BASE);
          Receipts.rq_network := Some (JStr "eip155:8453");
          Receipts.rq_payTo := Some (JStr Scenario.alice) |}.
Proof.
  apply (client_reads_server_challenge Reference.platform Cases.seller
           "https://agent.example/mcp" None
           (fun _ =>
              Ok {| Receipts.rs_status := 402;
                    Receipts.rs_payment_required :=
                      Some (buildRequirementsHeader Reference.platform
                              Cases.seller "https://agent.example/mcp" None);
                    Receipts.rs_x_payment_response := None;
                    Receipts.rs_payment_response := None |})
           "https://agent.example/mcp"
           {| Receipts.rs_status := 402;
              Receipts.rs_payment_required :=
                Some (buildRequirementsHeader Reference.platform Cases.seller
                        "https://agent.example/mcp" None);
              Receipts.rs_x_payment_response := None;
              Receipts.rs_payment_response := None |}).
  - reflexivity.
  - reflexivity.
  - reflexivity.
  - vm_compute. discriminate.
  - vm_compute. reflexivity.
Defined.

(** X19.  The probe does not see the paywall of an MCP server: the
    handler challenges [POST] only, so the [HEAD] request of
    [checkPaymentRequirements] is never answered 402 and the client
    reports [requiresPayment: false], for every server, payment
    configured or not. *)
Theorem head_probe_reports_free (P : Platform) (randomUUID : nat -> string)
    (self : AgentMcpServerInstance) (now : number) (st : ListenState)
    (hostName path probed : string) :
  Receipts.checkPaymentRequirements P
    (fun _ =>
       answerOf (snd (handler P randomUUID self now st
                        (headRequest hostName path))))
    probed
  = Ok (Receipts.unpriced false).
Proof.
  unfold Receipts.checkPaymentRequirements, handler, paymentGate, route,
    headRequest, presentedSession, respondJSON.
  cbn [method url x_payment mcp_session_id].
  change (String.eqb "HEAD" "OPTIONS") with false.
  change (String.eqb "HEAD" "POST") with false.
  change (String.eqb "HEAD" "GET") with false.
  rewrite andb_false_r.
  destruct (negb _); [reflexivity|].
  destruct (paymentServer self); reflexivity.
Qed.

Lemma nullish_default (a : option JValue) (v : JValue) :
  v <> JNull -> exists w, nullish a (Some v) = Some w /\ w <> JNull.
Proof.
  intros Hv. destruct a as [[]|]; cbn [nullish]; eexists;
    (split; [reflexivity|]); first [exact Hv | discriminate].
Qed.

(** X20.  [decodeReceipt] returns [null] when the response has neither
    receipt header, and when [x-payment-response] is present but empty,
    whatever [PAYMENT-RESPONSE] holds; a receipt it returns always has a
    network and a timestamp, the defaults when the header has none. *)
Theorem receipt_has_network_and_time (P : Platform)
    (response : Receipts.Response) (now : number) :
  (Receipts.rs_x_payment_response response = None ->
   Receipts.rs_payment_response response = None ->
   Receipts.decodeReceipt P response now = None)
  /\ (Receipts.rs_x_payment_response response = Some "" ->
      Receipts.decodeReceipt P response now = None)
  /\ (forall receipt,
        Receipts.decodeReceipt P response now = Some receipt ->
        exists v, Receipts.rc_network receipt = Some v /\ v <> JNull)
  /\ (forall receipt,
        Receipts.decodeReceipt P response now = Some receipt ->
        exists v, Receipts.rc_timestamp receipt = Some v /\ v <> JNull).
Proof.
  unfold Receipts.decodeReceipt. split; [|split; [|split]].
  - now intros -> ->.
  - now intros ->.
  - intros receipt.
    destruct (match Receipts.rs_x_payment_response response with
              | Some h => Some h
              | None => Receipts.rs_payment_response response
              end) as [[|c h]|]; try discriminate.
    unfold Receipts.readReceipt.
    destruct (JSON_parse P _) as [decoded|]; cbv beta iota; [|discriminate].
    destruct (getProp (Some decoded) "sender"); cbv beta iota;
      [|discriminate].
    intros [= <-]. apply nullish_default. discriminate.
  - intros receipt.
    destruct (match Receipts.rs_x_payment_response response with
              | Some h => Some h
              | None => Receipts.rs_payment_response response
              end) as [[|c h]|]; try discriminate.
    unfold Receipts.readReceipt.
    destruct (JSON_parse P _) as [decoded|]; cbv beta iota; [|discriminate].
    destruct (getProp (Some decoded) "sender"); cbv beta iota;
      [|discriminate].
    intros [= <-]. apply nullish_default. discriminate.
Qed.

(** ** identity: the endpoints of an agent *)

Lemma arrayFind_found (cb : JValue -> Result bool) (items : list JValue)
    (s : JValue) :
  Endpoints.arrayFind cb items = Ok (Some s) -> In s items /\ cb s = Ok true.
Proof.
  induction items as [|v items IH]; cbn [Endpoints.arrayFind];
    [discriminate|].
  destruct (cb v) as [[|]|] eqn:Hv; try discriminate.
  - intros [= <-]. split; [now left | exact Hv].
  - intros [Hin Hs]%IH. split; [now right | exact Hs].
Qed.

(** X21.  [getMcpEndpoint] returns an endpoint only for an agent that
    [verifyAgent] found valid, and the endpoint is that of a service of
    the verified registration whose name is [MCP] in some letter case; it
    is never [null] inside [Some]. *)
Theorem endpoint_is_of_verified_agent (P : Platform) (W : World)
    (id : string) (e : JValue) :
  Endpoints.getMcpEndpoint P W id = Ok (Some e) ->
  exists r record items service,
    verifyAgent P W (ByGlobalId id) = Ok r
    /\ valid r = true
    /\ registration r = Some record
    /\ getProp (Some record) "services" = Ok (Some (JArr items))
    /\ In service items
    /\ Endpoints.isService "MCP" service = Ok true
    /\ getPropOpt (Some service) "endpoint" = Some e
    /\ e <> JNull.
Proof.
  unfold Endpoints.getMcpEndpoint.
  destruct (verifyAgent P W (ByGlobalId id)) as [r|]; [|discriminate].
  destruct (valid r) eqn:Hv; [|discriminate]. cbn [negb orb].
  destruct (registration r) as [record|] eqn:Hr; [|discriminate].
  destruct (truthy (Some record)); [|discriminate]. cbn [negb].
  unfold Endpoints.findService.
  destruct (getProp (Some record) "services")
    as [[[| | | |items|]|]|] eqn:Hs; try discriminate.
  destruct (Endpoints.arrayFind (Endpoints.isService "MCP") items)
    as [[service|]|] eqn:Hf; try discriminate.
  destruct (arrayFind_found _ _ _ Hf) as [Hin Hname].
  destruct (getPropOpt (Some service) "endpoint") as [[]|] eqn:Hep;
    cbn [nullish]; intros He; try discriminate He;
    injection He as <-;
    exists r, record, items, service;
    (do 6 (split; [first [reflexivity | assumption]|]));
    (split; [exact Hep | discriminate]).
Qed.

Lemma endpoint_is_of_verified_agent_witness :
  exists r,
    verifyAgent Reference.platform Scenario.baseLedger Cases.agent2376 = Ok r
    /\ valid r = true.
Proof.
  destruct (endpoint_is_of_verified_agent Reference.platform
              Scenario.baseLedger
              "eip155:8453:0x8004A169FB4a3325136EB29fA0ceB6D2e539a432#2376"
              (JStr "https://mcp.myagent.example/mcp"))
    as (r & _ & _ & _ & Hr & Hv & _).
  - vm_compute. reflexivity.
  - exists r. split; [exact Hr | exact Hv].
Defined.

Lemma registrationFile_services (self : AgentIdentity)
    (options : RegisterOptions) (agentId : option number) :
  exists fields,
    registrationFile self options agentId = JObj fields
    /\ lookupField fields "services"
       = Some (JArr (map serviceJ match opt_services options with
                                  | Some l => l
                                  | None => []
                                  end)).
Proof.
  unfold registrationFile. eexists. split; [reflexivity|].
  destruct (opt_image options) as [i|]; [destruct (String.eqb i "")|];
    reflexivity.
Qed.

Lemma arrayFind_services (label : string) (l : list AgentService) :
  Endpoints.arrayFind (Endpoints.isService label) (map serviceJ l)
  = Ok (option_map serviceJ (serviceNamed label l)).
Proof.
  unfold serviceNamed.
  induction l as [|s l IH]; [reflexivity|].
  cbn [map Endpoints.arrayFind List.find].
  assert (Hs : Endpoints.isService label (serviceJ s)
               = Ok (String.eqb (Endpoints.toUpperCase (svc_name s)) label))
    by reflexivity.
  rewrite Hs. now destruct (String.eqb _ label).
Qed.

(** The verification of an agent whose ledger entry holds the URI that
    [buildRegistrationUri] built for it. *)
Lemma verifyRef_built (P : Platform) (W : World) (self : AgentIdentity)
    (options : RegisterOptions) (id : number) (c : N) (input : VerifyInput)
    (rpc ownerRead walletRead : string) :
  cfg_chainId (config self) = Finite c ->
  base64_decode P
    (base64_encode P
       (JSON_stringify P (registrationFile self options (Some id))))
  = JSON_stringify P (registrationFile self options (Some id)) ->
  JSON_parse P (JSON_stringify P (registrationFile self options (Some id)))
  = Ok (registrationFile self options (Some id)) ->
  rpcUrlFor input (ownReference self id) = Some rpc ->
  rpc <> "" ->
  readField W rpc (ownReference self id) "ownerOf" = Ok ownerRead ->
  readField W rpc (ownReference self id) "getAgentWallet" = Ok walletRead ->
  readField W rpc (ownReference self id) "tokenURI"
  = Ok (buildRegistrationUri P self options (Some id)) ->
  verifyRef P W input (ownReference self id)
  = verified (ownReference self id) (formatAgentId (ownReference self id))
      ownerRead
      (if String.eqb walletRead ZERO_ADDRESS then None else Some walletRead)
      (registrationFile self options (Some id)).
Proof.
  intros Hc Hb64 Hjson Hrpc Hne Ho Hw Hu.
  unfold verifyRef. rewrite Hrpc.
  destruct rpc as [|ch rpc]; [congruence|].
  rewrite Ho, Hw, Hu. unfold buildRegistrationUri.
  rewrite fetchRegistrationFile_base64, Hb64, Hjson. cbn [snd].
  assert (Hback : hasBackref (registrationFile self options (Some id))
                    (ownReference self id)
                    (registryPrefix (ownReference self id)) = Ok (Some true)).
  { unfold ownReference. rewrite Hc.
    exact (hasBackref_built self options id c Hc). }
  now rewrite Hback.
Qed.

(** X22.  From registration to discovery: when the ledger holds the URI
    that [buildRegistrationUri] built for an agent, [getMcpEndpoint] of
    the agent's global id returns the endpoint of the first service of
    the [RegisterOptions] whose name is [MCP] in some letter case, and
    [null] when there is none. *)
Theorem built_agent_is_discovered (P : Platform) (W : World)
    (self : AgentIdentity) (options : RegisterOptions) (id : number) (c : N)
    (globalId : string) (d : ChainDefaults) (ownerRead walletRead : string) :
  cfg_chainId (config self) = Finite c ->
  base64_decode P
    (base64_encode P
       (JSON_stringify P (registrationFile self options (Some id))))
  = JSON_stringify P (registrationFile self options (Some id)) ->
  JSON_parse P (JSON_stringify P (registrationFile self options (Some id)))
  = Ok (registrationFile self options (Some id)) ->
  parseAgentId globalId = Ok (ownReference self id) ->
  supportedChain (Finite c) = Some d ->
  readField W (chain_rpc d) (ownReference self id) "ownerOf" = Ok ownerRead ->
  readField W (chain_rpc d) (ownReference self id) "getAgentWallet"
  = Ok walletRead ->
  readField W (chain_rpc d) (ownReference self id) "tokenURI"
  = Ok (buildRegistrationUri P self options (Some id)) ->
  Endpoints.getMcpEndpoint P W globalId
  = Ok (option_map (fun s => JStr (svc_endpoint s))
          (serviceNamed "MCP" match opt_services options with
                              | Some l => l
                              | None => []
                              end))
  /\ Endpoints.getA2aEndpoint P W globalId
     = Ok (option_map (fun s => JStr (svc_endpoint s))
             (serviceNamed "A2A" match opt_services options with
                                 | Some l => l
                                 | None => []
                                 end)).
Proof.
  intros Hc Hb64 Hjson Hparse Hchain Ho Hw Hu.
  unfold Endpoints.getMcpEndpoint, Endpoints.getA2aEndpoint, verifyAgent.
  cbn [resolveRef]. rewrite Hparse.
  assert (Hrpc : rpcUrlFor (ByGlobalId globalId) (ownReference self id)
                 = Some (chain_rpc d)).
  { unfold rpcUrlFor, ownReference. cbn [chainId]. rewrite Hc, Hchain.
    reflexivity. }
  assert (Hne : chain_rpc d <> "").
  { unfold supportedChain in Hchain.
    exact (supported_rpc_nonempty _ _ Hchain). }
  rewrite (verifyRef_built P W self options id c _ _ ownerRead walletRead
             Hc Hb64 Hjson Hrpc Hne Ho Hw Hu).
  cbn [valid registration verified negb orb].
  destruct (registrationFile_services self options (Some id))
    as (fields & Hfile & Hservices).
  rewrite Hfile. cbn [truthy negb]. unfold Endpoints.findService.
  cbn [getProp]. rewrite Hservices, !arrayFind_services.
  split.
  - destruct (serviceNamed "MCP" _) as [s|]; reflexivity.
  - destruct (serviceNamed "A2A" _) as [s|]; reflexivity.
Qed.

Lemma built_agent_is_discovered_witness :
  Endpoints.getMcpEndpoint Reference.platform Scenario.baseLedger
    "eip155:8453:0x8004A169FB4a3325136EB29fA0ceB6D2e539a432#2376"
  = Ok (Some (JStr "https://mcp.myagent.example/mcp"))
  /\ Endpoints.getA2aEndpoint Reference.platform Scenario.baseLedger
       "eip155:8453:0x8004A169FB4a3325136EB29fA0ceB6D2e539a432#2376"
     = Ok None.
Proof.
  apply (built_agent_is_discovered Reference.platform Scenario.baseLedger
           Scenario.baseIdentity Scenario.myAgent (Finite 2376) 8453
           "eip155:8453:0x8004A169FB4a3325136EB29fA0ceB6D2e539a432#2376"
           {| chain_name := "Base"; chain_rpc := "https://mainnet.base.org" |}
           Scenario.alice ZERO_ADDRESS).
  - reflexivity.
  - vm_compute; reflexivity.
  - vm_compute; reflexivity.
  - vm_compute; reflexivity.
  - vm_compute; reflexivity.
  - reflexivity.
  - reflexivity.
  - reflexivity.
Defined.

(** ** data: connecting to an agent *)

(** X23.  With an agent id, a client is connected only to a verified
    agent, at the MCP endpoint of its registration: the [url] option plays
    no part, also when the verification fails or the agent has no MCP
    endpoint, where the call throws instead of using the URL. *)
Theorem client_connects_to_verified_agent {Account Fetch : Type}
    (P : Platform) (W : World)
    (connect : JValue -> option (@PaymentClient Account Fetch) -> Result unit)
    (config : DataClient.AgentMcpClientConfig Account) (id : string) :
  DataClient.given (DataClient.cc_agentId config) = Some id ->
  (forall other,
     DataClient.createAgentMcpClient P W connect
       {| DataClient.cc_agentId := DataClient.cc_agentId config;
          DataClient.cc_url := other;
          DataClient.cc_payer := DataClient.cc_payer config |}
     = DataClient.createAgentMcpClient P W connect config)
  /\ (forall inst,
        DataClient.createAgentMcpClient P W connect config = Ok inst ->
        exists r,
          verifyAgent P W (ByGlobalId id) = Ok r
          /\ valid r = true
          /\ DataClient.ci_verification inst = Some r
          /\ Endpoints.getMcpEndpoint P W id = Ok (Some (DataClient.ci_url inst))
          /\ truthy (Some (DataClient.ci_url inst)) = true).
Proof.
  intros Hid. unfold DataClient.createAgentMcpClient.
  cbn [DataClient.cc_agentId DataClient.cc_url DataClient.cc_payer].
  rewrite Hid. split.
  - intros other.
    now destruct (DataClient.given other),
                 (DataClient.given (DataClient.cc_url config)).
  - intros inst.
    destruct (DataClient.given (DataClient.cc_url config)); cbv beta iota;
      (destruct (verifyAgent P W (ByGlobalId id)) as [r|]; [|discriminate]);
      (destruct (valid r) eqn:Hv; [|discriminate]); cbn [negb];
      (destruct (Endpoints.getMcpEndpoint P W id) as [endpoint|];
         [|discriminate]);
      (destruct (truthy endpoint) eqn:Ht; [|discriminate]); cbn [negb];
      (destruct endpoint as [mcpUrl|]; [|discriminate Ht]);
      (destruct (connect mcpUrl _); [|discriminate]);
      intros [= <-]; exists r; cbn; repeat split; auto.
Qed.

Lemma client_connects_to_verified_agent_witness :
  DataClient.createAgentMcpClient Reference.platform Scenario.baseLedger
    Cases.connects (Cases.byAgent (Some "https://elsewhere.example/mcp"))
  = DataClient.createAgentMcpClient Reference.platform Scenario.baseLedger
      Cases.connects (Cases.byAgent None).
Proof.
  destruct (client_connects_to_verified_agent Reference.platform
              Scenario.baseLedger Cases.connects (Cases.byAgent None)
              "eip155:8453:0x8004A169FB4a3325136EB29fA0ceB6D2e539a432#2376"
              eq_refl) as [Hurl _].
  exact (Hurl (Some "https://elsewhere.example/mcp")).
Defined.

(** ** identity: the readers of an identity *)

(** X24.  The readers of an [AgentIdentity] agree with the verifier: when
    [verifyAgent], asked through the identity's own RPC URL and registry,
    reports an owner, [getOwner] returns that owner, [getPaymentWallet]
    the payment wallet of the result ([null] for the zero address), and
    [getAgentURI] the URI from which the registration of the result was
    fetched. *)
Theorem readers_agree_with_verifier (P : Platform) (W : World)
    (self : AgentIdentity) (id : number) (r : VerificationResult)
    (o : string) :
  verifyAgent P W (ownInput self id (self_rpcUrl self)) = Ok r ->
  owner r = Some o ->
  Getters.getOwner W self id = Ok o
  /\ Getters.getPaymentWallet W self id = Ok (paymentWallet r)
  /\ exists u,
       Getters.getAgentURI W self id = Ok u
       /\ forall record,
            registration r = Some record ->
            snd (fetchRegistrationFile P W u DEFAULT_IPFS_GATEWAY)
            = Ok record.
Proof.
  unfold verifyAgent, ownInput. cbn [resolveRef in_chainId in_registry
                                      in_agentId].
  intros [= <-]. unfold verifyRef, rpcUrlFor. cbn [in_rpc].
  unfold Getters.getOwner, Getters.getPaymentWallet, Getters.getAgentURI,
    readField.
  cbn [agentId registry].
  destruct (self_rpcUrl self) as [|c rpc]; [discriminate|].
  destruct (BigInt id) as [n|]; [|discriminate].
  destruct (readContract W (String c rpc) (self_registry self) "ownerOf" n)
    as [o'|]; [|discriminate].
  destruct (readContract W (String c rpc) (self_registry self)
              "getAgentWallet" n) as [w|]; [|discriminate].
  destruct (readContract W (String c rpc) (self_registry self) "tokenURI" n)
    as [u|]; [|discriminate].
  destruct (snd (fetchRegistrationFile P W u DEFAULT_IPFS_GATEWAY))
    as [record|] eqn:Hf.
  - destruct (hasBackref record _ _) as [[[|]|]|];
      unfold caught, failed, verified; cbn [owner paymentWallet registration];
      intros [= <-]; try discriminate;
      (split; [reflexivity|]); (split; [reflexivity|]);
      exists u; (split; [reflexivity|]); now intros ? [= <-].
  - unfold failed. cbn [owner paymentWallet registration].
    intros [= <-]. split; [reflexivity|]. split; [reflexivity|].
    exists u. split; [reflexivity | discriminate].
Qed.

Lemma readers_agree_with_verifier_witness :
  Getters.getOwner Scenario.baseLedger Scenario.baseIdentity (Finite 2376)
  = Ok Scenario.alice.
Proof.
  apply (readers_agree_with_verifier Reference.platform Scenario.baseLedger
           Scenario.baseIdentity (Finite 2376)
           (verifyRef Reference.platform Scenario.baseLedger
              (ownInput Scenario.baseIdentity (Finite 2376)
                 "https://mainnet.base.org")
              (ownReference Scenario.baseIdentity (Finite 2376)))).
  - reflexivity.
  - vm_compute. reflexivity.
Defined.

(** ** identity: the registration of [register] *)

Lemma entriesOf_refs (l : list AgentRegistrationRef) :
  entriesOf (map registrationRefJ l) = Some l.
Proof.
  induction l as [|[n a] l IH]; [reflexivity|].
  cbn [map entriesOf]. rewrite IH. reflexivity.
Qed.

Lemma crossReferences_placeholder (self : AgentIdentity)
    (options : RegisterOptions) :
  crossReferences (registrationFile self options None)
  = Some match opt_existingRegistrations options with
         | Some l => l
         | None => []
         end.
Proof.
  unfold registrationFile, crossReferences.
  assert (Hl : forall image,
             lookupField
               ([("type", JStr REGISTRATION_TYPE);
                 ("name", JStr (opt_name options));
                 ("description", JStr (opt_description options))]
                ++ image
                ++ [("services",
                     JArr (map serviceJ match opt_services options with
                                        | Some l => l
                                        | None => []
                                        end));
                    ("x402Support",
                     JBool match opt_x402Support options with
                           | Some b => b
                           | None => false
                           end);
                    ("active",
                     JBool match opt_active options with
                           | Some b => b
                           | None => true
                           end);
                    ("registrations",
                     JArr (map registrationRefJ
                             match opt_existingRegistrations options with
                             | Some l => l
                             | None => []
                             end))]
                ++ optField "supportedTrust" stringsJ
                     (opt_supportedTrust options))%list "registrations"
             = match lookupField image "registrations" with
               | Some v => Some v
               | None =>
                   Some (JArr (map registrationRefJ
                                 match opt_existingRegistrations options with
                                 | Some l => l
                                 | None => []
                                 end))
               end).
  { intros image. cbn [app lookupField String.eqb Ascii.eqb Bool.eqb].
    induction image as [|[k v] image IH]; [reflexivity|].
    cbn [app lookupField]. destruct (String.eqb k "registrations");
      [reflexivity | exact IH]. }
  rewrite Hl.
  destruct (opt_image options) as [i|]; [destruct (String.eqb i "")|];
    cbn [lookupField String.eqb Ascii.eqb Bool.eqb]; apply entriesOf_refs.
Qed.

(** X25.  The URI that [register] stores first, built without the agent
    id, does not verify: as long as none of the extra registrations of the
    options points back to the agent, [verifyAgent] on a ledger that holds
    this URI returns [valid: false] with the back-reference error. *)
Theorem placeholder_uri_does_not_verify (P : Platform) (W : World)
    (self : AgentIdentity) (options : RegisterOptions)
    (input : VerifyInput) (ref : AgentRef)
    (rpcUrl ownerRead walletRead : string) :
  resolveRef input = Ok ref ->
  rpcUrlFor input ref = Some rpcUrl ->
  rpcUrl <> "" ->
  readField W rpcUrl ref "ownerOf" = Ok ownerRead ->
  readField W rpcUrl ref "getAgentWallet" = Ok walletRead ->
  readField W rpcUrl ref "tokenURI"
  = Ok (buildRegistrationUri P self options None) ->
  base64_decode P
    (base64_encode P (JSON_stringify P (registrationFile self options None)))
  = JSON_stringify P (registrationFile self options None) ->
  JSON_parse P (JSON_stringify P (registrationFile self options None))
  = Ok (registrationFile self options None) ->
  (forall l e, opt_existingRegistrations options = Some l -> In e l ->
               ~ pointsBack ref e) ->
  exists r,
    verifyAgent P W input = Ok r
    /\ valid r = false
    /\ owner r = Some ownerRead
    /\ registration r = Some (registrationFile self options None)
    /\ error r = Some (backrefMissing ref (registryPrefix ref)).
Proof.
  intros Href Hrpc Hne Ho Hw Hu Hb64 Hjson Hnone.
  unfold verifyAgent. rewrite Href. eexists. split; [reflexivity|].
  unfold verifyRef. rewrite Hrpc.
  destruct rpcUrl as [|c rpcUrl]; [congruence|].
  rewrite Ho, Hw, Hu. unfold buildRegistrationUri.
  rewrite fetchRegistrationFile_base64, Hb64, Hjson. cbn [snd].
  assert (Hno : forall e,
             In e match opt_existingRegistrations options with
                  | Some l => l
                  | None => []
                  end -> ~ pointsBack ref e).
  { destruct (opt_existingRegistrations options) as [l|];
      [intros e; now apply (Hnone l) | intros e []]. }
  destruct (hasBackref_none ref _ _ (crossReferences_placeholder self options)
              Hno) as [-> | ->]; repeat split.
Qed.

Lemma placeholder_uri_does_not_verify_witness :
  exists r,
    verifyAgent Reference.platform Cases.pendingLedger Cases.agent2376 = Ok r
    /\ valid r = false
    /\ error r
       = Some (backrefMissing Cases.ref2376 (registryPrefix Cases.ref2376)).
Proof.
  destruct (placeholder_uri_does_not_verify Reference.platform
              Cases.pendingLedger Scenario.baseIdentity Scenario.myAgent
              Cases.agent2376 Cases.ref2376 "https://mainnet.base.org"
              Scenario.alice ZERO_ADDRESS)
    as (r & Hr & Hv & _ & _ & He).
  - reflexivity.
  - reflexivity.
  - discriminate.
  - reflexivity.
  - reflexivity.
  - reflexivity.
  - vm_compute. reflexivity.
  - vm_compute. reflexivity.
  - intros l e Hl. discriminate Hl.
  - exists r. split; [exact Hr|]. split; [exact Hv | exact He].
Defined.

(** ** cli: global ids *)

Lemma cli_matchGlobalId_inv (s chain reg agent : string) :
  Cli.matchGlobalId s = Some (chain, reg, agent) ->
  exists hex,
    reg = "0x" ++ hex
    /\ String.length hex = 40
    /\ isRun isDigit chain = true /\ isRun isHexDigit hex = true
    /\ isRun isDigit agent = true
    /\ s = referenceText "#" chain hex agent.
Proof.
  unfold Cli.matchGlobalId.
  destruct (stripPrefix "eip155:" s) as [s1|] eqn:H1; [|discriminate].
  destruct (span isDigit s1) as [c s2] eqn:H2.
  destruct (String.eqb c "") eqn:Hc; [discriminate|].
  destruct (stripPrefix ":0x" s2) as [s3|] eqn:H3; [|discriminate].
  destruct (span isHexDigit s3) as [h s4] eqn:H4.
  destruct (Nat.eqb_spec (String.length h) 40) as [Hlen|]; [|discriminate].
  cbn [negb].
  destruct (stripPrefix "#" s4) as [s5|] eqn:H5; [|discriminate].
  destruct (span isDigit s5) as [i s6] eqn:H6.
  destruct (String.eqb i "") eqn:Hi; [discriminate|].
  destruct (String.eqb_spec s6 "") as [-> | _]; [|discriminate].
  intros [= <- <- <-]. exists h.
  apply stripPrefix_inv in H1, H3, H5.
  apply span_inv in H2 as [-> Hcd], H4 as [-> Hhd], H6 as [-> Hid].
  assert (Hh : String.eqb h "" = false).
  { destruct h; [discriminate Hlen | reflexivity]. }
  repeat split; auto using isRun_intro.
  subst. unfold referenceText.
  replace (i ++ "") with i by (clear; induction i; simpl; congruence).
  reflexivity.
Qed.

(** X26.  Every global id that the command line accepts is accepted by
    [parseAgentId], with the same chain id and registry; the registry has
    forty hexadecimal digits, and the agent id of the SDK is the double
    nearest to the exact agent id of the command line.  The same id with
    [/] in place of [#] is read by [parseAgentId] as the same reference
    and is rejected by the command line. *)
Theorem cli_ids_are_sdk_ids (id : string) (g : Cli.GlobalId) :
  Cli.parseGlobalId id = Ok g ->
  (exists ref,
     parseAgentId id = Ok ref
     /\ namespace ref = "eip155"
     /\ chainId ref = Cli.g_chainId g
     /\ registry ref = Cli.g_registry g
     /\ String.length (registry ref) = 42
     /\ agentId ref = roundToDouble (Cli.g_agentId g))
  /\ parseAgentId (replaceFirst id "#" "/") = parseAgentId id
  /\ exists m, Cli.parseGlobalId (replaceFirst id "#" "/") = Throw m.
Proof.
  unfold Cli.parseGlobalId.
  destruct (Cli.matchGlobalId id) as [[[chain reg] agent]|] eqn:Hm;
    [|discriminate].
  intros [= <-].
  destruct (cli_matchGlobalId_inv _ _ _ _ Hm)
    as (hex & -> & Hlen & Hc & Hh & Ha & ->).
  assert (Hslash : replaceFirst (referenceText "#" chain hex agent) "#" "/"
                   = referenceText "/" chain hex agent).
  { pose (noHash := fun c : ascii => negb (Ascii.eqb c "#")).
      assert (Hd : forall s, allChars isDigit s = true ->
                             allChars noHash s = true).
      { intros s. apply allChars_weaken. intros c Hcd. unfold noHash.
        now rewrite (isHexDigit_not_hash c (isDigit_isHexDigit c Hcd)). }
      assert (Hx : allChars noHash hex = true).
      { apply run_nonempty in Hh as [_ Hh]. revert Hh.
        apply allChars_weaken. intros c Hcx. unfold noHash.
        now rewrite (isHexDigit_not_hash c Hcx). }
      apply run_nonempty in Hc as [_ Hc].
      assert (Hpre : allChars noHash ("eip155:" ++ chain ++ ":0x" ++ hex)
                     = true).
      { rewrite !allChars_app, (Hd _ Hc), Hx. reflexivity. }
      unfold referenceText.
      replace ("eip155:" ++ chain ++ ":0x" ++ hex ++ "#" ++ agent)
        with (("eip155:" ++ chain ++ ":0x" ++ hex) ++ String "#" agent)
        by (now rewrite !append_assoc).
      rewrite (replaceFirst_first _ _ _ "/" Hpre).
      now rewrite !append_assoc. }
  rewrite Hslash. split; [|split].
  - eexists. split; [now apply parseAgentId_text; auto|].
    cbn [namespace chainId registry agentId Cli.g_chainId Cli.g_registry
         Cli.g_agentId].
    repeat split. cbn [String.append String.length]. now rewrite Hlen.
  - now rewrite !parseAgentId_text by auto.
  - assert (Hno : Cli.matchGlobalId (referenceText "/" chain hex agent)
                  = None).
    { apply run_nonempty in Hc as [Hc1 Hc2], Hh as [Hh1 Hh2].
      unfold Cli.matchGlobalId, referenceText.
      rewrite stripPrefix_app.
      change (chain ++ ":0x" ++ hex ++ "/" ++ agent)
        with (chain ++ String ":" ("0x" ++ hex ++ "/" ++ agent)).
      rewrite (span_run isDigit chain ":" _ Hc2 eq_refl), Hc1.
      change (String ":" ("0x" ++ hex ++ "/" ++ agent))
        with (":0x" ++ hex ++ String "/" agent).
      rewrite stripPrefix_app.
      rewrite (span_run isHexDigit hex "/" _ Hh2 eq_refl).
      now destruct (negb _). }
    rewrite Hno. eexists. reflexivity.
Qed.

Lemma cli_ids_are_sdk_ids_witness :
  exists ref,
    parseAgentId
      "eip155:8453:0x8004A169FB4a3325136EB29fA0ceB6D2e539a432#2376" = Ok ref
    /\ agentId ref = Finite 2376.
Proof.
  destruct (cli_ids_are_sdk_ids
              "eip155:8453:0x8004A169FB4a3325136EB29fA0ceB6D2e539a432#2376"
              {| Cli.g_chainId := Finite 8453;
                 Cli.g_registry :=
                   "0x8004A169FB4a3325136EB29fA0ceB6D2e539a432";
                 Cli.g_agentId := 2376 |})
    as [(ref & Hr & _ & _ & _ & _ & Hid) _].
  - vm_compute. reflexivity.
  - exists ref. split; [exact Hr|]. rewrite Hid. reflexivity.
Defined.

(** ** data: what [ping] tells about payment *)

(** X27.  [ping] describes the paywall as the challenge does: on a server
    built by the constructor and any registrations, [requiresPayment] is
    true exactly when a payment server exists, and then [paymentInfo]
    holds the amount, network and receiver that the requirements of a
    challenge name; without payment configuration there is no
    [paymentInfo]. *)
Theorem ping_describes_the_challenge (cfg : AgentMcpServerConfig)
    (names : list string) (timestamp resource : string) :
  let self := registerAll (newAgentMcpServer cfg) names in
  match paymentServer self with
  | Some ps =>
      getPropOpt (Some (Builtin.pingStatus self timestamp)) "requiresPayment"
      = Some (JBool true)
      /\ getPropOpt (Some (Builtin.pingStatus self timestamp)) "paymentInfo"
         = Some (JObj
                   [("amount",
                     JStr (maxAmountRequired
                             (buildRequirements ps resource None)));
                    ("network",
                     JStr (req_network (buildRequirements ps resource None)));
                    ("payTo",
                     JStr (req_payTo (buildRequirements ps resource None)))])
  | None =>
      getPropOpt (Some (Builtin.pingStatus self timestamp)) "requiresPayment"
      = Some (JBool false)
      /\ getPropOpt (Some (Builtin.pingStatus self timestamp)) "paymentInfo"
         = None
  end.
Proof.
  intros self.
  destruct (registerAll_config names (newAgentMcpServer cfg))
    as (_ & Hp & Hs & _).
  unfold Builtin.pingStatus. fold self in Hp, Hs. rewrite Hp, Hs.
  cbn [newAgentMcpServer cfg_payment paymentServer].
  destruct (payment cfg) as [p|]; split; reflexivity.
Qed.

(** X28.  The endpoint lookups throw on a verified agent whose
    registration has no [services] member: the record passes
    [verifyAgent], which looks at [registrations] only, and reading
    [services.find] then fails with a TypeError instead of returning
    [null]. *)
Theorem lookup_throws_without_services (P : Platform) (W : World)
    (id : string) (r : VerificationResult)
    (fields : list (string * JValue)) :
  verifyAgent P W (ByGlobalId id) = Ok r ->
  valid r = true ->
  registration r = Some (JObj fields) ->
  lookupField fields "services" = None ->
  Endpoints.getMcpEndpoint P W id
  = Throw "Cannot read properties of undefined (reading 'find')"
  /\ Endpoints.getA2aEndpoint P W id
     = Throw "Cannot read properties of undefined (reading 'find')".
Proof.
  intros Hr Hv Hreg Hs.
  unfold Endpoints.getMcpEndpoint, Endpoints.getA2aEndpoint,
    Endpoints.findService.
  rewrite Hr, Hv, Hreg. cbn [negb orb truthy getProp]. rewrite Hs.
  split; reflexivity.
Qed.

Lemma lookup_throws_without_services_witness :
  Endpoints.getMcpEndpoint Reference.platform Cases.bareLedger
    "eip155:8453:0x8004A169FB4a3325136EB29fA0ceB6D2e539a432#2376"
  = Throw "Cannot read properties of undefined (reading 'find')".
Proof.
  eapply (lookup_throws_without_services Reference.platform Cases.bareLedger
            "eip155:8453:0x8004A169FB4a3325136EB29fA0ceB6D2e539a432#2376").
  - reflexivity.
  - vm_compute. reflexivity.
  - vm_compute. reflexivity.
  - reflexivity.
Defined.

(** ** identity: formatting, then parsing *)

(** X29.  Formatting and parsing are inverse on the references of
    [eip155]: when the chain id and the agent id are safe integers and the
    registry is [0x] followed by hexadecimal digits, [parseAgentId] gives
    the reference back from its [formatAgentId] text, and [verifyAgent]
    returns the same for that text as for the object with the same chain
    id, agent id and registry. *)
Theorem format_then_parse (ref : AgentRef) (c n : N) (hex : string) :
  namespace ref = "eip155" ->
  chainId ref = Finite c -> (c < 2 ^ 53)%N ->
  agentId ref = Finite n -> (n < 2 ^ 53)%N ->
  registry ref = "0x" ++ hex -> isRun isHexDigit hex = true ->
  parseAgentId (formatAgentId ref) = Ok ref
  /\ forall (P : Platform) (W : World),
       verifyAgent P W (ByGlobalId (formatAgentId ref))
       = verifyAgent P W
           (ByRef {| in_chainId := chainId ref;
                     in_agentId := agentId ref;
                     in_registry := Some (registry ref);
                     in_rpc := None |}).
Proof.
  destruct ref as [ns chain reg agent]. cbn [namespace chainId registry agentId].
  intros -> -> Hc -> Hn -> Hhex.
  assert (Hdigits : forall v, isRun isDigit (decimal v) = true).
  { intros v. pose proof (decimal_numeral v) as Hv. unfold numeral in Hv.
    now apply andb_prop in Hv as [Hv _]. }
  assert (Hparse : parseAgentId
                     (formatAgentId
                        {| namespace := "eip155"; chainId := Finite c;
                           registry := "0x" ++ hex; agentId := Finite n |})
                   = Ok {| namespace := "eip155"; chainId := Finite c;
                           registry := "0x" ++ hex; agentId := Finite n |}).
  { unfold formatAgentId. cbn [namespace chainId registry agentId].
    rewrite !Number_toString_safe by assumption.
    change ("eip155" ++ ":" ++ decimal c ++ ":" ++ ("0x" ++ hex) ++ "#"
            ++ decimal n)
      with ("eip155:" ++ decimal c ++ ":" ++ ("0x" ++ hex) ++ "#" ++ decimal n).
    replace ("eip155:" ++ decimal c ++ ":" ++ ("0x" ++ hex) ++ "#" ++ decimal n)
      with (referenceText "#" (decimal c) hex (decimal n))
      by (unfold referenceText; reflexivity).
    rewrite parseAgentId_text by auto.
    unfold Number_ofDigits. rewrite !decimalValue_decimal.
    now rewrite !roundToDouble_exact by assumption. }
  split; [exact Hparse|].
  intros P W. unfold verifyAgent. cbn [resolveRef]. rewrite Hparse.
  reflexivity.
Qed.

Lemma format_then_parse_witness :
  parseAgentId (formatAgentId Cases.ref2376) = Ok Cases.ref2376.
Proof.
  apply (format_then_parse Cases.ref2376 8453 2376
           "8004A169FB4a3325136EB29fA0ceB6D2e539a432");
    reflexivity.
Defined.

(** ** data: a session while its transport is open *)

Section Sessions.

Context (P : Platform) (randomUUID : nat -> string)
        (self : AgentMcpServerInstance).

Hypothesis randomUUID_fresh : forall j k, randomUUID j = randomUUID k -> j = k.

Lemma registered_step (st : ListenState) (ev : Event) (id : string)
    (t : Transport) :
  Consistent randomUUID st -> possible st ev ->
  transports st !! id = Some t -> ev <> Closes t ->
  transports (fst (step P randomUUID self st ev)) !! id = Some t.
Proof.
  intros Hst Hev Hl Hne.
  destruct (registered_live _ _ Hst id t Hl) as (Hg & Hin & _).
  destruct ev as [now req | t']; cbn.
  - destruct (handler P randomUUID self now st req) as [st' out] eqn:Hh.
    cbn [fst]. pose proof (handler_state P randomUUID self now st req) as Hs.
    rewrite Hh in Hs. cbn [fst] in Hs.
    destruct Hs as [-> | [-> | ->]]; cbn; try exact Hl.
    rewrite lookup_insert_ne; [exact Hl|].
    destruct (session_minted _ _ Hst t id Hin Hg) as (k & Hk & ->).
    intros Heq%randomUUID_fresh. lia.
  - unfold close, onclose. cbn in Hev.
    destruct (sessionIdGenerator t') as [id'|] eqn:Hg'; cbn; [|exact Hl].
    rewrite lookup_delete_ne; [exact Hl|].
    intros ->. apply Hne. f_equal.
    exact (session_unique _ _ Hst t' t id Hev Hin Hg' Hg).
Qed.

Lemma registered_run (evs : list Event) (st : ListenState) (id : string)
    (t : Transport) :
  Consistent randomUUID st -> admissible P randomUUID self st evs ->
  transports st !! id = Some t -> ~ In (Closes t) evs ->
  transports (run P randomUUID self st evs) !! id = Some t.
Proof.
  revert st. induction evs as [|ev evs IH]; intros st Hst Hadm Hl Hno; cbn.
  - exact Hl.
  - destruct Hadm as [Hev Hrest]. apply IH.
    + now apply Consistent_step.
    + exact Hrest.
    + apply registered_step; auto. intros ->. apply Hno. now left.
    + intros Hin. apply Hno. now right.
Qed.

End Sessions.

(** X30.  A session lives as long as its transport: once a session id is
    registered for a transport, it stays registered for that transport
    through every later request and every closure of another transport,
    and a request presenting the id that comes to the session routing is
    handed to that transport, whatever its method.  Session ids are
    assumed never to repeat and never to be empty. *)
Theorem open_session_is_served (P : Platform) (randomUUID : nat -> string)
    (self : AgentMcpServerInstance) (before after : list Event)
    (t : Transport) (id : string) :
  (forall j k, randomUUID j = randomUUID k -> j = k) ->
  (forall k, randomUUID k <> "") ->
  admissible P randomUUID self initialState (before ++ after) ->
  transports (run P randomUUID self initialState before) !! id = Some t ->
  ~ In (Closes t) after ->
  transports (run P randomUUID self initialState (before ++ after)) !! id
  = Some t
  /\ forall now req,
       mcp_session_id req = Some id ->
       cfg_cors self && String.eqb (method req) "OPTIONS" = false ->
       url req = Some "/mcp" \/ url req = Some "/" ->
       paymentGate P self now (headersSet self) req = None ->
       handler P randomUUID self now
         (run P randomUUID self initialState (before ++ after)) req
       = (run P randomUUID self initialState (before ++ after),
          Forward t (headersSet self)).
Proof.
  intros Hfresh Hnonempty Hadm Hl Hno.
  destruct (admissible_app P randomUUID self _ _ _ Hadm) as [Hadm1 Hadm2].
  pose proof (Consistent_run P randomUUID self Hfresh before initialState
                (Consistent_initial randomUUID) Hadm1) as Hst.
  assert (Hkept : transports (run P randomUUID self initialState
                                (before ++ after)) !! id = Some t).
  { rewrite run_app. now apply registered_run. }
  split; [exact Hkept|].
  intros now req Hid Hpre Hurl Hgate.
  rewrite (handler_accepts P randomUUID self now _ req Hpre Hurl), Hgate.
  destruct (registered_live _ _ Hst id t Hl) as (Hg & Hin & _).
  destruct (session_minted _ _ Hst t id Hin Hg) as (k & _ & ->).
  unfold route, presentedSession. rewrite Hid.
  destruct (randomUUID k) as [|ch rest] eqn:Hk;
    [now apply Hnonempty in Hk|].
  now rewrite Hkept.
Qed.

Lemma open_session_is_served_witness :
  transports
    (run Reference.platform Scenario.uuid Scenario.openServer initialState
       ([Arrives Scenario.noon (Scenario.post "/mcp" "ping" None None)]
        ++ [Arrives Scenario.noon (Scenario.get "/mcp" None)]))
  !! Scenario.uuid 0
  = Some {| tid := 0; sessionIdGenerator := Some (Scenario.uuid 0) |}.
Proof.
  apply (open_session_is_served Reference.platform Scenario.uuid
           Scenario.openServer
           [Arrives Scenario.noon (Scenario.post "/mcp" "ping" None None)]
           [Arrives Scenario.noon (Scenario.get "/mcp" None)]
           {| tid := 0; sessionIdGenerator := Some (Scenario.uuid 0) |}
           (Scenario.uuid 0)).
  - exact uuid_fresh.
  - exact uuid_nonempty.
  - cbn. repeat split.
  - vm_compute. reflexivity.
  - intros [H | []]. discriminate H.
Defined.
